(** * Event routes of the Zoom event platform: tier limits and meeting sync

    A shallow embedding of [backend/routes/events.js] (the Express router
    for [/api/events]) together with the parts of
    [backend/services/zoomService.js] the router calls.

    - The Prisma tables [event] and [attendee] are finite maps: events are
      keyed by their id, attendees by the compound unique key
      [(email, eventId)] the route looks them up with ([email_eventId]).
    - Every [await]ed call of the route is one operation of the monad [M],
      a state monad over the store with exceptions; each operation appends
      to a log, so that the order of store and provider calls can be
      stated.
    - The Zoom provider is an oracle: each of its three calls used by the
      router either returns or throws.
    - A [Date] is the integer number of milliseconds since the epoch, or
      an Invalid Date; a request field that went through [isISO8601] is
      represented by the outcome of that check and by what [new Date]
      makes of the string. Strings are UTF-8 text.
    - The middleware in front of the handlers ([authenticateToken],
      [requireActiveSubscription]) has run: a handler starts with
      [req.user] and [req.body] at hand. *)

From Stdlib Require Import Ascii.
From stdpp Require Import gmap strings list fin_maps pretty.

Open Scope Z_scope.

(** ** Subscription tiers (SUBSCRIPTION_LIMITS) *)

Inductive Tier := TRIAL | STANDARD | PRO.

Record Limits := {
  maxEvents : Z;
  maxAttendees : Z;
  maxDuration : Z (* minutes *)
}.

Definition SUBSCRIPTION_LIMITS (t : Tier) : Limits :=
  match t with
  | TRIAL => {| maxEvents := 3; maxAttendees := 12; maxDuration := 60 |}
  | STANDARD => {| maxEvents := 10; maxAttendees := 250; maxDuration := 240 |}
  | PRO => {| maxEvents := -1; maxAttendees := 500; maxDuration := -1 |}
  end.

(** ** Rows of the two tables *)

Record Event := {
  ev_id : nat;
  ev_title : string;
  ev_description : option string;
  ev_type : string;
  ev_startTime : Z;
  ev_endTime : Z;
  ev_timezone : string;
  ev_maxAttendees : Z;
  ev_currentAttendees : Z;
  ev_dashboardTemplate : string;
  ev_settings : string;
  ev_userId : nat;
  zoomMeetingId : option string;
  zoomMeetingUrl : option string;
  zoomPassword : option string;
  zoomHostKey : option string
}.

Record Attendee := {
  at_email : string;
  at_firstName : string;
  at_lastName : string;
  at_eventId : nat;
  at_joinUrl : option string
}.

(** ** The Zoom provider *)

(** A number that may be [NaN]. *)
Inductive JsNumber := Num (n : Z) | NaN.

(** The [settings] of the payload below: six values the route fixes, and
    the [settings] of the request (a JSON text) spread over them. *)
Record MeetingSettings := {
  host_video : bool;
  participant_video : bool;
  join_before_host : bool;
  mute_upon_entry : bool;
  waiting_room : bool;
  approval_type : Z;
  spread_over : string
}.

(** The payload the create route hands to [zoomService.createMeeting]. *)
Record MeetingData := {
  md_topic : string;
  md_type : Z;
  md_start_time : Z;
  md_duration : JsNumber;
  md_timezone : string;
  md_agenda : option string;
  md_settings : MeetingSettings
}.

(** What [createMeeting] returns, restricted to the fields the route reads
    (each may be missing from the provider's answer). *)
Record ZoomMeeting := {
  zm_id : option Z;
  zm_join_url : option string;
  zm_start_url : option string;
  zm_password : option string
}.

(** The payload of [zoomService.updateMeeting]: a key is present iff the
    route assigned it. *)
Record ZoomUpdateData := {
  zu_topic : option string;
  zu_agenda : option string;
  zu_start_time : option Z;
  zu_duration : option JsNumber
}.

(** One provider behaviour: [None] and [false] stand for a thrown error. *)
Record Zoom := {
  createMeeting : MeetingData -> option ZoomMeeting;
  updateMeeting : string -> ZoomUpdateData -> bool;
  deleteMeeting : string -> bool
}.

(** ** The store and the log of calls *)

Inductive Call :=
| EventCount (userId : nat)
| EventFindUnique (id userId : nat)
| EventCreate (id : nat)
| EventUpdate (id : nat)
| EventDelete (id : nat)
| AttendeeFindUnique (email : string) (eventId : nat)
| AttendeeCreate (email : string) (eventId : nat)
| ZoomCreateMeeting (md : MeetingData) (ok : bool)
| ZoomUpdateMeeting (meetingId : string) (upd : ZoomUpdateData) (ok : bool)
| ZoomDeleteMeeting (meetingId : string) (ok : bool)
| ConsoleError (msg : string).

(** [deletedIds] holds the ids of the events that were deleted: the store
    does not give the id of a row to a later row. *)
Record World := {
  events : gmap nat Event;
  attendees : gmap (string * nat) Attendee;
  calls : list Call;
  deletedIds : gset nat
}.

Definition logged (c : Call) (w : World) : World :=
  {| events := events w; attendees := attendees w; calls := calls w ++ [c];
     deletedIds := deletedIds w |}.

(** A call is a remote-provider call, a store call, or a store write. *)
Definition isZoomCall (c : Call) : bool :=
  match c with
  | ZoomCreateMeeting _ _ | ZoomUpdateMeeting _ _ _ | ZoomDeleteMeeting _ _ => true
  | _ => false
  end.

Definition isStoreCall (c : Call) : bool :=
  match c with
  | EventCount _ | EventFindUnique _ _ | EventCreate _ | EventUpdate _
  | EventDelete _ | AttendeeFindUnique _ _ | AttendeeCreate _ _ => true
  | _ => false
  end.

Definition isStoreWrite (c : Call) : bool :=
  match c with
  | EventCreate _ | EventUpdate _ | EventDelete _ | AttendeeCreate _ _ => true
  | _ => false
  end.

(** ** The monad of route handlers: state, log and thrown errors *)

Definition M (A : Type) : Type := World -> option A * World.

#[global] Instance M_ret : MRet M := fun A (a : A) w => (Some a, w).

#[global] Instance M_bind : MBind M := fun A B (k : A -> M B) (m : M A) w =>
  match m w with
  | (Some a, w') => k a w'
  | (None, w') => (None, w')
  end.

(** [try { m } catch { h }] *)
Definition tryCatch {A} (m : M A) (h : M A) : M A :=
  fun w => match m w with
           | (Some a, w') => (Some a, w')
           | (None, w') => h w'
           end.

Definition call (c : Call) : M unit := fun w => (Some tt, logged c w).

(** An expression that yields a value or throws ([None]), and touches
    neither the store nor the log. *)
Definition orThrow {A} (x : option A) : M A := fun w => (x, w).

Definition consoleError (msg : string) : M unit := call (ConsoleError msg).

(** What the outermost [try]/[catch] of a route leaves: a response. *)
Definition run {A} (fallback : A) (m : M A) (w : World) : A * World :=
  match m w with
  | (Some a, w') => (a, w')
  | (None, w') => (fallback, w')
  end.

(** ** Prisma operations used by the router *)

Definition eventsOf (userId : nat) (w : World) : gmap nat Event :=
  filter (fun kv => ev_userId kv.2 = userId) (events w).

Definition attendeesOf (eventId : nat) (w : World) : gmap (string * nat) Attendee :=
  filter (fun kv => kv.1.2 = eventId) (attendees w).

(** [prisma.event.count({ where: { userId } })] *)
Definition eventCount (userId : nat) : M Z := fun w =>
  (Some (Z.of_nat (size (eventsOf userId w))), logged (EventCount userId) w).

Definition ownedEvent (id userId : nat) (w : World) : option Event :=
  match events w !! id with
  | Some e => if decide (ev_userId e = userId) then Some e else None
  | None => None
  end.

(** [prisma.event.findUnique({ where: { id, userId } })] *)
Definition eventFindUnique (id userId : nat) : M (option Event) := fun w =>
  (Some (ownedEvent id userId w), logged (EventFindUnique id userId) w).

(** The same with [include: { _count: { select: { attendees: true } } }]:
    the event together with the number of its attendee rows. *)
Definition eventFindUniqueWithCount (id userId : nat) : M (option (Event * Z)) :=
  fun w =>
    (Some (e ← ownedEvent id userId w;
           Some (e, Z.of_nat (size (attendeesOf id w)))),
     logged (EventFindUnique id userId) w).

(** [prisma.event.create({ data })]: the store chooses the id, one that no
    event has and no deleted event had. [data] is [None] when it holds a
    [Date] that is invalid: the Prisma client turns such data down before
    it queries the store, and the call throws. *)
Definition eventCreate (data : option (nat -> Event)) : M Event := fun w =>
  match data with
  | Some data =>
      let id := fresh (dom (events w) ∪ deletedIds w) in
      let e := data id in
      (Some e,
       logged (EventCreate id)
         {| events := <[id := e]> (events w); attendees := attendees w;
            calls := calls w; deletedIds := deletedIds w |})
  | None => (None, w)
  end.

(** [prisma.event.update({ where: { id }, data })], which throws when no
    row has that id, and on data with an invalid [Date] as above. *)
Definition eventUpdate (id : nat) (data : option (Event -> Event)) : M Event := fun w =>
  match data with
  | Some data =>
      match events w !! id with
      | Some e =>
          (Some (data e),
           logged (EventUpdate id)
             {| events := <[id := data e]> (events w); attendees := attendees w;
                calls := calls w; deletedIds := deletedIds w |})
      | None => (None, logged (EventUpdate id) w)
      end
  | None => (None, w)
  end.

(** Modelled from the spec: the Prisma schema ([prisma/schema.prisma]),
    which declares what happens to the attendees of a deleted event, is
    not among the sources. An attendee belongs to exactly one event, so
    the rows of the deleted event go with it.

    [prisma.event.delete({ where: { id } })], which throws when no row has
    that id. The id of the deleted row is kept in [deletedIds]. *)
Definition eventDelete (id : nat) : M unit := fun w =>
  match events w !! id with
  | Some _ =>
      (Some tt,
       logged (EventDelete id)
         {| events := delete id (events w);
            attendees := filter (fun kv => kv.1.2 <> id) (attendees w);
            calls := calls w;
            deletedIds := {[id]} ∪ deletedIds w |})
  | None => (None, logged (EventDelete id) w)
  end.

(** [prisma.attendee.findUnique({ where: { email_eventId } })] *)
Definition attendeeFindUnique (email : string) (eventId : nat) : M (option Attendee) :=
  fun w => (Some (attendees w !! (email, eventId)),
            logged (AttendeeFindUnique email eventId) w).

(** [prisma.attendee.create({ data })]: throws on a second row with the
    same [(email, eventId)] and on a row for an event that does not exist. *)
Definition attendeeCreate (a : Attendee) : M Attendee := fun w =>
  let k := (at_email a, at_eventId a) in
  match attendees w !! k, events w !! at_eventId a with
  | None, Some _ =>
      (Some a,
       logged (AttendeeCreate (at_email a) (at_eventId a))
         {| events := events w; attendees := <[k := a]> (attendees w);
            calls := calls w; deletedIds := deletedIds w |})
  | _, _ => (None, logged (AttendeeCreate (at_email a) (at_eventId a)) w)
  end.

(** ** zoomService calls used by the router *)

Definition zoomCreateMeeting (z : Zoom) (md : MeetingData) : M ZoomMeeting := fun w =>
  match createMeeting z md with
  | Some m => (Some m, logged (ZoomCreateMeeting md true) w)
  | None => (None, logged (ZoomCreateMeeting md false) w)
  end.

Definition zoomUpdateMeeting (z : Zoom) (meetingId : string) (upd : ZoomUpdateData) : M unit :=
  fun w =>
    if updateMeeting z meetingId upd
    then (Some tt, logged (ZoomUpdateMeeting meetingId upd true) w)
    else (None, logged (ZoomUpdateMeeting meetingId upd false) w).

Definition zoomDeleteMeeting (z : Zoom) (meetingId : string) : M unit := fun w =>
  if deleteMeeting z meetingId
  then (Some tt, logged (ZoomDeleteMeeting meetingId true) w)
  else (None, logged (ZoomDeleteMeeting meetingId false) w).

(** ** JavaScript and validator helpers *)

(** Truthiness of a possibly missing string: [undefined], [null] and the
    empty string are falsy. *)
Definition truthy (s : option string) : bool :=
  match s with
  | Some v => bool_decide (v <> "")
  | None => false
  end.

(** A field checked by [isISO8601]: missing, rejected, accepted and read
    by [new Date] as the instant [t] (in milliseconds), or accepted and
    not read by [new Date], which makes an Invalid Date of it. The check
    accepts more forms of ISO 8601 than [new Date] reads: a week date
    such as [2030-W01-1] is of the last kind. *)
Inductive IsoField := IsoAbsent | IsoInvalid | Iso (t : Z) | IsoNoDate.

(** Truthiness of such a field: a rejected string is still a non-empty
    string, but the routes answer 400 before they look at it. *)
Definition isoTruthy (f : IsoField) : bool :=
  match f with IsoAbsent => false | _ => true end.

(** [isISO8601()] *)
Definition isoRequired (f : IsoField) : bool :=
  match f with Iso _ | IsoNoDate => true | _ => false end.

(** [optional().isISO8601()] *)
Definition isoOptional (f : IsoField) : bool :=
  match f with IsoInvalid => false | _ => true end.

Definition isoTime (f : IsoField) : option Z :=
  match f with Iso t => Some t | _ => None end.

(** A [Date]: an instant or an Invalid Date, whose time value is [NaN]. *)
Inductive JsDate := DateAt (t : Z) | InvalidDate.

(** [new Date(field)] for a field that passed the check; the handlers
    build no [Date] from any other. *)
Definition newDate (f : IsoField) : JsDate :=
  match f with Iso t => DateAt t | _ => InvalidDate end.

(** [a <= b] on two [Date]s: a comparison with [NaN] is false. *)
Definition dateLe (a b : JsDate) : bool :=
  match a, b with
  | DateAt x, DateAt y => bool_decide (x <= y)
  | _, _ => false
  end.

(** [date.toISOString()], which throws a [RangeError] on an Invalid Date;
    the string is represented by the instant it denotes. *)
Definition toISOString (date : JsDate) : option Z :=
  match date with DateAt t => Some t | InvalidDate => None end.

(** The code points matched by [\s], each as its UTF-8 bytes. *)
Definition whiteSpace : list string :=
  [ String "009" ""; String "010" ""; String "011" ""; String "012" "";
    String "013" ""; String "032" "";                        (* U+0009..U+000D, U+0020 *)
    String "194" (String "160" "");                          (* U+00A0 *)
    String "225" (String "154" (String "128" ""));           (* U+1680 *)
    String "226" (String "128" (String "128" ""));           (* U+2000 *)
    String "226" (String "128" (String "129" ""));
    String "226" (String "128" (String "130" ""));
    String "226" (String "128" (String "131" ""));
    String "226" (String "128" (String "132" ""));
    String "226" (String "128" (String "133" ""));
    String "226" (String "128" (String "134" ""));
    String "226" (String "128" (String "135" ""));
    String "226" (String "128" (String "136" ""));
    String "226" (String "128" (String "137" ""));
    String "226" (String "128" (String "138" ""));           (* U+200A *)
    String "226" (String "128" (String "168" ""));           (* U+2028 *)
    String "226" (String "128" (String "169" ""));           (* U+2029 *)
    String "226" (String "128" (String "175" ""));           (* U+202F *)
    String "226" (String "129" (String "159" ""));           (* U+205F *)
    String "227" (String "128" (String "128" ""));           (* U+3000 *)
    String "239" (String "187" (String "191" "")) ]%char.    (* U+FEFF *)

(** [s] without the prefix [p], if it starts with it. *)
Fixpoint stripPrefix (p s : string) : option string :=
  match p, s with
  | EmptyString, _ => Some s
  | String a p', String b s' => if bool_decide (a = b) then stripPrefix p' s' else None
  | String _ _, EmptyString => None
  end.

(** [s] without the white space character it starts with, if any. *)
Definition stripSpace (spaces : list string) (s : string) : option string :=
  foldr (fun p rest => match stripPrefix p s with
                       | Some r => Some r
                       | None => rest
                       end) None spaces.

(** validator's [ltrim]: the white space [s] starts with is removed, at
    most [rounds] characters of it. *)
Fixpoint stripLeading (spaces : list string) (rounds : nat) (s : string) : string :=
  match rounds with
  | O => s
  | S rounds' =>
      match stripSpace spaces s with
      | Some r => stripLeading spaces rounds' r
      | None => s
      end
  end.

Definition trimStart (s : string) : string :=
  stripLeading whiteSpace (String.length s) s.

(** The same from the end, read backwards. *)
Definition trimEnd (s : string) : string :=
  String.rev (stripLeading (String.rev <$> whiteSpace) (String.length s) (String.rev s)).

(** validator's [trim()] sanitizer: [rtrim(ltrim(str))], both on [\s]. *)
Definition trim (s : string) : string := trimEnd (trimStart s).

(** [Math.ceil(ms / (1000 * 60))] on an integer number of milliseconds. *)
Definition ceilMinutes (ms : Z) : Z := - ((- ms) / (1000 * 60)).

(** [Math.ceil((end - start) / (1000 * 60))] on two [Date]s: [NaN] when
    either is invalid. *)
Definition minutesBetween (startTime endTime : JsDate) : JsNumber :=
  match endTime, startTime with
  | DateAt e, DateAt s => Num (ceilMinutes (e - s))
  | _, _ => NaN
  end.

(** [n > limit], with the value of [n] when it holds; [NaN > limit] is
    false. *)
Definition greaterThan (n : JsNumber) (limit : Z) : option Z :=
  match n with
  | Num v => if bool_decide (limit < v) then Some v else None
  | NaN => None
  end.

(** [a || b] on a possibly missing number: [undefined] and [0] are falsy. *)
Definition orDefault (a : option Z) (b : Z) : Z :=
  match a with
  | Some v => if bool_decide (v = 0) then b else v
  | None => b
  end.

(** ** Requests and responses *)

Record User := {
  user_id : nat;
  subscriptionTier : Tier
}.

(** [req.body] of [POST /api/events]. [cb_maxAttendees] is the integer
    supplied, [cb_settings] the JSON text of the settings object. *)
Record CreateBody := {
  cb_title : option string;
  cb_description : option string;
  cb_type : option string;
  cb_startTime : IsoField;
  cb_endTime : IsoField;
  cb_timezone : option string;
  cb_maxAttendees : option Z;
  cb_dashboardTemplate : option string;
  cb_settings : option string;
  cb_createZoomMeeting : option bool
}.

(** [req.body] of [PUT /api/events/:id]. The route hands the body as it
    comes to [prisma.event.update]; the record has the keys that name the
    columns followed here, and a body with any other key is not among its
    values. *)
Record UpdateBody := {
  ub_title : option string;
  ub_description : option string;
  ub_startTime : IsoField;
  ub_endTime : IsoField;
  ub_timezone : option string;
  ub_maxAttendees : option Z;
  ub_currentAttendees : option Z;
  ub_settings : option string
}.

(** [req.body] of [POST /api/events/:id/attendees]. [ab_email] is [None]
    when the field is missing or rejected by [isEmail], and otherwise the
    address as [normalizeEmail] leaves it. *)
Record AttendeeBody := {
  ab_email : option string;
  ab_firstName : option string;
  ab_lastName : option string
}.

Inductive Response :=
| ValidationFailed                                  (* 400 Validation failed *)
| EventLimitExceeded (currentCount limit : Z)       (* 403 Event limit exceeded *)
| AttendeeLimitExceeded (requested limit : Z)       (* 403 Attendee limit exceeded *)
| DurationLimitExceeded (requested limit : Z)       (* 403 Duration limit exceeded *)
| InvalidStartTime                                  (* 400 Invalid start time *)
| InvalidEndTime                                    (* 400 Invalid end time *)
| EventCreated (event : Event) (zoomMeeting : option ZoomMeeting)   (* 201 *)
| EventNotFound                                     (* 404 Event not found *)
| EventUpdated (event : Event)                      (* 200 *)
| EventDeleted                                      (* 200 *)
| EventIsFull (maxAttendees current : Z)            (* 400 Event is full *)
| AlreadyRegistered                                 (* 400 Already registered *)
| AttendeeRegistered (attendee : Attendee)          (* 201 *)
| ServerError.                                      (* 500 *)

(** ** POST /api/events *)

(** The express-validator chain of the route; on success the sanitized
    title and the two [Date]s the handler makes of [startTime] and
    [endTime]. *)
Definition checkCreate (b : CreateBody) : option (string * JsDate * JsDate) :=
  match cb_title b with
  | Some t =>
      if bool_decide (trim t <> "")
         && isoRequired (cb_startTime b) && isoRequired (cb_endTime b)
         && match cb_maxAttendees b with
            | Some m => bool_decide (1 <= m)
            | None => true
            end
      then Some (trim t, newDate (cb_startTime b), newDate (cb_endTime b))
      else None
  | None => None
  end.

(** A request that passes the chain with two times that are dates: the
    sanitized title and the two instants. *)
Definition validateCreate (b : CreateBody) : option (string * Z * Z) :=
  match checkCreate b with
  | Some (title, DateAt s, DateAt e) => Some (title, s, e)
  | _ => None
  end.

(** Modelled from the spec: the column default of [currentAttendees] is
    declared in the Prisma schema, which is not among the sources; a new
    event has no attendee, and [currentAttendees <= maxAttendees] always. *)
Definition currentAttendees_default : Z := 0.

(** [meetingData], the argument of [zoomService.createMeeting]. *)
Definition meetingDataOf (title : string) (start_time : Z) (duration : JsNumber)
    (body : CreateBody) : MeetingData :=
  {| md_topic := title;
     md_type := 2; (* Scheduled meeting *)
     md_start_time := start_time;
     md_duration := duration;
     md_timezone := default "UTC" (cb_timezone body);
     md_agenda := cb_description body;
     md_settings :=
       {| host_video := true;
          participant_video := true;
          join_before_host := false;
          mute_upon_entry := true;
          waiting_room := true;
          approval_type := 2;
          spread_over := default "{}" (cb_settings body) |} |}.

(** [data] of [prisma.event.create]. *)
Definition eventDataOf (title : string) (startTime endTime attendeeLimit : Z)
    (user : User) (body : CreateBody) (zoomMeeting : option ZoomMeeting) (id : nat)
  : Event :=
  {| ev_id := id;
     ev_title := title;
     ev_description := cb_description body;
     ev_type := default "MEETING" (cb_type body);
     ev_startTime := startTime;
     ev_endTime := endTime;
     ev_timezone := default "UTC" (cb_timezone body);
     ev_maxAttendees := attendeeLimit;
     ev_currentAttendees := currentAttendees_default;
     ev_dashboardTemplate := default "CLASSIC" (cb_dashboardTemplate body);
     ev_settings := default "{}" (cb_settings body);
     ev_userId := user_id user;
     (* Zoom integration fields *)
     zoomMeetingId := pretty <$> (zoomMeeting ≫= zm_id);
     zoomMeetingUrl := zoomMeeting ≫= zm_join_url;
     zoomPassword := zoomMeeting ≫= zm_password;
     zoomHostKey := zoomMeeting ≫= zm_start_url |}.

(** [data] with [startTime: new Date(startTime)] and
    [endTime: new Date(endTime)]: the Prisma client takes it when both are
    dates. *)
Definition createData (title : string) (startTime endTime : JsDate) (attendeeLimit : Z)
    (user : User) (body : CreateBody) (zoomMeeting : option ZoomMeeting)
  : option (nat -> Event) :=
  match startTime, endTime with
  | DateAt s, DateAt e =>
      Some (eventDataOf title s e attendeeLimit user body zoomMeeting)
  | _, _ => None
  end.

Definition postEvent (z : Zoom) (now : Z) (user : User) (body : CreateBody) : M Response :=
  tryCatch
    (match checkCreate body with
     | None => mret ValidationFailed
     | Some (title, startTime, endTime) =>
         let createZoomMeeting := default true (cb_createZoomMeeting body) in
         (* Check subscription limits *)
         let userSubscription := subscriptionTier user in
         let limits := SUBSCRIPTION_LIMITS userSubscription in
         (* Check event count limit *)
         denied ←
           (if bool_decide (maxEvents limits <> -1) then
              eventCount ← eventCount (user_id user);
              mret (if bool_decide (maxEvents limits <= eventCount)
                    then Some (EventLimitExceeded eventCount (maxEvents limits))
                    else None)
            else mret None);
         match denied with
         | Some r => mret r
         | None =>
             (* Validate attendee limit *)
             let attendeeLimit := orDefault (cb_maxAttendees body) (maxAttendees limits) in
             if bool_decide (maxAttendees limits < attendeeLimit) then
               mret (AttendeeLimitExceeded attendeeLimit (maxAttendees limits))
             else
               (* Validate duration limit *)
               let duration := minutesBetween startTime endTime in
               match (if bool_decide (maxDuration limits <> -1)
                      then greaterThan duration (maxDuration limits) else None) with
               | Some requested =>
                   mret (DurationLimitExceeded requested (maxDuration limits))
               | None =>
                   (* Validate start time is in the future *)
                   if dateLe startTime (DateAt now) then mret InvalidStartTime
                   (* Validate end time is after start time *)
                   else if dateLe endTime startTime then mret InvalidEndTime
                   else
                     (* Create Zoom meeting if requested *)
                     zoomMeeting ←
                       (if createZoomMeeting then
                          tryCatch
                            (start_time ← orThrow (toISOString startTime);
                             m ← zoomCreateMeeting z
                                   (meetingDataOf title start_time duration body);
                             mret (Some m))
                            (consoleError "Zoom meeting creation failed:";; mret None)
                        else mret None);
                     (* Create event in database *)
                     event ← eventCreate
                       (createData title startTime endTime attendeeLimit user body
                          zoomMeeting);
                     mret (EventCreated event zoomMeeting)
               end
         end
     end)
    (consoleError "Create event error:";; mret ServerError).

(** ** PUT /api/events/:id *)

(** The validator chain of the route; on success [req.body] as the
    sanitizers leave it (the title trimmed). *)
Definition validateUpdate (b : UpdateBody) : option UpdateBody :=
  if match ub_title b with
     | Some t => bool_decide (trim t <> "")
     | None => true
     end
     && isoOptional (ub_startTime b) && isoOptional (ub_endTime b)
  then Some {| ub_title := trim <$> ub_title b;
               ub_description := ub_description b;
               ub_startTime := ub_startTime b;
               ub_endTime := ub_endTime b;
               ub_timezone := ub_timezone b;
               ub_maxAttendees := ub_maxAttendees b;
               ub_currentAttendees := ub_currentAttendees b;
               ub_settings := ub_settings b |}
  else None.

(** [data] of [prisma.event.update] on a body of these keys: every key of
    the body overwrites the column of that name. *)
Definition applyUpdate (d : UpdateBody) (e : Event) : Event :=
  {| ev_id := ev_id e;
     ev_title := default (ev_title e) (ub_title d);
     ev_description :=
       match ub_description d with
       | Some v => Some v
       | None => ev_description e
       end;
     ev_type := ev_type e;
     ev_startTime := default (ev_startTime e) (isoTime (ub_startTime d));
     ev_endTime := default (ev_endTime e) (isoTime (ub_endTime d));
     ev_timezone := default (ev_timezone e) (ub_timezone d);
     ev_maxAttendees := default (ev_maxAttendees e) (ub_maxAttendees d);
     ev_currentAttendees := default (ev_currentAttendees e) (ub_currentAttendees d);
     ev_dashboardTemplate := ev_dashboardTemplate e;
     ev_settings := default (ev_settings e) (ub_settings d);
     ev_userId := ev_userId e;
     zoomMeetingId := zoomMeetingId e;
     zoomMeetingUrl := zoomMeetingUrl e;
     zoomPassword := zoomPassword e;
     zoomHostKey := zoomHostKey e |}.

(** The condition of the [if] that guards the remote update. *)
Definition meetingDetailsChanged (updateData : UpdateBody) : bool :=
  truthy (ub_title updateData) || isoTruthy (ub_startTime updateData)
  || isoTruthy (ub_endTime updateData) || truthy (ub_description updateData).

(** [zoomUpdateData] as the four [if]s of the route fill it; [None] when
    [toISOString] throws on the way. *)
Definition zoomUpdateDataOf (updateData : UpdateBody) : option ZoomUpdateData :=
  start_time ←
    (if isoTruthy (ub_startTime updateData)
     then Some <$> toISOString (newDate (ub_startTime updateData))
     else Some None);
  Some
    {| zu_topic :=
         if truthy (ub_title updateData) then ub_title updateData else None;
       zu_agenda :=
         if truthy (ub_description updateData) then ub_description updateData else None;
       zu_start_time := start_time;
       zu_duration :=
         if isoTruthy (ub_endTime updateData) && isoTruthy (ub_startTime updateData)
         then Some (minutesBetween (newDate (ub_startTime updateData))
                      (newDate (ub_endTime updateData)))
         else None |}.

(** [data] as [prisma.event.update] gets it, with [new Date] applied to
    the times the body carries: the Prisma client takes it when each of
    them is a date. *)
Definition updateDataOf (updateData : UpdateBody) : option (Event -> Event) :=
  match ub_startTime updateData, ub_endTime updateData with
  | IsoNoDate, _ | _, IsoNoDate => None
  | _, _ => Some (applyUpdate updateData)
  end.

Definition putEvent (z : Zoom) (user : User) (id : nat) (body : UpdateBody) : M Response :=
  tryCatch
    (match validateUpdate body with
     | None => mret ValidationFailed
     | Some updateData =>
         (* Check if event exists and belongs to user *)
         existingEvent ← eventFindUnique id (user_id user);
         match existingEvent with
         | None => mret EventNotFound
         | Some existingEvent =>
             (* Update Zoom meeting if it exists and meeting details changed *)
             match zoomMeetingId existingEvent with
             | Some meetingId =>
                 if bool_decide (meetingId <> "") && meetingDetailsChanged updateData
                 then
                   tryCatch
                     (zoomUpdateData ← orThrow (zoomUpdateDataOf updateData);
                      zoomUpdateMeeting z meetingId zoomUpdateData)
                     (consoleError "Failed to update Zoom meeting:")
                 else mret tt
             | None => mret tt
             end;;
             updatedEvent ← eventUpdate id (updateDataOf updateData);
             mret (EventUpdated updatedEvent)
         end
     end)
    (consoleError "Update event error:";; mret ServerError).

(** ** DELETE /api/events/:id *)

Definition deleteEvent (z : Zoom) (user : User) (id : nat) : M Response :=
  tryCatch
    (event ← eventFindUnique id (user_id user);
     match event with
     | None => mret EventNotFound
     | Some event =>
         (* Delete Zoom meeting if it exists *)
         match zoomMeetingId event with
         | Some meetingId =>
             if bool_decide (meetingId <> "") then
               tryCatch
                 (zoomDeleteMeeting z meetingId)
                 (consoleError "Failed to delete Zoom meeting:")
             else mret tt
         | None => mret tt
         end;;
         eventDelete id;;
         mret EventDeleted
     end)
    (consoleError "Delete event error:";; mret ServerError).

(** ** POST /api/events/:id/attendees *)

Definition validateAttendee (b : AttendeeBody) : option (string * string * string) :=
  match ab_email b, ab_firstName b, ab_lastName b with
  | Some email, Some firstName, Some lastName =>
      if bool_decide (trim firstName <> "") && bool_decide (trim lastName <> "")
      then Some (email, trim firstName, trim lastName) else None
  | _, _, _ => None
  end.

Definition incrementCurrentAttendees (e : Event) : Event :=
  {| ev_id := ev_id e;
     ev_title := ev_title e;
     ev_description := ev_description e;
     ev_type := ev_type e;
     ev_startTime := ev_startTime e;
     ev_endTime := ev_endTime e;
     ev_timezone := ev_timezone e;
     ev_maxAttendees := ev_maxAttendees e;
     ev_currentAttendees := ev_currentAttendees e + 1;
     ev_dashboardTemplate := ev_dashboardTemplate e;
     ev_settings := ev_settings e;
     ev_userId := ev_userId e;
     zoomMeetingId := zoomMeetingId e;
     zoomMeetingUrl := zoomMeetingUrl e;
     zoomPassword := zoomPassword e;
     zoomHostKey := zoomHostKey e |}.

Definition postAttendee (user : User) (id : nat) (body : AttendeeBody) : M Response :=
  tryCatch
    (match validateAttendee body with
     | None => mret ValidationFailed
     | Some (email, firstName, lastName) =>
         event ← eventFindUniqueWithCount id (user_id user);
         match event with
         | None => mret EventNotFound
         | Some (event, count_attendees) =>
             (* Check attendee limit *)
             if bool_decide (ev_maxAttendees event <= count_attendees) then
               mret (EventIsFull (ev_maxAttendees event) count_attendees)
             else
               (* Check if attendee already registered *)
               existingAttendee ← attendeeFindUnique email id;
               match existingAttendee with
               | Some _ => mret AlreadyRegistered
               | None =>
                   attendee ← attendeeCreate
                     {| at_email := email;
                        at_firstName := firstName;
                        at_lastName := lastName;
                        at_eventId := id;
                        at_joinUrl := zoomMeetingUrl event |};
                   (* Update current attendee count *)
                   eventUpdate id (Some incrementCurrentAttendees);;
                   mret (AttendeeRegistered attendee)
               end
         end
     end)
    (consoleError "Add attendee error:";; mret ServerError).

(** ** The attendee route between its [await]s

    Node runs one handler at a time but hands control to other requests at
    every [await]. The handler of [POST /api/events/:id/attendees] awaits
    four store calls; [regStep] runs it from one [await] to the next, with
    the local variables that are live there. *)

Inductive RegState :=
| RegStart
| RegGotEvent (email firstName lastName : string) (event : option (Event * Z))
| RegGotExisting (email firstName lastName : string) (event : Event)
    (existingAttendee : option Attendee)
| RegCreated (attendee : Attendee)
| RegDone (r : Response).

Definition regStep (user : User) (id : nat) (body : AttendeeBody) (st : RegState)
  : M RegState :=
  tryCatch
    (match st with
     | RegStart =>
         match validateAttendee body with
         | None => mret (RegDone ValidationFailed)
         | Some (email, firstName, lastName) =>
             event ← eventFindUniqueWithCount id (user_id user);
             mret (RegGotEvent email firstName lastName event)
         end
     | RegGotEvent email firstName lastName None => mret (RegDone EventNotFound)
     | RegGotEvent email firstName lastName (Some (event, count_attendees)) =>
         if bool_decide (ev_maxAttendees event <= count_attendees) then
           mret (RegDone (EventIsFull (ev_maxAttendees event) count_attendees))
         else
           existingAttendee ← attendeeFindUnique email id;
           mret (RegGotExisting email firstName lastName event existingAttendee)
     | RegGotExisting email firstName lastName event (Some _) =>
         mret (RegDone AlreadyRegistered)
     | RegGotExisting email firstName lastName event None =>
         attendee ← attendeeCreate
           {| at_email := email;
              at_firstName := firstName;
              at_lastName := lastName;
              at_eventId := id;
              at_joinUrl := zoomMeetingUrl event |};
         mret (RegCreated attendee)
     | RegCreated attendee =>
         eventUpdate id (Some incrementCurrentAttendees);;
         mret (RegDone (AttendeeRegistered attendee))
     | RegDone r => mret (RegDone r)
     end)
    (consoleError "Add attendee error:";; mret (RegDone ServerError)).

Record RegRequest := {
  rq_user : User;
  rq_id : nat;
  rq_body : AttendeeBody
}.

Definition regAdvance (rq : RegRequest) (st : RegState) (w : World) : RegState * World :=
  run (RegDone ServerError) (regStep (rq_user rq) (rq_id rq) (rq_body rq) st) w.

(** One request alone: its steps back to back. *)
Fixpoint regRun (n : nat) (rq : RegRequest) (st : RegState) (w : World)
  : RegState * World :=
  match n with
  | O => (st, w)
  | S n' => let '(st', w') := regAdvance rq st w in regRun n' rq st' w'
  end.

(** Two requests in flight: the schedule says whose turn it is at each
    step ([true] for the first request). *)
Fixpoint interleave (schedule : list bool) (rqA rqB : RegRequest)
    (stA stB : RegState) (w : World) : RegState * RegState * World :=
  match schedule with
  | [] => (stA, stB, w)
  | true :: rest =>
      let '(stA', w') := regAdvance rqA stA w in
      interleave rest rqA rqB stA' stB w'
  | false :: rest =>
      let '(stB', w') := regAdvance rqB stB w in
      interleave rest rqA rqB stA stB' w'
  end.

Definition succeeded (st : RegState) : bool :=
  match st with
  | RegDone (AttendeeRegistered _) => true
  | _ => false
  end.

Definition deniedFull (st : RegState) : bool :=
  match st with
  | RegDone (EventIsFull _ _) => true
  | _ => false
  end.

(** ** The tier policy as the specification words it *)

Inductive DenyKind :=
| KEventLimitExceeded | KAttendeeLimitExceeded | KDurationLimitExceeded.

(** [Deny kind limit value]: [value] is [currentCount] for the event
    limit and [requested] for the other two. *)
Inductive Decision :=
| Allow
| Deny (kind : DenyKind) (limit value : Z).

Definition evaluate_spec (tier : Limits)
    (existingEventCount requestedAttendees requestedDurationMinutes : Z) : Decision :=
  if bool_decide (maxEvents tier <> -1 /\ existingEventCount >= maxEvents tier)
  then Deny KEventLimitExceeded (maxEvents tier) existingEventCount
  else if bool_decide (requestedAttendees > maxAttendees tier)
  then Deny KAttendeeLimitExceeded (maxAttendees tier) requestedAttendees
  else if bool_decide (maxDuration tier <> -1
                       /\ requestedDurationMinutes > maxDuration tier)
  then Deny KDurationLimitExceeded (maxDuration tier) requestedDurationMinutes
  else Allow.

(** The policy decision a response of the create route carries. *)
Definition decisionOf (r : Response) : Decision :=
  match r with
  | EventLimitExceeded currentCount limit => Deny KEventLimitExceeded limit currentCount
  | AttendeeLimitExceeded requested limit => Deny KAttendeeLimitExceeded limit requested
  | DurationLimitExceeded requested limit => Deny KDurationLimitExceeded limit requested
  | _ => Allow
  end.

(** The quantities the policy is evaluated on, as the route computes them. *)
Definition limitsOf (u : User) : Limits := SUBSCRIPTION_LIMITS (subscriptionTier u).

Definition existingEventCount (u : User) (w : World) : Z :=
  Z.of_nat (size (eventsOf (user_id u) w)).

Definition requestedAttendees (u : User) (b : CreateBody) : Z :=
  orDefault (cb_maxAttendees b) (maxAttendees (limitsOf u)).

(** The store after the event-count check: the count query is issued
    unless the tier is unlimited. *)
Definition afterCount (u : User) (w : World) : World :=
  if bool_decide (maxEvents (limitsOf u) <> -1)
  then logged (EventCount (user_id u)) w else w.

(** The store after the optional provider call of the create route. *)
Definition afterZoomCreate (z : Zoom) (md : MeetingData) (requested : bool) (w : World)
  : option ZoomMeeting * World :=
  if requested then
    match createMeeting z md with
    | Some m => (Some m, logged (ZoomCreateMeeting md true) w)
    | None =>
        (None,
         logged (ConsoleError "Zoom meeting creation failed:")
           (logged (ZoomCreateMeeting md false) w))
    end
  else (None, w).

(** The same for a request with a time that is no date: when it is the
    start, [toISOString] throws before the provider is called. *)
Definition afterZoomAttempt (z : Zoom) (title : string) (startTime : JsDate)
    (body : CreateBody) (w : World) : option ZoomMeeting * World :=
  if default true (cb_createZoomMeeting body) then
    match startTime with
    | DateAt s => afterZoomCreate z (meetingDataOf title s NaN body) true w
    | InvalidDate => (None, logged (ConsoleError "Zoom meeting creation failed:") w)
    end
  else (None, w).

(** The store once [prisma.event.create] has stored [e]. *)
Definition withEvent (e : Event) (w : World) : World :=
  logged (EventCreate (ev_id e))
    {| events := <[ev_id e := e]> (events w); attendees := attendees w;
       calls := calls w; deletedIds := deletedIds w |}.

(** [event._count.attendees]: the number of attendee rows of the event. *)
Definition countAttendees (w : World) (id : nat) : Z :=
  Z.of_nat (size (attendeesOf id w)).

(** The store after the guarded provider call of the update route. *)
Definition afterZoomUpdate (z : Zoom) (existingEvent : Event) (updateData : UpdateBody)
    (w : World) : World :=
  match zoomMeetingId existingEvent with
  | Some meetingId =>
      if bool_decide (meetingId <> "") && meetingDetailsChanged updateData then
        match zoomUpdateDataOf updateData with
        | Some zoomUpdateData =>
            if updateMeeting z meetingId zoomUpdateData
            then logged (ZoomUpdateMeeting meetingId zoomUpdateData true) w
            else logged (ConsoleError "Failed to update Zoom meeting:")
                   (logged (ZoomUpdateMeeting meetingId zoomUpdateData false) w)
        | None => logged (ConsoleError "Failed to update Zoom meeting:") w
        end
      else w
  | None => w
  end.

(** The calls of the delete route that concern the provider. *)
Definition zoomDeleteCalls (z : Zoom) (event : Event) : list Call :=
  match zoomMeetingId event with
  | Some meetingId =>
      if bool_decide (meetingId <> "") then
        if deleteMeeting z meetingId
        then [ZoomDeleteMeeting meetingId true]
        else [ZoomDeleteMeeting meetingId false;
              ConsoleError "Failed to delete Zoom meeting:"]
      else []
  | None => []
  end.

(** The calls a handler added to the log. *)
Definition newCalls (w w' : World) : list Call := drop (length (calls w)) (calls w').

(** The row the attendee route creates. *)
Definition attendeeRow (email firstName lastName : string) (id : nat) (event : Event)
  : Attendee :=
  {| at_email := email;
     at_firstName := firstName;
     at_lastName := lastName;
     at_eventId := id;
     at_joinUrl := zoomMeetingUrl event |}.

(** ** Sample data

    A small store built with the routes themselves, used to run the
    handlers on concrete requests. *)

Definition emptyWorld : World :=
  {| events := ∅; attendees := ∅; calls := []; deletedIds := ∅ |}.

(** A provider that answers, and one whose every call throws. *)
Definition zoomUp : Zoom :=
  {| createMeeting := fun _ =>
       Some {| zm_id := Some 8451;
               zm_join_url := Some "https://zoom.us/j/8451";
               zm_start_url := Some "https://zoom.us/s/8451";
               zm_password := Some "k3Yq81Lm" |};
     updateMeeting := fun _ _ => true;
     deleteMeeting := fun _ => true |}.

Definition zoomDown : Zoom :=
  {| createMeeting := fun _ => None;
     updateMeeting := fun _ _ => false;
     deleteMeeting := fun _ => false |}.

Definition alice : User := {| user_id := 1; subscriptionTier := TRIAL |}.
Definition bea : User := {| user_id := 2; subscriptionTier := STANDARD |}.

(** One hour, starting one hour after the clock reading [0] used below. *)
Definition talk : CreateBody :=
  {| cb_title := Some " Talk "; cb_description := None; cb_type := None;
     cb_startTime := Iso 3600000; cb_endTime := Iso 7200000;
     cb_timezone := None; cb_maxAttendees := None; cb_dashboardTemplate := None;
     cb_settings := None; cb_createZoomMeeting := None |}.

(** The same with a single seat. *)
Definition talkForOne : CreateBody :=
  {| cb_title := Some "Talk"; cb_description := None; cb_type := None;
     cb_startTime := Iso 3600000; cb_endTime := Iso 7200000;
     cb_timezone := None; cb_maxAttendees := Some 1; cb_dashboardTemplate := None;
     cb_settings := None; cb_createZoomMeeting := None |}.

(** 240.2 minutes. *)
Definition workshop : CreateBody :=
  {| cb_title := Some "Workshop"; cb_description := Some "Hands-on"; cb_type := None;
     cb_startTime := Iso 3600000; cb_endTime := Iso 18012000;
     cb_timezone := None; cb_maxAttendees := Some 250; cb_dashboardTemplate := None;
     cb_settings := None; cb_createZoomMeeting := None |}.


(** A title that is one no-break space (U+00A0). *)
Definition talkWithoutTitle : CreateBody :=
  {| cb_title := Some (String "194" (String "160" "")); cb_description := None;
     cb_type := None; cb_startTime := Iso 3600000; cb_endTime := Iso 7200000;
     cb_timezone := None; cb_maxAttendees := None; cb_dashboardTemplate := None;
     cb_settings := None; cb_createZoomMeeting := None |}.

Definition after (m : M Response) (w : World) : World := (run ServerError m w).2.

(** Alice has one event, linked to a meeting. *)
Definition linked : World := after (postEvent zoomUp 0 alice talk) emptyWorld.

(** Alice has used up the three events of her tier. *)
Definition threeEvents : World :=
  after (postEvent zoomUp 0 alice talk)
    (after (postEvent zoomDown 0 alice talk) linked).

(** Alice has one event with one seat. *)
Definition oneSeat : World := after (postEvent zoomUp 0 alice talkForOne) emptyWorld.

Definition ann : AttendeeBody :=
  {| ab_email := Some "ann@example.com"; ab_firstName := Some "Ann";
     ab_lastName := Some "Lee" |}.

Definition bob : AttendeeBody :=
  {| ab_email := Some "bob@example.com"; ab_firstName := Some "Bob";
     ab_lastName := Some "Ray" |}.

(** Ann took the seat. *)
Definition seatTaken : World := after (postAttendee alice 0 ann) oneSeat.

(** [{ "currentAttendees": 1 }] *)
Definition counterToOne : UpdateBody :=
  {| ub_title := None; ub_description := None; ub_startTime := IsoAbsent;
     ub_endTime := IsoAbsent; ub_timezone := None; ub_maxAttendees := None;
     ub_currentAttendees := Some 1; ub_settings := None |}.

(** [{ "endTime": ... }]: the talk now ends an hour later. *)
Definition endLater : UpdateBody :=
  {| ub_title := None; ub_description := None; ub_startTime := IsoAbsent;
     ub_endTime := Iso 10800000; ub_timezone := None; ub_maxAttendees := None;
     ub_currentAttendees := None; ub_settings := None |}.

(** [{ "endTime": ... }]: the talk now ends half an hour before it starts. *)
Definition endBeforeStart : UpdateBody :=
  {| ub_title := None; ub_description := None; ub_startTime := IsoAbsent;
     ub_endTime := Iso 1800000; ub_timezone := None; ub_maxAttendees := None;
     ub_currentAttendees := None; ub_settings := None |}.

(** [{ "endTime": ... }] with a week date, which is no date for
    [new Date]. *)
Definition endOnWeekDate : UpdateBody :=
  {| ub_title := None; ub_description := None; ub_startTime := IsoAbsent;
     ub_endTime := IsoNoDate; ub_timezone := None; ub_maxAttendees := None;
     ub_currentAttendees := None; ub_settings := None |}.

(** Two requests for the last seat, and two schedules for them. *)
Definition rqAnn : RegRequest := {| rq_user := alice; rq_id := 0; rq_body := ann |}.
Definition rqBob : RegRequest := {| rq_user := alice; rq_id := 0; rq_body := bob |}.

Definition oneAfterTheOther : list bool :=
  [true; true; true; true; false; false; false; false].

Definition takingTurns : list bool :=
  [true; false; true; false; true; false; true; false].

(** ** Requests one after the other *)

Record CreateRequest := {
  cr_zoom : Zoom;
  cr_now : Z;
  cr_user : User;
  cr_body : CreateBody
}.

(** [POST /api/events] requests served back to back, each with the
    provider behaviour and the clock reading it meets. *)
Definition createAll (rs : list CreateRequest) (w : World) : World :=
  foldl (fun w r => after (postEvent (cr_zoom r) (cr_now r) (cr_user r) (cr_body r)) w)
    w rs.

(** [POST /api/events/:id/attendees] requests served back to back. *)
Definition registerAll (rs : list RegRequest) (w : World) : World :=
  foldl (fun w r => after (postAttendee (rq_user r) (rq_id r) (rq_body r)) w) w rs.

(** A request to the create, the delete or the attendee route, with the
    provider behaviour and the clock reading it meets. These are the
    routes that choose themselves what they write; the update route
    writes what the body names. *)
Inductive Request :=
| PostEvent (z : Zoom) (now : Z) (user : User) (body : CreateBody)
| DeleteEvent (z : Zoom) (user : User) (id : nat)
| PostAttendee (user : User) (id : nat) (body : AttendeeBody).

Definition handle (rq : Request) : M Response :=
  match rq with
  | PostEvent z now user body => postEvent z now user body
  | DeleteEvent z user id => deleteEvent z user id
  | PostAttendee user id body => postAttendee user id body
  end.

(** Requests of any kind served back to back. *)
Definition serveAll (rqs : list Request) (w : World) : World :=
  foldl (fun w rq => after (handle rq) w) w rqs.

(** * zoomService.js

    The service object behind the [Zoom] oracle of the routes: a token
    cache in [this], and requests sent with axios. The network is an
    oracle that tells, for a request sent at a given time, how long the
    reply takes and what it is; [Math.random] is an oracle too. *)

(** JSON values, for request bodies and response data. *)
#[warnings="-register-all"]
Inductive JVal :=
| JNull
| JBool (b : bool)
| JNum (n : Z)
| JStr (s : string)
| JArr (l : list JVal)
| JObj (o : gmap string JVal).

Definition jsTruthy (v : JVal) : bool :=
  match v with
  | JNull => false
  | JBool b => b
  | JNum n => bool_decide (n <> 0)
  | JStr s => bool_decide (s <> "")
  | JArr _ | JObj _ => true
  end.

(** A thrown [Error]: its [message], and [error.response?.data?.message]
    when axios attached a response whose data carries a string there. *)
Record JsError := {
  err_message : string;
  err_response_message : option string
}.

(** [new Error(message)] *)
Definition newError (message : string) : JsError :=
  {| err_message := message; err_response_message := None |}.

(** [response.data] of the token endpoint. *)
Record TokenData := {
  access_token : string;
  expires_in : Z   (* seconds *)
}.

(** The [config] handed to [axios] by [makeRequest]. *)
Record AxiosConfig := {
  cfg_method : string;
  cfg_url : string;
  cfg_authorization : string;
  cfg_data : option JVal
}.

(** What went out on the network. *)
Inductive Wire :=
| TokenPost
| ApiCall (config : AxiosConfig).

Record Reply (D : Type) := {
  elapsed : N;                 (* milliseconds until the promise settles *)
  outcome : JsError + D
}.
Arguments elapsed {D}.
Arguments outcome {D}.

Record Net := {
  tokenReply : Z -> Reply TokenData;
  apiReply : Z -> AxiosConfig -> Reply JVal;
  (* the value of [Math.floor(Math.random() * chars.length)] at the n-th draw *)
  randomIndex : nat -> nat
}.

(** The fields of [this] that change. *)
Record ZoomService := {
  accessToken : option string;
  tokenExpiry : option Z
}.

Record Node := {
  this : ZoomService;
  clock : Z;                   (* Date.now() *)
  wire : list Wire;
  stderr : list string;        (* console.error, by its first argument *)
  draws : nat                  (* calls of Math.random so far *)
}.

(** The constructor of [ZoomService]. *)
Definition newZoomService : ZoomService :=
  {| accessToken := None; tokenExpiry := None |}.

Definition Svc (A : Type) : Type := Node -> (JsError + A) * Node.

#[global] Instance Svc_ret : MRet Svc := fun A (a : A) n => (inr a, n).

#[global] Instance Svc_bind : MBind Svc := fun A B (k : A -> Svc B) (m : Svc A) n =>
  match m n with
  | (inr a, n') => k a n'
  | (inl e, n') => (inl e, n')
  end.

Definition throwS {A} (e : JsError) : Svc A := fun n => (inl e, n).

(** [try { m } catch (error) { h error }] *)
Definition tryCatchS {A} (m : Svc A) (h : JsError -> Svc A) : Svc A := fun n =>
  match m n with
  | (inr a, n') => (inr a, n')
  | (inl e, n') => h e n'
  end.

Definition getThis : Svc ZoomService := fun n => (inr (this n), n).

Definition setThis (t : ZoomService) : Svc unit := fun n =>
  (inr tt, {| this := t; clock := clock n; wire := wire n; stderr := stderr n;
              draws := draws n |}).

Definition dateNow : Svc Z := fun n => (inr (clock n), n).

Definition complain (label : string) (n : Node) : Node :=
  {| this := this n; clock := clock n; wire := wire n;
     stderr := stderr n ++ [label]; draws := draws n |}.

Definition consoleErrorS (label : string) : Svc unit := fun n =>
  (inr tt, complain label n).

(** The node once a request has gone out and its reply has come in. *)
Definition elapse {D} (sent : Wire) (r : Reply D) (n : Node) : Node :=
  {| this := this n; clock := clock n + Z.of_N (elapsed r);
     wire := wire n ++ [sent]; stderr := stderr n; draws := draws n |}.

(** An awaited axios call: the request goes out, time passes, and the
    promise resolves or rejects. *)
Definition awaitReply {D} (sent : Wire) (r : Reply D) : Svc D := fun n =>
  (outcome r, elapse sent r n).

(** [axios.post('https://zoom.us/oauth/token', ...)] *)
Definition axiosPostToken (net : Net) : Svc TokenData := fun n =>
  awaitReply TokenPost (tokenReply net (clock n)) n.

(** [axios(config)], resolved to [response.data]. *)
Definition axios (net : Net) (config : AxiosConfig) : Svc JVal := fun n =>
  awaitReply (ApiCall config) (apiReply net (clock n) config) n.

(** [this.tokenExpiry > Date.now()]; [null] is not later than any time
    after the epoch. *)
Definition laterThan (expiry : option Z) (now : Z) : bool :=
  match expiry with
  | Some t => bool_decide (now < t)
  | None => bool_decide (now < 0)
  end.

Definition getAccessToken (net : Net) : Svc (option string) :=
  tryCatchS
    (this ← getThis;
     now ← dateNow;
     (* Check if token is still valid *)
     if truthy (accessToken this) && laterThan (tokenExpiry this) now then
       mret (accessToken this)
     else
       response ← axiosPostToken net;
       now ← dateNow;
       (* Set expiry to 5 minutes before actual expiry for safety *)
       setThis {| accessToken := Some (access_token response);
                  tokenExpiry := Some (now + (expires_in response - 300) * 1000) |};;
       this ← getThis;
       mret (accessToken this))
    (fun error =>
       consoleErrorS "Zoom token error:";;
       throwS (newError "Failed to get Zoom access token")).

Definition baseURL : string := "https://api.zoom.us/v2".

(** [`Bearer ${token}`] *)
Definition bearer (token : option string) : string :=
  "Bearer " +:+ default "undefined" token.

(** [a || b] on a possibly missing string. *)
Definition orElse (a : option string) (b : string) : string :=
  if truthy a then default b a else b.

(** [config] of [makeRequest]; [data] is attached when it is truthy. *)
Definition requestConfig (method endpoint : string) (token : option string)
    (data : option JVal) : AxiosConfig :=
  {| cfg_method := method;
     cfg_url := baseURL +:+ endpoint;
     cfg_authorization := bearer token;
     cfg_data := match data with
                 | Some d => if jsTruthy d then Some d else None
                 | None => None
                 end |}.

Definition makeRequest (net : Net) (method endpoint : string) (data : option JVal)
  : Svc JVal :=
  tryCatchS
    (token ← getAccessToken net;
     let config := requestConfig method endpoint token data in
     axios net config)
    (fun error =>
       consoleErrorS "Zoom API error:";;
       throwS (newError (orElse (err_response_message error) "Zoom API request failed"))).

(** [result.key]: reading a property of [null] throws, a primitive has
    none of the properties read here. *)
Definition getProperty (result : JVal) (key : string) : Svc (option JVal) :=
  match result with
  | JNull =>
      throwS (newError ("Cannot read properties of null (reading '" +:+ key +:+ "')"))
  | JObj o => mret (o !! key)
  | _ => mret None
  end.

(** [{ k1: result.k1, k2: result.k2, ... }], keeping the keys whose value
    is not [undefined]. *)
Fixpoint pick (result : JVal) (keys : list string) : Svc (gmap string JVal) :=
  match keys with
  | [] => mret ∅
  | key :: rest =>
      v ← getProperty result key;
      o ← pick result rest;
      mret (match v with Some v => <[key := v]> o | None => o end)
  end.

(** Get meeting details *)
Definition getMeeting (net : Net) (meetingId : string) : Svc JVal :=
  tryCatchS
    (makeRequest net "GET" ("/meetings/" +:+ meetingId) None)
    (fun error =>
       throwS (newError ("Failed to get meeting details: " +:+ err_message error))).

(** Update meeting *)
Definition service_updateMeeting (net : Net) (meetingId : string) (updateData : JVal)
  : Svc JVal :=
  tryCatchS
    (makeRequest net "PATCH" ("/meetings/" +:+ meetingId) (Some updateData);;
     getMeeting net meetingId)
    (fun error =>
       throwS (newError ("Failed to update meeting: " +:+ err_message error))).

(** Delete meeting *)
Definition service_deleteMeeting (net : Net) (meetingId : string) : Svc JVal :=
  tryCatchS
    (makeRequest net "DELETE" ("/meetings/" +:+ meetingId) None;;
     mret (JObj {[ "success" := JBool true ]}))
    (fun error =>
       throwS (newError ("Failed to delete meeting: " +:+ err_message error))).

(** List meetings for user. The fourth argument of the call in the source
    has no parameter to land in: [makeRequest] takes three. *)
Definition listMeetings (net : Net) (type : string) : Svc JVal :=
  tryCatchS
    (response ← makeRequest net "GET" "/users/me/meetings" None;
     meetings ← getProperty response "meetings";
     mret (match meetings with
           | Some m => if jsTruthy m then m else JArr []
           | None => JArr []
           end))
    (fun error =>
       throwS (newError ("Failed to list meetings: " +:+ err_message error))).

(** Generate meeting password *)
Definition chars : string :=
  "abcdefghijklmnopqrstuvwxyzABCDEFGHIJKLMNOPQRSTUVWXYZ0123456789".

(** [s.charAt(i)]: the empty string when [i] is out of range. *)
Definition charAt (s : string) (i : nat) : string :=
  match String.get i s with
  | Some c => String c ""
  | None => ""
  end.

(** One round of the loop: [result += chars.charAt(Math.floor(...))]. *)
Definition appendRandomChar (net : Net) (result : string) : Svc string := fun n =>
  (inr (result +:+ charAt chars (randomIndex net (draws n))),
   {| this := this n; clock := clock n; wire := wire n; stderr := stderr n;
      draws := S (draws n) |}).

Fixpoint generatePasswordLoop (net : Net) (rounds : nat) (result : string) : Svc string :=
  match rounds with
  | O => mret result
  | S rounds' =>
      result' ← appendRandomChar net result;
      generatePasswordLoop net rounds' result'
  end.

Definition generatePassword (net : Net) (length : nat) : Svc string :=
  generatePasswordLoop net length "".

(** [defaultSettings] of [createMeeting]. *)
Definition defaultSettings (password : string) : gmap string JVal :=
  list_to_map
    [ ("type", JNum 2);          (* Scheduled meeting *)
      ("duration", JNum 60);     (* Default 1 hour *)
      ("timezone", JStr "UTC");
      ("password", JStr password);
      ("settings", JObj (list_to_map
         [ ("host_video", JBool true);
           ("participant_video", JBool true);
           ("cn_meeting", JBool false);
           ("in_meeting", JBool false);
           ("join_before_host", JBool false);
           ("mute_upon_entry", JBool true);
           ("watermark", JBool false);
           ("use_pmi", JBool false);
           ("approval_type", JNum 2);   (* Automatically approve *)
           ("audio", JStr "both");
           ("auto_recording", JStr "none");
           ("enforce_login", JBool false);
           ("enforce_login_domains", JStr "");
           ("alternative_hosts", JStr "");
           ("close_registration", JBool false);
           ("show_share_button", JBool true);
           ("allow_multiple_devices", JBool true);
           ("registrants_confirmation_email", JBool true);
           ("waiting_room", JBool true);
           ("registrants_email_notification", JBool true);
           ("meeting_authentication", JBool false);
           ("additional_data_center_regions", JArr []) ])) ].

(** [{ ...a, ...b }]: the keys of [b] win. *)
Definition spread (a b : gmap string JVal) : gmap string JVal := b ∪ a.

Definition createdMeetingKeys : list string :=
  [ "id"; "uuid"; "host_id"; "topic"; "type"; "status"; "start_time"; "duration";
    "timezone"; "password"; "join_url"; "start_url"; "created_at"; "settings" ].

(** Create a new meeting. [meetingData] holds the keys the caller gives a
    value to. *)
Definition service_createMeeting (net : Net) (meetingData : gmap string JVal)
  : Svc (gmap string JVal) :=
  password ← generatePassword net 8;
  let meeting := spread (defaultSettings password) meetingData in
  tryCatchS
    ((* Use 'me' as user ID for the authenticated account *)
     result ← makeRequest net "POST" "/users/me/meetings" (Some (JObj meeting));
     pick result createdMeetingKeys)
    (fun error =>
       throwS (newError ("Failed to create Zoom meeting: " +:+ err_message error))).

(** The API calls on the wire, by method and URL. *)
Definition apiCalls (l : list Wire) : list (string * string) :=
  omap (fun x => match x with
                 | ApiCall c => Some (cfg_method c, cfg_url c)
                 | TokenPost => None
                 end) l.

Definition tokenPosts (l : list Wire) : nat :=
  length (omap (fun x => match x with
                         | TokenPost => Some tt
                         | ApiCall _ => None
                         end) l).

(** What a call put on the network. *)
Definition sent (n n' : Node) : list Wire := drop (length (wire n)) (wire n').

(** Sample network behaviours and nodes. *)
Definition sampleMeeting : JVal :=
  JObj (list_to_map
    [ ("id", JNum 8451); ("topic", JStr "Talk"); ("join_url", JStr "https://zoom.us/j/8451");
      ("start_url", JStr "https://zoom.us/s/8451"); ("password", JStr "k3Yq81Lm");
      ("registrants", JNum 0) ]).

(** Every request is answered after 120 ms; the token lives an hour. *)
Definition netUp : Net :=
  {| tokenReply := fun _ =>
       {| elapsed := 120;
          outcome := inr {| access_token := "eyJ0eXAi"; expires_in := 3600 |} |};
     apiReply := fun _ _ => {| elapsed := 120; outcome := inr sampleMeeting |};
     randomIndex := fun k => (7 * k + 3)%nat |}.

(** The token endpoint answers, the API rejects with a message. *)
Definition netRejecting : Net :=
  {| tokenReply := tokenReply netUp;
     apiReply := fun _ _ =>
       {| elapsed := 80;
          outcome := inl {| err_message := "Request failed with status code 404";
                            err_response_message := Some "Meeting does not exist: 8451." |} |};
     randomIndex := randomIndex netUp |}.

(** The token endpoint is unreachable. *)
Definition netNoToken : Net :=
  {| tokenReply := fun _ =>
       {| elapsed := 30000;
          outcome := inl {| err_message := "timeout of 30000ms exceeded";
                            err_response_message := None |} |};
     apiReply := apiReply netUp;
     randomIndex := randomIndex netUp |}.

(** The PATCH is accepted, the GET that follows is rejected. *)
Definition netPatchOnly : Net :=
  {| tokenReply := tokenReply netUp;
     apiReply := fun _ config =>
       if bool_decide (cfg_method config = "PATCH")
       then {| elapsed := 120; outcome := inr (JStr "") |}
       else apiReply netRejecting 0 config;
     randomIndex := randomIndex netUp |}.

(** A service that was just constructed, at some time after the epoch. *)
Definition coldNode : Node :=
  {| this := newZoomService; clock := 1700000000000; wire := []; stderr := [];
     draws := 0 |}.

(** The same after a first token was fetched. *)
Definition warmNode : Node := (getAccessToken netUp coldNode).2.

(** ** Unfolding the handlers *)

Ltac unfold_route :=
  unfold run, tryCatch, mbind, M_bind, mret, M_ret, consoleError, call, orThrow,
    eventCount, eventFindUnique, eventFindUniqueWithCount, eventCreate,
    eventUpdate, eventDelete, attendeeFindUnique, attendeeCreate,
    zoomCreateMeeting, zoomUpdateMeeting, zoomDeleteMeeting.

Ltac split_route :=
  repeat (match goal with
          | |- context [bool_decide ?P] => destruct (bool_decide P) eqn:?
          | |- context [createMeeting ?z ?md] => destruct (createMeeting z md) eqn:?
          | |- context [updateMeeting ?z ?i ?d] => destruct (updateMeeting z i d) eqn:?
          | |- context [deleteMeeting ?z ?i] => destruct (deleteMeeting z i) eqn:?
          | |- context [default true ?c] => destruct (default true c) eqn:?
          end; simpl).

Lemma ceilMinutes_spec ms :
  60000 * (ceilMinutes ms - 1) < ms <= 60000 * ceilMinutes ms.
Proof.
  unfold ceilMinutes.
  change (1000 * 60) with 60000.
  pose proof (Z.div_mod (- ms) 60000 ltac:(lia)) as Hdm.
  pose proof (Z.mod_pos_bound (- ms) 60000 ltac:(lia)) as Hb.
  lia.
Qed.

(** [ceilMinutes ms] is the least whole number of minutes that covers
    [ms] milliseconds. *)
Lemma ceilMinutes_least ms n : ms <= 60000 * n <-> ceilMinutes ms <= n.
Proof. pose proof (ceilMinutes_spec ms). lia. Qed.

Lemma newCalls_app w w' l : calls w' = calls w ++ l -> newCalls w w' = l.
Proof. unfold newCalls. intros ->. by rewrite drop_app_length. Qed.

Lemma Forall_newCalls (P : Call -> Prop) w w' l :
  calls w' = calls w ++ l -> Forall P l -> Forall P (newCalls w w').
Proof. intros H. by rewrite (newCalls_app _ _ _ H). Qed.

Lemma ownedEvent_lookup id userId w e :
  ownedEvent id userId w = Some e -> events w !! id = Some e.
Proof. unfold ownedEvent. intros H. repeat case_match; congruence. Qed.

Lemma validateCreate_checkCreate b title s e :
  validateCreate b = Some (title, s, e) <->
  checkCreate b = Some (title, DateAt s, DateAt e).
Proof.
  unfold validateCreate.
  destruct (checkCreate b) as [[[t [s0|]] [e0|]]|]; split; intros H; by simplify_eq.
Qed.

(** What such a request looks like. *)
Lemma validateCreate_fields b title s e :
  validateCreate b = Some (title, s, e) ->
  (exists t, cb_title b = Some t /\ title = trim t /\ trim t <> "")
  /\ cb_startTime b = Iso s /\ cb_endTime b = Iso e
  /\ (forall m, cb_maxAttendees b = Some m -> 1 <= m).
Proof.
  intros Hv. apply validateCreate_checkCreate in Hv. unfold checkCreate in Hv.
  destruct (cb_title b) as [t|]; [|done].
  destruct (bool_decide_reflect (trim t <> "")) as [Ht|]; [|done].
  destruct (cb_startTime b), (cb_endTime b); simpl in Hv; try done.
  all: destruct (cb_maxAttendees b) as [m|]; simpl in Hv;
    try case_bool_decide; simplify_eq.
  all: split; [by exists t|]; repeat split; try done; by intros m' [= <-].
Qed.

(** The create route, case by case, for a request that passes validation
    with times that are dates. *)
Lemma postEvent_run z now u b w title s e :
  validateCreate b = Some (title, s, e) ->
  run ServerError (postEvent z now u b) w =
    let lim := limitsOf u in
    let dur := ceilMinutes (e - s) in
    if bool_decide (maxEvents lim <> -1)
       && bool_decide (maxEvents lim <= existingEventCount u w)
    then (EventLimitExceeded (existingEventCount u w) (maxEvents lim), afterCount u w)
    else if bool_decide (maxAttendees lim < requestedAttendees u b)
    then (AttendeeLimitExceeded (requestedAttendees u b) (maxAttendees lim),
          afterCount u w)
    else if bool_decide (maxDuration lim <> -1) && bool_decide (maxDuration lim < dur)
    then (DurationLimitExceeded dur (maxDuration lim), afterCount u w)
    else if bool_decide (s <= now) then (InvalidStartTime, afterCount u w)
    else if bool_decide (e <= s) then (InvalidEndTime, afterCount u w)
    else
      let zw := afterZoomCreate z (meetingDataOf title s (Num dur) b)
                  (default true (cb_createZoomMeeting b)) (afterCount u w) in
      let ev := eventDataOf title s e (requestedAttendees u b) u b zw.1
                  (fresh (dom (events zw.2) ∪ deletedIds zw.2)) in
      (EventCreated ev zw.1, withEvent ev zw.2).
Proof.
  intros Hv. apply validateCreate_checkCreate in Hv.
  unfold postEvent. rewrite Hv. unfold_route.
  unfold afterCount, afterZoomCreate, existingEventCount, requestedAttendees,
    limitsOf, withEvent, minutesBetween, greaterThan, dateLe, toISOString, createData.
  cbn zeta. split_route; reflexivity.
Qed.

Lemma postEvent_invalid z now u b w :
  checkCreate b = None ->
  run ServerError (postEvent z now u b) w = (ValidationFailed, w).
Proof. intros Hv. unfold postEvent. rewrite Hv. reflexivity. Qed.

(** The create route for a request that passes validation with a time
    that is no date: the two checks on numbers are as before, of the
    checks on the times only that of a start in the past can fail, and
    [prisma.event.create] throws. *)
Lemma postEvent_no_date z now u b w title startTime endTime :
  checkCreate b = Some (title, startTime, endTime) ->
  minutesBetween startTime endTime = NaN ->
  run ServerError (postEvent z now u b) w =
    let lim := limitsOf u in
    if bool_decide (maxEvents lim <> -1)
       && bool_decide (maxEvents lim <= existingEventCount u w)
    then (EventLimitExceeded (existingEventCount u w) (maxEvents lim), afterCount u w)
    else if bool_decide (maxAttendees lim < requestedAttendees u b)
    then (AttendeeLimitExceeded (requestedAttendees u b) (maxAttendees lim),
          afterCount u w)
    else if dateLe startTime (DateAt now) then (InvalidStartTime, afterCount u w)
    else
      (ServerError,
       logged (ConsoleError "Create event error:")
         (afterZoomAttempt z title startTime b (afterCount u w)).2).
Proof.
  intros Hv Hnan. unfold postEvent. rewrite Hv. unfold_route.
  unfold afterCount, afterZoomAttempt, afterZoomCreate, existingEventCount,
    requestedAttendees, limitsOf, greaterThan, toISOString, createData.
  rewrite Hnan. cbn zeta.
  destruct startTime as [s|], endTime as [e|]; try discriminate;
    split_route; reflexivity.
Qed.

(** The three kinds of create request. *)
Lemma checkCreate_cases b :
  checkCreate b = None
  \/ (exists title s e, validateCreate b = Some (title, s, e))
  \/ (exists title startTime endTime,
        checkCreate b = Some (title, startTime, endTime)
        /\ minutesBetween startTime endTime = NaN).
Proof.
  destruct (checkCreate b) as [[[title [s|]] [e|]]|] eqn:Hv; [|eauto 10..|by left].
  right. left. exists title, s, e. by apply validateCreate_checkCreate.
Qed.

Lemma events_afterCount u w : events (afterCount u w) = events w.
Proof. unfold afterCount. by case_bool_decide. Qed.

Lemma attendees_afterCount u w : attendees (afterCount u w) = attendees w.
Proof. unfold afterCount. by case_bool_decide. Qed.

Lemma deletedIds_afterCount u w : deletedIds (afterCount u w) = deletedIds w.
Proof. unfold afterCount. by case_bool_decide. Qed.

Lemma events_afterZoomCreate z md rq w : events (afterZoomCreate z md rq w).2 = events w.
Proof. unfold afterZoomCreate. by repeat case_match. Qed.

Lemma deletedIds_afterZoomCreate z md rq w :
  deletedIds (afterZoomCreate z md rq w).2 = deletedIds w.
Proof. unfold afterZoomCreate. by repeat case_match. Qed.

Lemma events_afterZoomAttempt z title startTime b w :
  events (afterZoomAttempt z title startTime b w).2 = events w.
Proof.
  unfold afterZoomAttempt. repeat case_match; try done.
  apply events_afterZoomCreate.
Qed.

Lemma attendees_afterZoomAttempt z title startTime b w :
  attendees (afterZoomAttempt z title startTime b w).2 = attendees w.
Proof.
  unfold afterZoomAttempt, afterZoomCreate. by repeat case_match.
Qed.

Lemma deletedIds_afterZoomAttempt z title startTime b w :
  deletedIds (afterZoomAttempt z title startTime b w).2 = deletedIds w.
Proof.
  unfold afterZoomAttempt, afterZoomCreate. by repeat case_match.
Qed.

(** The id the store gives a new event names no event. *)
Lemma fresh_id_unused w : events w !! fresh (dom (events w) ∪ deletedIds w) = None.
Proof.
  apply not_elem_of_dom. intros Hin.
  apply (is_fresh (dom (events w) ∪ deletedIds w)). by apply elem_of_union_l.
Qed.

Lemma attendees_afterZoomCreate z md rq w :
  attendees (afterZoomCreate z md rq w).2 = attendees w.
Proof. unfold afterZoomCreate. by repeat case_match. Qed.

(** The update route for a valid request on an event of the caller. *)
Lemma putEvent_run z u id b w d e0 :
  validateUpdate b = Some d ->
  ownedEvent id (user_id u) w = Some e0 ->
  run ServerError (putEvent z u id b) w =
    let w1 := afterZoomUpdate z e0 d (logged (EventFindUnique id (user_id u)) w) in
    match updateDataOf d with
    | Some data =>
        (EventUpdated (data e0),
         logged (EventUpdate id)
           {| events := <[id := data e0]> (events w1);
              attendees := attendees w1; calls := calls w1;
              deletedIds := deletedIds w1 |})
    | None => (ServerError, logged (ConsoleError "Update event error:") w1)
    end.
Proof.
  intros Hv Ho. pose proof (ownedEvent_lookup _ _ _ _ Ho) as Hl.
  unfold putEvent. rewrite Hv. unfold_route. rewrite Ho.
  unfold afterZoomUpdate. cbn zeta.
  destruct (zoomMeetingId e0) as [mid|]; simpl.
  - destruct (meetingDetailsChanged d), (zoomUpdateDataOf d), (updateDataOf d);
      split_route; rewrite ?Hl; reflexivity.
  - destruct (updateDataOf d); rewrite ?Hl; reflexivity.
Qed.

(** A body whose times are dates, where it has any, is data the store
    takes. *)
Lemma updateDataOf_dates d :
  ub_startTime d <> IsoNoDate -> ub_endTime d <> IsoNoDate ->
  updateDataOf d = Some (applyUpdate d).
Proof. unfold updateDataOf. by destruct (ub_startTime d), (ub_endTime d). Qed.

Lemma validateUpdate_times b d :
  validateUpdate b = Some d ->
  ub_startTime d = ub_startTime b /\ ub_endTime d = ub_endTime b.
Proof. unfold validateUpdate. case_match; [|done]. by intros [= <-]. Qed.

Lemma events_afterZoomUpdate z e0 d w : events (afterZoomUpdate z e0 d w) = events w.
Proof. unfold afterZoomUpdate. by repeat case_match. Qed.

Lemma attendees_afterZoomUpdate z e0 d w :
  attendees (afterZoomUpdate z e0 d w) = attendees w.
Proof. unfold afterZoomUpdate. by repeat case_match. Qed.

(** The delete route on an event of the caller. *)
Lemma deleteEvent_run z u id w e0 :
  ownedEvent id (user_id u) w = Some e0 ->
  run ServerError (deleteEvent z u id) w =
    (EventDeleted,
     {| events := delete id (events w);
        attendees := filter (fun kv => kv.1.2 <> id) (attendees w);
        calls := calls w ++ [EventFindUnique id (user_id u)] ++ zoomDeleteCalls z e0
                   ++ [EventDelete id];
        deletedIds := {[id]} ∪ deletedIds w |}).
Proof.
  intros Ho. pose proof (ownedEvent_lookup _ _ _ _ Ho) as Hl.
  unfold deleteEvent. unfold_route. rewrite Ho.
  unfold zoomDeleteCalls, logged. cbn zeta.
  destruct (zoomMeetingId e0) as [mid|]; simpl.
  - split_route; rewrite Hl; simpl; rewrite <- ?app_assoc; reflexivity.
  - rewrite Hl. simpl. rewrite <- ?app_assoc. reflexivity.
Qed.

(** The attendee route for a valid request on an event of the caller. *)
Lemma postAttendee_run u id b w email firstName lastName e0 :
  validateAttendee b = Some (email, firstName, lastName) ->
  ownedEvent id (user_id u) w = Some e0 ->
  run ServerError (postAttendee u id b) w =
    let w1 := logged (EventFindUnique id (user_id u)) w in
    if bool_decide (ev_maxAttendees e0 <= countAttendees w id)
    then (EventIsFull (ev_maxAttendees e0) (countAttendees w id), w1)
    else
      let w2 := logged (AttendeeFindUnique email id) w1 in
      match attendees w !! (email, id) with
      | Some _ => (AlreadyRegistered, w2)
      | None =>
          let a := attendeeRow email firstName lastName id e0 in
          (AttendeeRegistered a,
           {| events := <[id := incrementCurrentAttendees e0]> (events w);
              attendees := <[(email, id) := a]> (attendees w);
              calls := calls w2 ++ [AttendeeCreate email id; EventUpdate id];
              deletedIds := deletedIds w |})
      end.
Proof.
  intros Hv Ho. pose proof (ownedEvent_lookup _ _ _ _ Ho) as Hl.
  unfold postAttendee. rewrite Hv. unfold_route. rewrite Ho.
  unfold countAttendees, attendeeRow, logged. cbn zeta. simpl.
  case_bool_decide; [reflexivity|]. simpl.
  destruct (attendees w !! (email, id)) eqn:Ha; simpl; [reflexivity|].
  rewrite Ha, Hl. simpl. rewrite Hl. simpl. rewrite <- ?app_assoc. reflexivity.
Qed.

Lemma newCalls_self w : newCalls w w = [].
Proof. unfold newCalls. by rewrite drop_all. Qed.

Lemma limitsOf_PRO u : subscriptionTier u = PRO -> maxEvents (limitsOf u) = -1.
Proof. unfold limitsOf. by intros ->. Qed.

(** The calls a denial of the create route leaves behind: the count
    query, and nothing when the tier is unlimited. *)
Lemma newCalls_afterCount u w :
  newCalls w (afterCount u w)
  = if bool_decide (maxEvents (limitsOf u) <> -1) then [EventCount (user_id u)] else [].
Proof.
  unfold afterCount. case_bool_decide.
  - by apply newCalls_app.
  - apply newCalls_self.
Qed.

(** ** The tier policy at event creation *)

(** C1: for a request that passes field validation with times that are
    dates, so that it has a duration, the create route decides exactly as
    the ordered, fail-fast policy does: the event count is checked first,
    then the attendee count, then the duration; each denial carries the
    limit and the offending value, a denial leaves both tables as they
    were, an unlimited ([-1]) event count never denies, a request for
    exactly the attendee limit is not denied, and the three limit triples
    are (3, 12, 60), (10, 250, 240) and (-1, 500, -1). *)
Theorem tier_limits_checked_in_order z now u b w title s e r w' :
  validateCreate b = Some (title, s, e) ->
  run ServerError (postEvent z now u b) w = (r, w') ->
  let lim := limitsOf u in
  let cnt := existingEventCount u w in
  let req := requestedAttendees u b in
  let dur := ceilMinutes (e - s) in
  let eventDenied := maxEvents lim <> -1 /\ cnt >= maxEvents lim in
  let attendeeDenied := req > maxAttendees lim in
  let durationDenied := maxDuration lim <> -1 /\ dur > maxDuration lim in
  decisionOf r = evaluate_spec lim cnt req dur
  /\ (forall c l, r = EventLimitExceeded c l <->
        eventDenied /\ l = maxEvents lim /\ c = cnt)
  /\ (forall q l, r = AttendeeLimitExceeded q l <->
        ~ eventDenied /\ attendeeDenied /\ l = maxAttendees lim /\ q = req)
  /\ (forall d l, r = DurationLimitExceeded d l <->
        ~ eventDenied /\ ~ attendeeDenied /\ durationDenied
        /\ l = maxDuration lim /\ d = dur)
  /\ (decisionOf r = Allow <-> ~ eventDenied /\ ~ attendeeDenied /\ ~ durationDenied)
  /\ (decisionOf r <> Allow -> events w' = events w /\ attendees w' = attendees w)
  /\ (subscriptionTier u = PRO -> forall c l, r <> EventLimitExceeded c l)
  /\ (req = maxAttendees lim -> forall q l, r <> AttendeeLimitExceeded q l)
  /\ SUBSCRIPTION_LIMITS TRIAL
     = {| maxEvents := 3; maxAttendees := 12; maxDuration := 60 |}
  /\ SUBSCRIPTION_LIMITS STANDARD
     = {| maxEvents := 10; maxAttendees := 250; maxDuration := 240 |}
  /\ SUBSCRIPTION_LIMITS PRO
     = {| maxEvents := -1; maxAttendees := 500; maxDuration := -1 |}.
Proof.
  intros Hv Hrun. rewrite (postEvent_run _ _ _ _ _ _ _ _ Hv) in Hrun.
  cbn zeta in *. unfold evaluate_spec.
  pose proof (limitsOf_PRO u) as Hpro.
  repeat (match type of Hrun with
          | context [bool_decide ?P] => destruct (bool_decide_reflect P)
          end; cbn [andb] in Hrun);
    injection Hrun as <- <-; simpl;
    repeat case_bool_decide; try lia;
    rewrite ?events_afterCount, ?attendees_afterCount.
  all: repeat split; try done; try lia; try (intros; simplify_eq; lia);
    try (intros; f_equal; lia); try (intros; intros ?; simplify_eq; lia).
  intros Hp. apply Hpro in Hp. lia.
Qed.

Lemma tier_limits_checked_in_order_witness :
  validateCreate talk = Some ("Talk", 3600000, 7200000)
  /\ decisionOf (run ServerError (postEvent zoomUp 0 alice talk) threeEvents).1
     = Deny KEventLimitExceeded 3 3.
Proof.
  split; [reflexivity|].
  pose proof (tier_limits_checked_in_order zoomUp 0 alice talk threeEvents
                "Talk" 3600000 7200000 _ _ eq_refl (surjective_pairing _)) as H.
  cbn zeta in H. destruct H as [H _]. rewrite H. vm_compute. reflexivity.
Defined.

(** ** Creation when the provider fails *)


Lemma calls_afterCount u w :
  calls (afterCount u w)
  = calls w ++
    (if bool_decide (maxEvents (limitsOf u) <> -1) then [EventCount (user_id u)] else []).
Proof. unfold afterCount. case_bool_decide; simpl; by rewrite ?app_nil_r. Qed.

(** A validated create request is either turned down before anything is
    written, or it is for a future, non-empty time span and the event is
    stored. *)
Lemma postEvent_rejected_or_created z now u b w title s e :
  validateCreate b = Some (title, s, e) ->
  (exists r, run ServerError (postEvent z now u b) w = (r, afterCount u w)
             /\ forall ev zm, r <> EventCreated ev zm)
  \/ (now < s /\ s < e
      /\ ~ (maxAttendees (limitsOf u) < requestedAttendees u b)
      /\ let zw := afterZoomCreate z
                     (meetingDataOf title s (Num (ceilMinutes (e - s))) b)
                     (default true (cb_createZoomMeeting b)) (afterCount u w) in
         let ev := eventDataOf title s e (requestedAttendees u b) u b zw.1
                     (fresh (dom (events w) ∪ deletedIds w)) in
         run ServerError (postEvent z now u b) w = (EventCreated ev zw.1, withEvent ev zw.2)).
Proof.
  intros Hv. rewrite (postEvent_run _ _ _ _ _ _ _ _ Hv). cbn zeta.
  rewrite events_afterZoomCreate, events_afterCount,
    deletedIds_afterZoomCreate, deletedIds_afterCount.
  repeat (match goal with
          | |- context [bool_decide ?P] => destruct (bool_decide_reflect P)
          end; cbn [andb]);
    first [ left; eexists; split; [reflexivity | discriminate]
          | right; repeat split; lia ].
Qed.


(** A create request that does not pass validation with two dates stores
    nothing. A denial for the number of attendees answers a request for
    more than the tier allows, and without [createZoomMeeting] the
    provider is not called. *)
Lemma postEvent_without_dates z now u b w :
  validateCreate b = None ->
  exists r w',
    run ServerError (postEvent z now u b) w = (r, w')
    /\ events w' = events w /\ attendees w' = attendees w
    /\ deletedIds w' = deletedIds w
    /\ (forall ev zm, r <> EventCreated ev zm)
    /\ (forall q l, r = AttendeeLimitExceeded q l ->
          maxAttendees (limitsOf u) < requestedAttendees u b
          /\ q = requestedAttendees u b /\ l = maxAttendees (limitsOf u))
    /\ (cb_createZoomMeeting b = Some false ->
          Forall (fun c => isZoomCall c = false) (newCalls w w')).
Proof.
  intros Hnone.
  destruct (checkCreate_cases b)
    as [Hv | [(title & s & e & Hv) | (title & sd & ed & Hv & Hnan)]];
    [|congruence|].
  { rewrite (postEvent_invalid _ _ _ _ _ Hv). eexists _, _.
    split; [reflexivity|]. repeat split; try done.
    intros _. by rewrite newCalls_self. }
  rewrite (postEvent_no_date _ _ _ _ _ _ _ _ Hv Hnan). cbn zeta.
  assert (Hquiet : Forall (fun c => isZoomCall c = false) (newCalls w (afterCount u w))).
  { rewrite newCalls_afterCount. case_bool_decide; repeat constructor. }
  destruct (bool_decide (maxEvents (limitsOf u) <> -1) && _).
  { eexists _, _. split; [reflexivity|].
    rewrite events_afterCount, attendees_afterCount, deletedIds_afterCount.
    by repeat split. }
  case_bool_decide as Hatt.
  { eexists _, _. split; [reflexivity|].
    rewrite events_afterCount, attendees_afterCount, deletedIds_afterCount.
    split; [done|]. split; [done|]. split; [done|]. split; [done|].
    split; [|done]. by intros q l [= <- <-]. }
  destruct (dateLe sd (DateAt now)).
  { eexists _, _. split; [reflexivity|].
    rewrite events_afterCount, attendees_afterCount, deletedIds_afterCount.
    by repeat split. }
  eexists _, _. split; [reflexivity|]. simpl.
  rewrite events_afterZoomAttempt, attendees_afterZoomAttempt,
    deletedIds_afterZoomAttempt, events_afterCount, attendees_afterCount,
    deletedIds_afterCount.
  repeat split; try done.
  intros Hoff. unfold afterZoomAttempt. rewrite Hoff. simpl.
  eapply Forall_newCalls.
  { simpl. rewrite calls_afterCount, <- app_assoc. reflexivity. }
  apply Forall_app. split; [case_bool_decide|]; repeat constructor.
Qed.




(** ** Duration *)

(** The decision carried by the response of a validated create request is
    the decision of the policy on the quantities the route computed. *)
Lemma postEvent_decision z now u b w title s e :
  validateCreate b = Some (title, s, e) ->
  decisionOf (run ServerError (postEvent z now u b) w).1
  = evaluate_spec (limitsOf u) (existingEventCount u w) (requestedAttendees u b)
      (ceilMinutes (e - s)).
Proof.
  intros Hv. rewrite (postEvent_run _ _ _ _ _ _ _ _ Hv). cbn zeta.
  unfold evaluate_spec.
  repeat (match goal with
          | |- context [bool_decide ?P && _] => destruct (bool_decide_reflect P)
          | |- context [if bool_decide ?P then (_, _) else _] =>
              destruct (bool_decide_reflect P)
          end; cbn [andb fst decisionOf]);
    repeat case_bool_decide; first [reflexivity | lia].
Qed.

Lemma decisionOf_duration r l d :
  decisionOf r = Deny KDurationLimitExceeded l d <-> r = DurationLimitExceeded d l.
Proof. destruct r; simpl; split; intros H; by simplify_eq. Qed.

(** C5: the duration held against the tier cap is the number of elapsed
    milliseconds divided by 60000 and rounded up to a whole minute (so
    240.2 minutes count as 241 and 60.5 as 61); when the two earlier
    checks pass and the tier has a cap, a duration equal to the cap is
    let through and one minute more is denied with the rounded duration
    and the cap. *)
Theorem duration_rounds_up_before_the_cap z now u b w title s e r w' :
  validateCreate b = Some (title, s, e) ->
  run ServerError (postEvent z now u b) w = (r, w') ->
  maxEvents (limitsOf u) = -1 \/ existingEventCount u w < maxEvents (limitsOf u) ->
  requestedAttendees u b <= maxAttendees (limitsOf u) ->
  maxDuration (limitsOf u) <> -1 ->
  let cap := maxDuration (limitsOf u) in
  let dur := ceilMinutes (e - s) in
  60000 * (dur - 1) < e - s <= 60000 * dur
  /\ (dur <= cap -> decisionOf r = Allow)
  /\ (cap < dur -> r = DurationLimitExceeded dur cap)
  /\ (dur = cap + 1 -> r = DurationLimitExceeded (cap + 1) cap)
  /\ (forall d l, r = DurationLimitExceeded d l -> d = dur /\ l = cap /\ cap < dur)
  /\ ceilMinutes 14412000 = 241
  /\ ceilMinutes 3630000 = 61.
Proof.
  intros Hv Hrun Hev Hat Hcap. cbn zeta.
  pose proof (postEvent_decision z now u b w _ _ _ Hv) as Hd.
  rewrite Hrun in Hd. simpl in Hd. unfold evaluate_spec in Hd.
  rewrite bool_decide_eq_false_2 in Hd by lia.
  rewrite (bool_decide_eq_false_2 (_ > _)) in Hd by lia.
  split; [apply ceilMinutes_spec|].
  case_bool_decide as Hdur.
  - apply decisionOf_duration in Hd. subst r.
    repeat split; try (intros; simplify_eq); try lia.
    f_equal. lia.
  - apply not_and_l in Hdur as [Hdur | Hdur]; [done|].
    repeat split; intros; subst; first [discriminate | lia | done].
Qed.

Lemma duration_rounds_up_before_the_cap_witness :
  (run ServerError (postEvent zoomUp 0 bea workshop) emptyWorld).1
  = DurationLimitExceeded 241 240.
Proof.
  pose proof (duration_rounds_up_before_the_cap zoomUp 0 bea workshop emptyWorld
                "Workshop" 3600000 18012000 _ _ eq_refl (surjective_pairing _)) as H.
  cbn zeta in H. apply H; vm_compute; first [right; reflexivity | discriminate | reflexivity].
Defined.

(** ** Deletion *)

(** C7: deleting an event of the caller always removes its row, whatever
    the provider does: when the event is linked to a meeting the provider
    is asked to delete it first, and after that call, returned or thrown,
    the row is deleted and the route answers 200; no other event is
    touched. *)
Theorem delete_removes_local_record z u id w e0 r w' :
  ownedEvent id (user_id u) w = Some e0 ->
  run ServerError (deleteEvent z u id) w = (r, w') ->
  r = EventDeleted
  /\ events w' !! id = None
  /\ (forall j, j <> id -> events w' !! j = events w !! j)
  /\ newCalls w w'
     = [EventFindUnique id (user_id u)] ++ zoomDeleteCalls z e0 ++ [EventDelete id]
  /\ (forall meetingId, zoomMeetingId e0 = Some meetingId -> meetingId <> "" ->
        exists logLine,
          zoomDeleteCalls z e0
          = ZoomDeleteMeeting meetingId (deleteMeeting z meetingId) :: logLine)
  /\ (zoomMeetingId e0 = None -> zoomDeleteCalls z e0 = []).
Proof.
  intros Ho Hrun. rewrite (deleteEvent_run _ _ _ _ _ Ho) in Hrun.
  injection Hrun as <- <-. simpl.
  split; [reflexivity|].
  split; [apply lookup_delete_eq|].
  split; [intros j Hj; by apply lookup_delete_ne|].
  split; [by apply newCalls_app|].
  unfold zoomDeleteCalls. split.
  - intros mid -> Hmid. rewrite bool_decide_eq_true_2 by done.
    destruct (deleteMeeting z mid); eauto.
  - by intros ->.
Qed.

Lemma delete_removes_local_record_witness :
  events (after (deleteEvent zoomDown alice 0) linked) !! 0%nat = None
  /\ is_Some (events linked !! 0%nat).
Proof.
  split.
  - eapply (delete_removes_local_record zoomDown alice 0 linked).
    + vm_compute. reflexivity.
    + apply surjective_pairing.
  - vm_compute. eauto.
Defined.

(** ** The policy denial and the calls before it *)

(** C8, as stated, fails: a TRIAL caller with three events is denied with
    [{EventLimitExceeded, limit: 3, currentCount: 3}], but the count
    comes from the store, so one store call has been made by then. *)
Lemma denial_follows_a_store_call :
  existingEventCount alice threeEvents = 3
  /\ (run ServerError (postEvent zoomUp 0 alice talk) threeEvents).1
     = EventLimitExceeded 3 3
  /\ ~ (forall c,
          c ∈ newCalls threeEvents
                (run ServerError (postEvent zoomUp 0 alice talk) threeEvents).2 ->
          isZoomCall c = false /\ isStoreCall c = false).
Proof.
  split; [by vm_compute|]. split; [by vm_compute|].
  intros H. destruct (H (EventCount 1)) as [_ Hstore].
  - vm_compute. apply list_elem_of_here.
  - discriminate.
Qed.

(** C8, amended: a TRIAL caller with three events whose request passes
    field validation (whether or not [new Date] reads its times) is
    denied with limit 3 and currentCount 3; the one
    call made before the denial is the read-only count query, so no
    provider call and no store write precedes it and both tables are
    unchanged. *)
Theorem trial_limit_denied_before_any_write z now u b w r w' :
  checkCreate b <> None ->
  subscriptionTier u = TRIAL ->
  existingEventCount u w = 3 ->
  run ServerError (postEvent z now u b) w = (r, w') ->
  r = EventLimitExceeded 3 3
  /\ newCalls w w' = [EventCount (user_id u)]
  /\ (forall c, c ∈ newCalls w w' -> isZoomCall c = false /\ isStoreWrite c = false)
  /\ events w' = events w
  /\ attendees w' = attendees w.
Proof.
  intros Hv Ht Hc Hrun.
  destruct (checkCreate_cases b)
    as [Hn | [(title & s & e & Hd) | (title & sd & ed & Hd & Hnan)]]; [done|..];
    [rewrite (postEvent_run _ _ _ _ _ _ _ _ Hd) in Hrun
    |rewrite (postEvent_no_date _ _ _ _ _ _ _ _ Hd Hnan) in Hrun].
  all: cbn zeta in Hrun; unfold afterCount, limitsOf in Hrun; rewrite Ht, Hc in Hrun.
  all: injection Hrun as <- <-; simpl.
  all: split; [reflexivity|]; split; [by apply newCalls_app|].
  all: split; [|done].
  all: intros c Hin; rewrite (newCalls_app _ _ [EventCount (user_id u)]) in Hin by done.
  all: apply list_elem_of_singleton in Hin; by subst c.
Qed.

Lemma trial_limit_denied_before_any_write_witness :
  newCalls threeEvents (after (postEvent zoomUp 0 alice talk) threeEvents)
  = [EventCount 1].
Proof.
  eapply (trial_limit_denied_before_any_write zoomUp 0 alice talk threeEvents).
  - vm_compute. discriminate.
  - reflexivity.
  - vm_compute. reflexivity.
  - apply surjective_pairing.
Defined.


(** ** The default attendee limit *)

(** C10: when the request leaves [maxAttendees] out, the attendee check
    cannot deny and the stored event gets the limit of the caller's tier;
    an [AttendeeLimitExceeded] denial only ever answers a request that
    names a [maxAttendees] strictly above that limit. *)
Theorem omitted_maxAttendees_defaults_to_tier z now u b w r w' :
  run ServerError (postEvent z now u b) w = (r, w') ->
  (cb_maxAttendees b = None ->
     (forall q l, r <> AttendeeLimitExceeded q l)
     /\ (forall ev zm, r = EventCreated ev zm ->
           ev_maxAttendees ev = maxAttendees (limitsOf u)
           /\ events w' !! ev_id ev = Some ev))
  /\ (forall q l, r = AttendeeLimitExceeded q l ->
        exists m, cb_maxAttendees b = Some m /\ m > maxAttendees (limitsOf u)
                  /\ q = m /\ l = maxAttendees (limitsOf u)).
Proof.
  intros Hrun.
  destruct (validateCreate b) as [[[title s] e]|] eqn:Hv.
  2:{ destruct (postEvent_without_dates z now u b w Hv)
        as (r0 & w0 & Hr & _ & _ & _ & Hne & Hatt & _).
      rewrite Hr in Hrun. injection Hrun as <- <-. split.
      - intros Hnone. split.
        + intros q l Hq. destruct (Hatt q l Hq) as (Hlt & _).
          unfold requestedAttendees in Hlt. rewrite Hnone in Hlt. simpl in Hlt. lia.
        + intros ev zm Hc. by destruct (Hne ev zm).
      - intros q l Hq. destruct (Hatt q l Hq) as (Hlt & -> & ->).
        unfold requestedAttendees, orDefault in *.
        destruct (cb_maxAttendees b) as [m|]; [case_bool_decide|]; try lia.
        exists m. repeat split; try done; lia. }
  pose proof (postEvent_decision z now u b w _ _ _ Hv) as Hd.
  rewrite Hrun in Hd. simpl in Hd. split.
  - intros Hnone. split.
    + intros q l ->. simpl in Hd. unfold evaluate_spec, requestedAttendees in Hd.
      rewrite Hnone in Hd. simpl in Hd.
      repeat case_bool_decide; first [discriminate | lia].
    + intros ev zm ->.
      destruct (postEvent_rejected_or_created z now u b w _ _ _ Hv)
        as [(r0 & Hr & Hne) | (_ & _ & _ & Hr)]; rewrite Hr in Hrun.
      * injection Hrun as Hr0 _. by destruct (Hne ev zm).
      * cbn zeta in Hrun. injection Hrun as Hev _ Hw. subst ev w'. simpl.
        unfold requestedAttendees. rewrite Hnone. simpl.
        split; [reflexivity | apply lookup_insert_eq].
  - intros q l ->. simpl in Hd. unfold evaluate_spec, requestedAttendees in Hd.
    repeat case_bool_decide; simplify_eq.
    destruct (cb_maxAttendees b) as [m|] eqn:Hm; simpl in *.
    + case_bool_decide; [lia|]. exists m. repeat split; done.
    + lia.
Qed.

Lemma omitted_maxAttendees_defaults_to_tier_witness :
  cb_maxAttendees talk = None
  /\ exists ev zm, (run ServerError (postEvent zoomUp 0 alice talk) emptyWorld).1
                   = EventCreated ev zm
                   /\ ev_maxAttendees ev = 12.
Proof.
  split; [reflexivity|].
  destruct (omitted_maxAttendees_defaults_to_tier zoomUp 0 alice talk emptyWorld _ _
              (surjective_pairing _)) as [H _].
  destruct (H eq_refl) as [_ Hcreated].
  eexists _, _. split; [vm_compute; reflexivity|].
  eapply Hcreated. vm_compute. reflexivity.
Defined.

(** ** Scheduled times *)

(** The create route stores an event only for a time span that starts in
    the future and ends after it starts. *)
Lemma created_event_has_valid_times z now u b w ev zm w' :
  run ServerError (postEvent z now u b) w = (EventCreated ev zm, w') ->
  now < ev_startTime ev /\ ev_startTime ev < ev_endTime ev
  /\ events w' !! ev_id ev = Some ev.
Proof.
  intros Hrun.
  destruct (validateCreate b) as [[[title s] e]|] eqn:Hv.
  2:{ destruct (postEvent_without_dates z now u b w Hv)
        as (r0 & w0 & Hr & _ & _ & _ & Hne & _).
      rewrite Hr in Hrun. injection Hrun as Hr0 _. by destruct (Hne ev zm). }
  destruct (postEvent_rejected_or_created z now u b w _ _ _ Hv)
    as [(r0 & Hr & Hne) | (Hs & He & _ & Hr)]; rewrite Hr in Hrun.
  - injection Hrun as Hr0 _. by destruct (Hne ev zm).
  - cbn zeta in Hrun. injection Hrun as Hev _ Hw. subst ev w'. simpl.
    repeat split; [done..|apply lookup_insert_eq].
Qed.

(** The update route stores whatever dates the body carries: nothing
    compares the new end with the new or the stored start. *)
Lemma putEvent_stores_body_times z u id b w d e0 :
  validateUpdate b = Some d ->
  ownedEvent id (user_id u) w = Some e0 ->
  ub_startTime b <> IsoNoDate ->
  ub_endTime b <> IsoNoDate ->
  exists e1,
    run ServerError (putEvent z u id b) w
    = (EventUpdated e1, after (putEvent z u id b) w)
    /\ events (after (putEvent z u id b) w) !! id = Some e1
    /\ ev_startTime e1 = default (ev_startTime e0) (isoTime (ub_startTime b))
    /\ ev_endTime e1 = default (ev_endTime e0) (isoTime (ub_endTime b)).
Proof.
  intros Hv Ho Hs He. exists (applyUpdate d e0). unfold after.
  destruct (validateUpdate_times _ _ Hv) as [Hds Hde].
  rewrite (putEvent_run _ _ _ _ _ _ _ Hv Ho), updateDataOf_dates by congruence.
  cbn zeta. simpl.
  split; [reflexivity|]. split; [apply lookup_insert_eq|]. by rewrite Hds, Hde.
Qed.

(** C9 fails on the update route. The event below was stored by the create
    route (start 01:00, end 02:00 after the epoch); a [PUT] whose body is
    just an [endTime] of 00:30 is answered 200 and the stored event now
    ends before it starts. *)
Theorem update_stores_end_before_start :
  (exists e0, events linked !! 0%nat = Some e0
              /\ ev_startTime e0 = 3600000 /\ ev_endTime e0 = 7200000)
  /\ validateUpdate endBeforeStart = Some endBeforeStart
  /\ exists e1,
       (run ServerError (putEvent zoomUp alice 0 endBeforeStart) linked).1
       = EventUpdated e1
       /\ events (after (putEvent zoomUp alice 0 endBeforeStart) linked) !! 0%nat
          = Some e1
       /\ ev_startTime e1 = 3600000 /\ ev_endTime e1 = 1800000
       /\ ev_endTime e1 <= ev_startTime e1.
Proof.
  assert (Ho : exists e0, ownedEvent 0 (user_id alice) linked = Some e0
                          /\ ev_startTime e0 = 3600000 /\ ev_endTime e0 = 7200000)
    by (eexists; vm_compute; done).
  destruct Ho as (e0 & Ho & Hs & He).
  split; [exists e0; split; [by apply (ownedEvent_lookup _ _ _ _ Ho) | done]|].
  split; [reflexivity|].
  destruct (putEvent_stores_body_times zoomUp alice 0 endBeforeStart linked
              endBeforeStart e0 eq_refl Ho ltac:(done) ltac:(done))
    as (e1 & Hrun & Hl & Hs1 & He1).
  exists e1. rewrite Hrun. simpl in *. repeat split; [done | lia..].
Qed.

(** ** Remote update *)

(** For a body whose times are dates, the remote update is attempted
    exactly when the stored event has a meeting id and one of the four
    fields is supplied with a truthy value; its failure is logged and the
    local update goes through regardless. *)
Lemma putEvent_remote_update_is_best_effort z u id b w d e0 :
  validateUpdate b = Some d ->
  ownedEvent id (user_id u) w = Some e0 ->
  ub_startTime b <> IsoNoDate ->
  ub_endTime b <> IsoNoDate ->
  let attempted :=
    match zoomMeetingId e0 with
    | Some meetingId => bool_decide (meetingId <> "") && meetingDetailsChanged d
    | None => false
    end in
  (run ServerError (putEvent z u id b) w).1 = EventUpdated (applyUpdate d e0)
  /\ events (after (putEvent z u id b) w) !! id = Some (applyUpdate d e0)
  /\ newCalls w (after (putEvent z u id b) w)
     = [EventFindUnique id (user_id u)]
       ++ match zoomMeetingId e0 with
          | Some meetingId =>
              if attempted then
                match zoomUpdateDataOf d with
                | Some zoomUpdateData =>
                    ZoomUpdateMeeting meetingId zoomUpdateData
                      (updateMeeting z meetingId zoomUpdateData)
                    :: (if updateMeeting z meetingId zoomUpdateData then []
                        else [ConsoleError "Failed to update Zoom meeting:"])
                | None => [ConsoleError "Failed to update Zoom meeting:"]
                end
              else []
          | None => []
          end
       ++ [EventUpdate id]
  /\ is_Some (zoomUpdateDataOf d).
Proof.
  intros Hv Ho Hs He. unfold after.
  destruct (validateUpdate_times _ _ Hv) as [Hds Hde].
  rewrite (putEvent_run _ _ _ _ _ _ _ Hv Ho), updateDataOf_dates by congruence.
  cbn zeta. simpl. split; [reflexivity|]. split; [apply lookup_insert_eq|].
  split.
  - apply newCalls_app. unfold afterZoomUpdate.
    destruct (zoomMeetingId e0) as [mid|]; simpl; [|by rewrite <- !app_assoc].
    destruct (bool_decide (mid <> "") && meetingDetailsChanged d); simpl;
      [|by rewrite <- !app_assoc].
    destruct (zoomUpdateDataOf d) as [upd|]; simpl; [|by rewrite <- !app_assoc].
    destruct (updateMeeting z mid upd); simpl; by rewrite <- !app_assoc.
  - unfold validateUpdate in Hv. case_match eqn:Hok; [|done].
    apply andb_prop in Hok as [Hok _]. apply andb_prop in Hok as [_ Hok].
    unfold zoomUpdateDataOf. rewrite Hds.
    destruct (ub_startTime b); by eauto.
Qed.

(** The payload carries a duration only when the body names both times. *)
Lemma zoomUpdateDataOf_duration d zoomUpdateData :
  zoomUpdateDataOf d = Some zoomUpdateData ->
  zu_duration zoomUpdateData
  = match ub_endTime d, ub_startTime d with
    | IsoAbsent, _ | _, IsoAbsent => None
    | endTime, startTime => Some (minutesBetween (newDate startTime) (newDate endTime))
    end.
Proof.
  unfold zoomUpdateDataOf. intros H.
  destruct (ub_startTime d), (ub_endTime d); simpl in H; by simplify_eq.
Qed.

(** C6 fails on the update route when only one of the two times changes.
    The stored event is linked to meeting 8451 and lasts from 01:00 to
    02:00; a [PUT] whose body is just an [endTime] of 03:00 does trigger
    the remote update, but with an empty payload: the meeting keeps its
    60 minutes while the stored event now lasts 120. *)
Theorem end_only_update_sends_no_duration :
  (exists e0, events linked !! 0%nat = Some e0
              /\ zoomMeetingId e0 = Some "8451"
              /\ ev_startTime e0 = 3600000 /\ ev_endTime e0 = 7200000)
  /\ newCalls linked (after (putEvent zoomUp alice 0 endLater) linked)
     = [EventFindUnique 0 1;
        ZoomUpdateMeeting "8451"
          {| zu_topic := None; zu_agenda := None; zu_start_time := None;
             zu_duration := None |} true;
        EventUpdate 0]
  /\ exists e1,
       events (after (putEvent zoomUp alice 0 endLater) linked) !! 0%nat = Some e1
       /\ ev_startTime e1 = 3600000 /\ ev_endTime e1 = 10800000
       /\ ceilMinutes (ev_endTime e1 - ev_startTime e1) = 120.
Proof.
  assert (Ho : exists e0, ownedEvent 0 (user_id alice) linked = Some e0
                          /\ zoomMeetingId e0 = Some "8451"
                          /\ ev_startTime e0 = 3600000 /\ ev_endTime e0 = 7200000)
    by (eexists; vm_compute; done).
  destruct Ho as (e0 & Ho & Hm & Hs & He).
  split; [exists e0; split; [by apply (ownedEvent_lookup _ _ _ _ Ho) | done]|].
  destruct (putEvent_remote_update_is_best_effort zoomUp alice 0 endLater linked
              endLater e0 eq_refl Ho ltac:(done) ltac:(done)) as (_ & Hl & Hcalls & _).
  split.
  - rewrite Hcalls, Hm. reflexivity.
  - eexists. split; [exact Hl|]. simpl. rewrite Hs. by vm_compute.
Qed.

(** ** Registration *)

(** One more row for an event is one more in its count. *)
Lemma countAttendees_insert w w' email id a :
  attendees w !! (email, id) = None ->
  attendees w' = <[(email, id) := a]> (attendees w) ->
  countAttendees w' id = countAttendees w id + 1.
Proof.
  intros Hnone Hw'. unfold countAttendees, attendeesOf. rewrite Hw'.
  rewrite map_filter_insert_True by done.
  rewrite map_size_insert_None by (apply map_lookup_filter_None_2; by left).
  lia.
Qed.

Lemma postAttendee_invalid u id b w :
  validateAttendee b = None ->
  run ServerError (postAttendee u id b) w = (ValidationFailed, w).
Proof. intros Hv. unfold postAttendee. by rewrite Hv. Qed.

Lemma postAttendee_not_found u id b w :
  ownedEvent id (user_id u) w = None ->
  events (after (postAttendee u id b) w) = events w
  /\ attendees (after (postAttendee u id b) w) = attendees w.
Proof.
  intros Ho. unfold after, postAttendee.
  destruct (validateAttendee b) as [[[email firstName] lastName]|]; [|done].
  unfold_route. by rewrite Ho.
Qed.

(** The attendee route creates rows and changes none: a row that is in
    the table stays as it is, whatever requests the route serves. *)
Lemma postAttendee_keeps_rows u id b w k a :
  attendees w !! k = Some a ->
  attendees (after (postAttendee u id b) w) !! k = Some a.
Proof.
  intros Ha.
  destruct (ownedEvent id (user_id u) w) as [e0|] eqn:Ho.
  2:{ by rewrite (proj2 (postAttendee_not_found u id b w Ho)). }
  unfold after.
  destruct (validateAttendee b) as [[[email firstName] lastName]|] eqn:Hv.
  2:{ by rewrite (postAttendee_invalid _ _ _ _ Hv). }
  rewrite (postAttendee_run _ _ _ _ _ _ _ _ Hv Ho). cbn zeta.
  case_bool_decide; [done|].
  destruct (attendees w !! (email, id)) eqn:Hnew; [done|]. simpl.
  rewrite lookup_insert_ne; [done|]. intros <-. congruence.
Qed.

Lemma registerAll_keeps_rows rs : forall w k a,
  attendees w !! k = Some a ->
  attendees (registerAll rs w) !! k = Some a.
Proof.
  induction rs as [|r rs IH]; intros w k a Ha; [done|].
  change (registerAll (r :: rs) w)
    with (registerAll rs (after (postAttendee (rq_user r) (rq_id r) (rq_body r)) w)).
  by apply IH, postAttendee_keeps_rows.
Qed.

(** C3, as stated, fails twice. With the single seat of the event taken by
    Ann, a second request for Ann is turned down as [Event is full], not
    as a duplicate, although her [(email, eventId)] row exists. And the
    capacity check counts attendee rows, not the [currentAttendees]
    column: after a [PUT] that sets the column to [maxAttendees] on an
    event without attendees, the column has reached the maximum and Ann is
    registered all the same. *)
Lemma full_wins_over_duplicate_and_counter_is_not_checked :
  (is_Some (attendees seatTaken !! ("ann@example.com", 0%nat))
   /\ (run ServerError (postAttendee alice 0 ann) seatTaken).1 = EventIsFull 1 1
   /\ (run ServerError (postAttendee alice 0 ann) seatTaken).1 <> AlreadyRegistered)
  /\ (exists e, events (after (putEvent zoomUp alice 0 counterToOne) oneSeat) !! 0%nat
                = Some e
                /\ ev_currentAttendees e = ev_maxAttendees e
                /\ exists a,
                     (run ServerError (postAttendee alice 0 ann)
                        (after (putEvent zoomUp alice 0 counterToOne) oneSeat)).1
                     = AttendeeRegistered a).
Proof.
  split.
  - split; [vm_compute; eauto|]. split; [by vm_compute|].
    vm_compute. discriminate.
  - eexists. split; [vm_compute; reflexivity|]. split; [reflexivity|].
    eexists. vm_compute. reflexivity.
Qed.

(** C3, amended: for a valid request on an event of the caller, the route
    answers [Event is full] iff the number of attendee rows of the event
    has reached [maxAttendees]; it answers [Already registered] iff the
    event is not full and a row with the same [(email, eventId)] exists;
    otherwise it creates the row, which carries the join URL the event has
    at registration time, and adds one to [currentAttendees]. The URL is
    a copy kept in the row and is not fetched again: the requests the
    route serves later leave the row as it is. A denial changes neither
    table. *)
Theorem registration_checks_rows_then_duplicate
    u id b w email firstName lastName e0 r w' :
  validateAttendee b = Some (email, firstName, lastName) ->
  ownedEvent id (user_id u) w = Some e0 ->
  run ServerError (postAttendee u id b) w = (r, w') ->
  let rows := countAttendees w id in
  let full := ev_maxAttendees e0 <= rows in
  let dup := is_Some (attendees w !! (email, id)) in
  let row := attendeeRow email firstName lastName id e0 in
  (forall m c, r = EventIsFull m c <-> full /\ m = ev_maxAttendees e0 /\ c = rows)
  /\ (r = AlreadyRegistered <-> ~ full /\ dup)
  /\ (forall a, r = AttendeeRegistered a <-> ~ full /\ ~ dup /\ a = row)
  /\ (full \/ dup -> events w' = events w /\ attendees w' = attendees w)
  /\ (~ full -> ~ dup ->
        attendees w' = <[(email, id) := row]> (attendees w)
        /\ at_joinUrl row = zoomMeetingUrl e0
        /\ events w' = <[id := incrementCurrentAttendees e0]> (events w)
        /\ (exists e1, events w' !! id = Some e1
                       /\ ev_currentAttendees e1 = ev_currentAttendees e0 + 1)
        /\ countAttendees w' id = rows + 1
        /\ forall rs, attendees (registerAll rs w') !! (email, id) = Some row).
Proof.
  intros Hv Ho Hrun. rewrite (postAttendee_run _ _ _ _ _ _ _ _ Hv Ho) in Hrun.
  cbn zeta in *.
  destruct (bool_decide_reflect (ev_maxAttendees e0 <= countAttendees w id))
    as [Hfull | Hfull].
  { injection Hrun as <- <-. simpl.
    split; [intros m c; split; [intros [= <- <-]; done | by intros (_ & -> & ->)]|].
    split; [split; [done | by intros []]|].
    split; [intros a; split; [done | by intros []]|].
    split; [done|]. by intros []. }
  destruct (attendees w !! (email, id)) as [a0|] eqn:Ha.
  { injection Hrun as <- <-. simpl.
    split; [intros m c; split; [done | by intros []]|].
    split; [split; [by eauto | done]|].
    split; [intros a; split; [done | intros (_ & Hd & _); by destruct Hd]|].
    split; [done|]. intros _ Hd. by destruct Hd. }
  injection Hrun as <- <-. simpl.
  split; [intros m c; split; [done | by intros []]|].
  split; [split; [done | intros [_ [? ?]]; done]|].
  split; [intros a; split; [intros [= <-]; by repeat split; [|intros [? ?]]
                           | by intros (_ & _ & ->)]|].
  split; [intros [? | [? ?]]; done|].
  intros _ _. split; [reflexivity|]. split; [reflexivity|]. split; [reflexivity|].
  split; [eexists; split; [apply lookup_insert_eq | reflexivity]|].
  split; [by eapply countAttendees_insert|].
  intros rs. apply registerAll_keeps_rows. simpl. apply lookup_insert_eq.
Qed.

Lemma registration_checks_rows_then_duplicate_witness :
  exists a, (run ServerError (postAttendee alice 0 ann) oneSeat).1 = AttendeeRegistered a
            /\ at_joinUrl a = Some "https://zoom.us/j/8451".
Proof.
  assert (Ho : exists e0, ownedEvent 0 (user_id alice) oneSeat = Some e0
                          /\ zoomMeetingUrl e0 = Some "https://zoom.us/j/8451"
                          /\ ev_maxAttendees e0 = 1)
    by (eexists; vm_compute; done).
  destruct Ho as (e0 & Ho & Hurl & Hmax).
  destruct (registration_checks_rows_then_duplicate alice 0 ann oneSeat
              "ann@example.com" "Ann" "Lee" e0 _ _ eq_refl Ho (surjective_pairing _))
    as (_ & _ & Hreg & _).
  eexists. split.
  - apply Hreg. split; [rewrite Hmax; by vm_compute|].
    split; [vm_compute; by intros [? ?] | reflexivity].
  - exact Hurl.
Defined.

(** ** Two registrations at once *)

(** Run without interruption, the steps of the attendee route are the
    route. *)
Lemma regRun_is_postAttendee rq w :
  regRun 4 rq RegStart w
  = (RegDone (run ServerError (postAttendee (rq_user rq) (rq_id rq) (rq_body rq)) w).1,
     after (postAttendee (rq_user rq) (rq_id rq) (rq_body rq)) w).
Proof.
  destruct rq as [u id b]. unfold after, regRun, regAdvance, regStep, postAttendee.
  simpl. unfold_route.
  destruct (validateAttendee b) as [[[email firstName] lastName]|]; [|reflexivity].
  simpl. destruct (ownedEvent id (user_id u) w) as [e0|] eqn:Ho; [|reflexivity].
  pose proof (ownedEvent_lookup _ _ _ _ Ho) as Hl. simpl.
  case_bool_decide; [reflexivity|].
  simpl. destruct (attendees w !! (email, id)) eqn:Ha; [reflexivity|].
  simpl. rewrite Ha, Hl. simpl. rewrite Hl. reflexivity.
Qed.

(** One request at a time, the rows of an event never outnumber its
    [maxAttendees]. *)
Lemma postAttendee_keeps_capacity u id b w e0 :
  ownedEvent id (user_id u) w = Some e0 ->
  countAttendees w id <= ev_maxAttendees e0 ->
  countAttendees (after (postAttendee u id b) w) id <= ev_maxAttendees e0.
Proof.
  intros Ho Hcap. unfold after.
  destruct (validateAttendee b) as [[[email firstName] lastName]|] eqn:Hv.
  2:{ unfold postAttendee. by rewrite Hv. }
  rewrite (postAttendee_run _ _ _ _ _ _ _ _ Hv Ho). cbn zeta.
  case_bool_decide as Hfull; [done|].
  destruct (attendees w !! (email, id)) eqn:Ha; [done|]. simpl.
  erewrite countAttendees_insert; [|exact Ha|reflexivity]. lia.
Qed.

(** C4 fails on the attendee route: the capacity check and the two writes
    are separate store calls with an [await] between them. The event has
    one seat and no attendee. One after the other, Ann gets the seat and
    Bob is told the event is full; taking turns at each [await], both read
    a count of zero, both are registered, and the event ends with two
    rows and [currentAttendees = 2] against [maxAttendees = 1]. *)
Theorem concurrent_registrations_overshoot :
  (exists e, events oneSeat !! 0%nat = Some e /\ ev_maxAttendees e = 1
             /\ countAttendees oneSeat 0 = ev_maxAttendees e - 1)
  /\ (let '(stA, stB, w') :=
        interleave oneAfterTheOther rqAnn rqBob RegStart RegStart oneSeat in
      succeeded stA = true /\ deniedFull stB = true
      /\ countAttendees w' 0 = 1)
  /\ (let '(stA, stB, w') :=
        interleave takingTurns rqAnn rqBob RegStart RegStart oneSeat in
      succeeded stA = true /\ succeeded stB = true
      /\ deniedFull stA = false /\ deniedFull stB = false
      /\ countAttendees w' 0 = 2
      /\ exists e, events w' !! 0%nat = Some e
                   /\ ev_maxAttendees e = 1 /\ ev_currentAttendees e = 2).
Proof.
  split; [eexists; by vm_compute|].
  split; [by vm_compute|].
  vm_compute. repeat split; try reflexivity. eexists. repeat split; reflexivity.
Qed.

(** * Further properties of the routes *)

(** ** Who may touch an event *)

Lemma ownedEvent_None id userId w :
  (forall e, events w !! id = Some e -> ev_userId e <> userId) ->
  ownedEvent id userId w = None.
Proof.
  intros H. unfold ownedEvent. destruct (events w !! id) as [e|] eqn:He; [|done].
  case_decide; [|done]. by destruct (H e).
Qed.

(** X1: an id that names no event, or an event of another user, is
    answered 404 by the update, delete and attendee routes; the one call
    made is the lookup, so nothing is written and the provider is not
    contacted. *)
Theorem foreign_event_is_not_found z u id w :
  (forall e, events w !! id = Some e -> ev_userId e <> user_id u) ->
  let w404 := logged (EventFindUnique id (user_id u)) w in
  (forall b, validateUpdate b <> None ->
     run ServerError (putEvent z u id b) w = (EventNotFound, w404))
  /\ run ServerError (deleteEvent z u id) w = (EventNotFound, w404)
  /\ (forall b, validateAttendee b <> None ->
        run ServerError (postAttendee u id b) w = (EventNotFound, w404))
  /\ events w404 = events w /\ attendees w404 = attendees w
  /\ newCalls w w404 = [EventFindUnique id (user_id u)].
Proof.
  intros Hforeign. apply ownedEvent_None in Hforeign. cbn zeta.
  split; [|split; [|split]].
  - intros b Hv. unfold putEvent.
    destruct (validateUpdate b); [|done]. unfold_route. by rewrite Hforeign.
  - unfold deleteEvent. unfold_route. by rewrite Hforeign.
  - intros b Hv. unfold postAttendee.
    destruct (validateAttendee b) as [[[email firstName] lastName]|]; [|done].
    unfold_route. by rewrite Hforeign.
  - repeat split. by apply newCalls_app.
Qed.

Lemma foreign_event_is_not_found_witness :
  (run ServerError (deleteEvent zoomUp bea 0) linked).1 = EventNotFound
  /\ is_Some (events (after (deleteEvent zoomUp bea 0) linked) !! 0%nat).
Proof.
  assert (H : forall e, events linked !! 0%nat = Some e -> ev_userId e <> user_id bea)
    by (intros e; vm_compute; intros [= <-]; simpl; discriminate).
  destruct (foreign_event_is_not_found zoomUp bea 0 linked H) as (_ & Hdel & _).
  unfold after. rewrite Hdel. split; [reflexivity|]. vm_compute. eauto.
Defined.

(** ** Field validation *)

Lemma checkCreate_None b :
  checkCreate b = None <->
  match cb_title b with Some t => trim t = "" | None => True end
  \/ isoRequired (cb_startTime b) = false
  \/ isoRequired (cb_endTime b) = false
  \/ (exists m, cb_maxAttendees b = Some m /\ m < 1).
Proof.
  unfold checkCreate.
  destruct (cb_title b) as [t|]; [|by intuition].
  destruct (bool_decide_reflect (trim t <> "")) as [Ht|Ht]; simpl.
  2:{ split; [|done]. intros _. left. by destruct (decide (trim t = "")). }
  destruct (isoRequired (cb_startTime b)); simpl; [|by intuition].
  destruct (isoRequired (cb_endTime b)); simpl; [|by intuition].
  destruct (cb_maxAttendees b) as [m|]; [case_bool_decide|]; simpl.
  - split; [done|]. intros [? | [? | [? | (m' & [= <-] & ?)]]]; done || lia.
  - split; [|done]. intros _. right. right. right. exists m. split; [done | lia].
  - split; [done|]. intros [? | [? | [? | (m' & ? & ?)]]]; done.
Qed.

(** A create request is answered 400 [Validation failed] only as the
    chain turns it down, and then nothing has been called. *)
Lemma postEvent_validation_failed z now u b w :
  (run ServerError (postEvent z now u b) w).1 = ValidationFailed ->
  checkCreate b = None.
Proof.
  destruct (checkCreate_cases b)
    as [Hv | [(title & s & e & Hv) | (title & sd & ed & Hv & Hnan)]]; [done|..].
  - rewrite (postEvent_run _ _ _ _ _ _ _ _ Hv). cbn zeta. split_route; discriminate.
  - rewrite (postEvent_no_date _ _ _ _ _ _ _ _ Hv Hnan). cbn zeta.
    split_route; try discriminate.
    all: destruct (dateLe sd (DateAt now)); discriminate.
Qed.

Lemma putEvent_validation_failed z u id b w :
  (run ServerError (putEvent z u id b) w).1 = ValidationFailed ->
  validateUpdate b = None.
Proof.
  destruct (validateUpdate b) as [d|] eqn:Hv; [|done].
  destruct (ownedEvent id (user_id u) w) as [e0|] eqn:Ho.
  - rewrite (putEvent_run _ _ _ _ _ _ _ Hv Ho). cbn zeta.
    by destruct (updateDataOf d).
  - unfold putEvent. rewrite Hv. unfold_route. by rewrite Ho.
Qed.

(** X2: a create request whose title is missing or blank once trimmed
    (of any white space, a no-break space included), whose start or end
    is missing or not ISO 8601, or which names a [maxAttendees] below 1,
    is answered 400 [Validation failed]; so is an update request that
    supplies a blank title or a time that is not ISO 8601. Whenever one
    of the two routes answers 400 [Validation failed], it does so before
    any store or provider call: the log and both tables are as they were,
    and on the update route the event has not been looked up. *)
Theorem rejected_fields_leave_no_trace z now u id bc bu w :
  (match cb_title bc with Some t => trim t = "" | None => True end
   \/ cb_startTime bc = IsoAbsent \/ cb_startTime bc = IsoInvalid
   \/ cb_endTime bc = IsoAbsent \/ cb_endTime bc = IsoInvalid
   \/ (exists m, cb_maxAttendees bc = Some m /\ m < 1) ->
   run ServerError (postEvent z now u bc) w = (ValidationFailed, w))
  /\ ((run ServerError (postEvent z now u bc) w).1 = ValidationFailed ->
        run ServerError (postEvent z now u bc) w = (ValidationFailed, w))
  /\ ((exists t, ub_title bu = Some t /\ trim t = "")
      \/ ub_startTime bu = IsoInvalid \/ ub_endTime bu = IsoInvalid ->
      run ServerError (putEvent z u id bu) w = (ValidationFailed, w))
  /\ ((run ServerError (putEvent z u id bu) w).1 = ValidationFailed ->
        run ServerError (putEvent z u id bu) w = (ValidationFailed, w))
  /\ trim (String "194" (String "160" "")) = "".
Proof.
  split; [|split; [|split; [|split]]].
  - intros H. apply postEvent_invalid, checkCreate_None.
    destruct H as [H | [H | [H | [H | [H | H]]]]]; try rewrite H; auto.
  - intros H. by apply postEvent_invalid, (postEvent_validation_failed z now u bc w).
  - intros H. unfold putEvent, validateUpdate.
    destruct H as [(t & -> & Ht) | [-> | ->]].
    + by rewrite bool_decide_eq_false_2 by (by intros []).
    + by rewrite andb_false_r.
    + by rewrite andb_false_r.
  - intros H. apply putEvent_validation_failed in H. unfold putEvent. by rewrite H.
  - reflexivity.
Qed.

Lemma rejected_fields_leave_no_trace_witness :
  run ServerError (postEvent zoomUp 0 alice talkWithoutTitle) linked
  = (ValidationFailed, linked).
Proof.
  destruct (rejected_fields_leave_no_trace zoomUp 0 alice 0 talkWithoutTitle
              counterToOne linked) as [H _].
  apply H. left. reflexivity.
Defined.

(** ** What the create route stores *)

(** X3: an event stored by the create route belongs to the caller, sits
    under an id no event had, can be read back by its owner, has a
    non-blank title, and is within the caller's tier: its [maxAttendees]
    is between 1 and the tier's limit and its rounded-up duration is
    within the tier's cap when there is one. The Zoom columns are those of
    the meeting reported in the response. *)
Theorem created_event_is_within_the_tier z now u b w ev zm w' :
  run ServerError (postEvent z now u b) w = (EventCreated ev zm, w') ->
  let lim := limitsOf u in
  ev_userId ev = user_id u
  /\ events w !! ev_id ev = None
  /\ events w' = <[ev_id ev := ev]> (events w)
  /\ attendees w' = attendees w
  /\ ownedEvent (ev_id ev) (user_id u) w' = Some ev
  /\ ev_title ev <> ""
  /\ 1 <= ev_maxAttendees ev <= maxAttendees lim
  /\ (maxDuration lim <> -1 ->
        ceilMinutes (ev_endTime ev - ev_startTime ev) <= maxDuration lim)
  /\ zoomMeetingUrl ev = zm ≫= zm_join_url
  /\ zoomPassword ev = zm ≫= zm_password
  /\ zoomHostKey ev = zm ≫= zm_start_url
  /\ (zm = None -> zoomMeetingId ev = None).
Proof.
  intros Hrun. cbn zeta.
  destruct (validateCreate b) as [[[title s] e]|] eqn:Hv.
  2:{ destruct (postEvent_without_dates z now u b w Hv)
        as (r0 & w0 & Hr & _ & _ & _ & Hne & _).
      rewrite Hr in Hrun. injection Hrun as Hr0 _. by destruct (Hne ev zm). }
  pose proof (postEvent_decision z now u b w _ _ _ Hv) as Hd.
  rewrite Hrun in Hd. simpl in Hd.
  destruct (postEvent_rejected_or_created z now u b w _ _ _ Hv)
    as [(r0 & Hr & Hne) | (_ & _ & Hatt & Hr)]; rewrite Hr in Hrun.
  { injection Hrun as Hr0 _. by destruct (Hne ev zm). }
  cbn zeta in Hrun. injection Hrun as Hev Hzm Hw. subst ev zm w'. simpl.
  rewrite events_afterZoomCreate, events_afterCount,
    attendees_afterZoomCreate, attendees_afterCount.
  assert (Htitle : title <> "" /\ 1 <= requestedAttendees u b).
  { destruct (validateCreate_fields _ _ _ _ Hv) as ((t & _ & -> & Ht) & _ & _ & Hm).
    split; [done|]. unfold requestedAttendees, orDefault.
    destruct (cb_maxAttendees b) as [m|]; [specialize (Hm m eq_refl); case_bool_decide|];
      try lia.
    all: unfold limitsOf; destruct (subscriptionTier u); simpl; lia. }
  destruct Htitle as [Htitle Hone].
  split; [done|]. split; [apply fresh_id_unused|]. split; [done|].
  split; [done|].
  split; [unfold ownedEvent; simpl; rewrite lookup_insert_eq; simpl;
          by rewrite decide_True|].
  split; [done|]. split; [lia|].
  split; [|by repeat split; try intros ->].
  intros Hcap. unfold evaluate_spec in Hd.
  repeat case_bool_decide; try discriminate. lia.
Qed.

Lemma created_event_is_within_the_tier_witness :
  exists ev, events linked !! 0%nat = Some ev
             /\ ev_maxAttendees ev = 12 /\ ev_userId ev = 1%nat.
Proof.
  pose proof (created_event_is_within_the_tier zoomUp 0 alice talk emptyWorld
                (eventDataOf "Talk" 3600000 7200000 12 alice talk
                   (createMeeting zoomUp
                      (meetingDataOf "Talk" 3600000 (Num 60) talk)) 0)
                (createMeeting zoomUp (meetingDataOf "Talk" 3600000 (Num 60) talk))
                linked) as H.
  cbn zeta in H. destruct H as (Hu & _ & Hev & _); [by vm_compute|].
  eexists. split; [rewrite Hev; apply lookup_insert_eq|]. split; [reflexivity|exact Hu].
Defined.

(** ** The event limit over time *)

Lemma size_filter_insert_fresh {K A} `{Countable K} (P : K * A -> Prop)
    `{!forall x, base.Decision (P x)} (m : gmap K A) i x :
  m !! i = None ->
  size (filter P (<[i := x]> m))
  = if decide (P (i, x)) then S (size (filter P m)) else size (filter P m).
Proof.
  intros Hi. rewrite map_filter_insert. case_decide.
  - rewrite map_size_insert_None; [done|].
    apply map_lookup_filter_None_2. by left.
  - by rewrite delete_id.
Qed.

(** What one create request does to the number of events of a user. *)
Lemma postEvent_event_count z now u' b w u :
  let w' := after (postEvent z now u' b) w in
  existingEventCount u w' = existingEventCount u w
  \/ (existingEventCount u w' = existingEventCount u w + 1
      /\ user_id u' = user_id u
      /\ (maxEvents (limitsOf u') = -1
          \/ existingEventCount u' w < maxEvents (limitsOf u'))).
Proof.
  cbn zeta. unfold after.
  destruct (validateCreate b) as [[[title s] e]|] eqn:Hv.
  2:{ destruct (postEvent_without_dates z now u' b w Hv)
        as (r0 & w0 & Hr & Hev & _).
      rewrite Hr. left. unfold existingEventCount, eventsOf. simpl. by rewrite Hev. }
  pose proof (postEvent_decision z now u' b w _ _ _ Hv) as Hd.
  destruct (postEvent_rejected_or_created z now u' b w _ _ _ Hv)
    as [(r0 & Hr & Hne) | (_ & _ & _ & Hr)]; rewrite Hr in *; simpl in *.
  { left. unfold existingEventCount, eventsOf. by rewrite events_afterCount. }
  unfold existingEventCount, eventsOf. simpl.
  rewrite events_afterZoomCreate, events_afterCount.
  rewrite size_filter_insert_fresh by apply fresh_id_unused.
  simpl. case_decide as Hown; [right | by left].
  split; [lia|]. split; [done|].
  unfold evaluate_spec in Hd. repeat case_bool_decide; try discriminate.
  unfold existingEventCount, eventsOf in *. lia.
Qed.

(** X4: the event limit of a tier holds over time. If a user with a
    limited tier owns no more events than the limit allows, then after
    any run of create requests, by any users, against any provider
    behaviour, that user still owns no more than the limit, as long as
    the requests made in that user's name carry that tier. *)
Theorem event_limit_is_kept u rs w :
  maxEvents (limitsOf u) <> -1 ->
  existingEventCount u w <= maxEvents (limitsOf u) ->
  Forall (fun r => user_id (cr_user r) = user_id u ->
                   subscriptionTier (cr_user r) = subscriptionTier u) rs ->
  existingEventCount u (createAll rs w) <= maxEvents (limitsOf u).
Proof.
  intros Hlim Hle Hrs. revert w Hle.
  induction Hrs as [|r rs Htier _ IH]; intros w Hle; [done|].
  unfold createAll. simpl. apply IH.
  destruct (postEvent_event_count (cr_zoom r) (cr_now r) (cr_user r) (cr_body r) w u)
    as [-> | (-> & Hsame & Hroom)]; [done|].
  assert (Hu : existingEventCount (cr_user r) w = existingEventCount u w)
    by (unfold existingEventCount, eventsOf; by rewrite Hsame).
  unfold limitsOf in *. rewrite (Htier Hsame), Hu in Hroom. lia.
Qed.

Lemma event_limit_is_kept_witness :
  existingEventCount alice
    (createAll
       [ {| cr_zoom := zoomUp; cr_now := 0; cr_user := alice; cr_body := talk |};
         {| cr_zoom := zoomDown; cr_now := 0; cr_user := bea; cr_body := talk |};
         {| cr_zoom := zoomDown; cr_now := 0; cr_user := alice; cr_body := talk |} ]
       threeEvents) <= 3.
Proof.
  apply (event_limit_is_kept alice).
  - vm_compute. discriminate.
  - vm_compute. discriminate.
  - repeat constructor; vm_compute; intros; first [reflexivity | discriminate].
Defined.

(** ** Registrations over time *)

Lemma ownedEvent_owner id userId w e :
  ownedEvent id userId w = Some e -> ev_userId e = userId.
Proof. unfold ownedEvent. intros H. repeat case_match; congruence. Qed.

(** What one attendee request, by anyone and for any event, does to a
    given event: nothing, or one more row and one more on the counter,
    and the latter only when there was room. *)
Lemma postAttendee_effect u' id' b w id e :
  events w !! id = Some e ->
  let w' := after (postAttendee u' id' b) w in
  (events w' !! id = Some e /\ countAttendees w' id = countAttendees w id)
  \/ (events w' !! id = Some (incrementCurrentAttendees e)
      /\ countAttendees w' id = countAttendees w id + 1
      /\ countAttendees w id < ev_maxAttendees e).
Proof.
  intros He. cbn zeta.
  destruct (ownedEvent id' (user_id u') w) as [e0|] eqn:Ho.
  2:{ destruct (postAttendee_not_found u' id' b w Ho) as [Hev Hat].
      left. unfold countAttendees, attendeesOf. by rewrite Hev, Hat. }
  destruct (validateAttendee b) as [[[email firstName] lastName]|] eqn:Hv.
  2:{ unfold after. rewrite (postAttendee_invalid _ _ _ _ Hv). by left. }
  unfold after. rewrite (postAttendee_run _ _ _ _ _ _ _ _ Hv Ho). cbn zeta.
  case_bool_decide as Hfull; [by left|].
  destruct (attendees w !! (email, id')) eqn:Ha; [by left|]. simpl.
  pose proof (ownedEvent_lookup _ _ _ _ Ho) as Hl.
  unfold countAttendees, attendeesOf in *. simpl.
  rewrite size_filter_insert_fresh by done. simpl.
  destruct (decide (id' = id)) as [-> | Hne].
  - right. rewrite lookup_insert_eq. rewrite He in Hl. simplify_eq.
    repeat split; lia.
  - left. by rewrite lookup_insert_ne.
Qed.

Lemma registerAll_invariant id rs : forall w e,
  events w !! id = Some e ->
  exists e',
    events (registerAll rs w) !! id = Some e'
    /\ ev_maxAttendees e' = ev_maxAttendees e
    /\ ev_currentAttendees e' - countAttendees (registerAll rs w) id
       = ev_currentAttendees e - countAttendees w id
    /\ (countAttendees w id <= ev_maxAttendees e ->
        countAttendees (registerAll rs w) id <= ev_maxAttendees e').
Proof.
  induction rs as [|r rs IH]; intros w e He.
  { exists e. by repeat split. }
  change (registerAll (r :: rs) w)
    with (registerAll rs (after (postAttendee (rq_user r) (rq_id r) (rq_body r)) w)).
  destruct (postAttendee_effect (rq_user r) (rq_id r) (rq_body r) w id e He)
    as [[He1 Hc1] | (He1 & Hc1 & Hroom)];
    destruct (IH _ _ He1) as (e' & He' & Hmax & Hdiff & Hcap);
    exists e'; (split; [exact He'|]).
  - rewrite Hc1 in *. auto.
  - simpl in Hmax, Hdiff, Hcap. rewrite Hc1 in *.
    split; [done|]. split; [lia|]. intros _. apply Hcap. lia.
Qed.

(** X5: served one after the other, attendee requests never fill an
    event beyond [maxAttendees]: whatever the requests, for whatever
    events and by whatever users, an event that had no more attendee rows
    than seats still has no more rows than seats, and the same number of
    seats. *)
Theorem registrations_in_turn_respect_capacity id rs w e :
  events w !! id = Some e ->
  countAttendees w id <= ev_maxAttendees e ->
  exists e',
    events (registerAll rs w) !! id = Some e'
    /\ ev_maxAttendees e' = ev_maxAttendees e
    /\ countAttendees (registerAll rs w) id <= ev_maxAttendees e'.
Proof.
  intros He Hcap. destruct (registerAll_invariant id rs w e He)
    as (e' & He' & Hmax & _ & Hkeep).
  exists e'. auto.
Qed.

Lemma registrations_in_turn_respect_capacity_witness :
  countAttendees (registerAll [rqAnn; rqBob; rqAnn] oneSeat) 0 <= 1.
Proof.
  assert (He : exists e, events oneSeat !! 0%nat = Some e /\ ev_maxAttendees e = 1)
    by (eexists; by vm_compute).
  destruct He as (e & He & Hmax).
  destruct (registrations_in_turn_respect_capacity 0 [rqAnn; rqBob; rqAnn] oneSeat e He)
    as (e' & _ & Hmax' & Hle).
  - rewrite Hmax. by vm_compute.
  - by rewrite Hmax', Hmax in Hle.
Defined.

(** X6: served one after the other, attendee requests keep the
    [currentAttendees] column in step with the attendee rows: the
    difference between the column and the number of rows of an event never
    changes, so a column that matched the rows still matches them. *)
Theorem counter_follows_rows id rs w e :
  events w !! id = Some e ->
  exists e',
    events (registerAll rs w) !! id = Some e'
    /\ ev_currentAttendees e' - countAttendees (registerAll rs w) id
       = ev_currentAttendees e - countAttendees w id
    /\ (ev_currentAttendees e = countAttendees w id ->
        ev_currentAttendees e' = countAttendees (registerAll rs w) id).
Proof.
  intros He. destruct (registerAll_invariant id rs w e He)
    as (e' & He' & _ & Hdiff & _).
  exists e'. repeat split; [done..|lia].
Qed.

Lemma counter_follows_rows_witness :
  exists e', events (registerAll [rqAnn; rqBob] linked) !! 0%nat = Some e'
             /\ ev_currentAttendees e' = 2
             /\ countAttendees (registerAll [rqAnn; rqBob] linked) 0 = 2.
Proof.
  assert (He : exists e, events linked !! 0%nat = Some e /\ ev_currentAttendees e = 0)
    by (eexists; by vm_compute).
  destruct He as (e & He & Hzero).
  destruct (counter_follows_rows 0 [rqAnn; rqBob] linked e He) as (e' & He' & _ & Heq).
  exists e'. split; [exact He'|].
  assert (Hrows : countAttendees (registerAll [rqAnn; rqBob] linked) 0 = 2)
    by by vm_compute.
  split; [|exact Hrows]. rewrite <- Hrows. apply Heq. rewrite Hzero. by vm_compute.
Defined.

(** X7: a request that has just been registered is never registered
    again: served a second time it is answered [Event is full] or
    [Already registered], and neither table changes. *)
Theorem repeated_registration_is_refused u id b w a w1 r w2 :
  run ServerError (postAttendee u id b) w = (AttendeeRegistered a, w1) ->
  run ServerError (postAttendee u id b) w1 = (r, w2) ->
  (r = AlreadyRegistered \/ exists m c, r = EventIsFull m c)
  /\ events w2 = events w1 /\ attendees w2 = attendees w1
  /\ attendees w1 !! (at_email a, id) = Some a.
Proof.
  intros H1 H2.
  destruct (validateAttendee b) as [[[email firstName] lastName]|] eqn:Hv.
  2:{ by rewrite (postAttendee_invalid _ _ _ _ Hv) in H1. }
  destruct (ownedEvent id (user_id u) w) as [e0|] eqn:Ho.
  2:{ revert H1. unfold postAttendee. rewrite Hv. unfold_route. by rewrite Ho. }
  rewrite (postAttendee_run _ _ _ _ _ _ _ _ Hv Ho) in H1. cbn zeta in H1.
  case_bool_decide; [done|].
  destruct (attendees w !! (email, id)) eqn:Ha; [done|].
  injection H1 as Hrow Hw1.
  assert (Ho1 : ownedEvent id (user_id u) w1 = Some (incrementCurrentAttendees e0)).
  { subst w1. unfold ownedEvent. simpl. rewrite lookup_insert_eq. simpl.
    rewrite decide_True; [done|]. by apply ownedEvent_owner in Ho. }
  assert (Ha1 : attendees w1 !! (email, id) = Some a)
    by (subst w1 a; apply lookup_insert_eq).
  rewrite (postAttendee_run _ _ _ _ _ _ _ _ Hv Ho1) in H2. cbn zeta in H2.
  rewrite Ha1 in H2.
  assert (Hemail : at_email a = email) by by subst a.
  rewrite Hemail.
  case_bool_decide; injection H2 as <- <-; simpl;
    (split; [eauto|]); by repeat split.
Qed.

Lemma repeated_registration_is_refused_witness :
  (run ServerError (postAttendee alice 0 ann) seatTaken).1 = EventIsFull 1 1
  /\ attendees (after (postAttendee alice 0 ann) seatTaken) = attendees seatTaken.
Proof.
  assert (H1 : exists a, run ServerError (postAttendee alice 0 ann) oneSeat
                         = (AttendeeRegistered a, seatTaken))
    by (eexists; apply injective_projections; [by vm_compute | reflexivity]).
  destruct H1 as (a & H1).
  destruct (repeated_registration_is_refused alice 0 ann oneSeat a seatTaken _ _ H1
              (surjective_pairing _)) as (_ & _ & Hat & _).
  split; [by vm_compute | exact Hat].
Defined.

(** ** After a deletion *)

(** An id that names no event of the caller is answered 404 by the three
    routes that take one, after the lookup and nothing else. *)
Lemma not_found_run z u id w :
  ownedEvent id (user_id u) w = None ->
  let w404 := logged (EventFindUnique id (user_id u)) w in
  run ServerError (deleteEvent z u id) w = (EventNotFound, w404)
  /\ (forall b, validateUpdate b <> None ->
        run ServerError (putEvent z u id b) w = (EventNotFound, w404))
  /\ (forall b, validateAttendee b <> None ->
        run ServerError (postAttendee u id b) w = (EventNotFound, w404)).
Proof.
  intros Ho. cbn zeta. split; [|split].
  - unfold deleteEvent. unfold_route. by rewrite Ho.
  - intros b Hv. unfold putEvent.
    destruct (validateUpdate b); [|done]. unfold_route. by rewrite Ho.
  - intros b Hv. unfold postAttendee.
    destruct (validateAttendee b) as [[[email firstName] lastName]|]; [|done].
    unfold_route. by rewrite Ho.
Qed.

(** The id of a deleted event is not in use, and no create, delete or
    attendee request brings it back into use. *)
Lemma handle_keeps_deleted rq w id :
  id ∈ deletedIds w -> events w !! id = None ->
  id ∈ deletedIds (after (handle rq) w) /\ events (after (handle rq) w) !! id = None.
Proof.
  intros Hdel Hgone. unfold after.
  destruct rq as [z now u b | z u id' | u id' b]; cbn [handle].
  - destruct (validateCreate b) as [[[title s] e]|] eqn:Hv.
    + destruct (postEvent_rejected_or_created z now u b w _ _ _ Hv)
        as [(r0 & Hr & _) | (_ & _ & _ & Hr)]; rewrite Hr; simpl.
      * by rewrite deletedIds_afterCount, events_afterCount.
      * rewrite deletedIds_afterZoomCreate, deletedIds_afterCount,
          events_afterZoomCreate, events_afterCount.
        split; [done|]. rewrite lookup_insert_ne; [done|]. intros Heq.
        apply (is_fresh (dom (events w) ∪ deletedIds w)).
        rewrite Heq. by apply elem_of_union_r.
    + destruct (postEvent_without_dates z now u b w Hv)
        as (r0 & w0 & Hr & Hev & _ & Hd & _).
      rewrite Hr. simpl. by rewrite Hev, Hd.
  - destruct (ownedEvent id' (user_id u) w) as [e0|] eqn:Ho.
    2:{ unfold deleteEvent. unfold_route. by rewrite Ho. }
    rewrite (deleteEvent_run _ _ _ _ _ Ho). simpl.
    split; [by apply elem_of_union_r|].
    destruct (decide (id' = id)) as [-> | Hne];
      [apply lookup_delete_eq | by rewrite lookup_delete_ne].
  - destruct (validateAttendee b) as [[[email firstName] lastName]|] eqn:Hv.
    2:{ by rewrite (postAttendee_invalid _ _ _ _ Hv). }
    destruct (ownedEvent id' (user_id u) w) as [e0|] eqn:Ho.
    2:{ unfold postAttendee. rewrite Hv. unfold_route. by rewrite Ho. }
    rewrite (postAttendee_run _ _ _ _ _ _ _ _ Hv Ho). cbn zeta.
    case_bool_decide; [done|].
    destruct (attendees w !! (email, id')); [done|]. simpl.
    split; [done|]. rewrite lookup_insert_ne; [done|]. intros ->.
    apply ownedEvent_lookup in Ho. congruence.
Qed.

Lemma serveAll_keeps_deleted rqs : forall w id,
  id ∈ deletedIds w -> events w !! id = None ->
  id ∈ deletedIds (serveAll rqs w) /\ events (serveAll rqs w) !! id = None.
Proof.
  induction rqs as [|rq rqs IH]; intros w id Hdel Hgone; [done|].
  change (serveAll (rq :: rqs) w) with (serveAll rqs (after (handle rq) w)).
  destruct (handle_keeps_deleted rq w id Hdel Hgone). by apply IH.
Qed.

(** X8: once the delete route has removed an event, its id stays gone,
    for everyone. Whatever create, delete and attendee requests are
    served afterwards, one after the other, no event has that id, and a
    delete, an update or an attendee request for it, by the former owner
    or by anyone else, is answered 404 after the lookup and nothing else:
    the log gets the lookup and both tables stay as they are. An event
    created later gets another id. *)
Theorem deleted_event_is_gone z u id w e0 rqs :
  ownedEvent id (user_id u) w = Some e0 ->
  let w1 := serveAll rqs (after (deleteEvent z u id) w) in
  events w1 !! id = None
  /\ (forall z' u',
        run ServerError (deleteEvent z' u' id) w1
        = (EventNotFound, logged (EventFindUnique id (user_id u')) w1))
  /\ (forall z' u' b, validateUpdate b <> None ->
        run ServerError (putEvent z' u' id b) w1
        = (EventNotFound, logged (EventFindUnique id (user_id u')) w1))
  /\ (forall u' b, validateAttendee b <> None ->
        run ServerError (postAttendee u' id b) w1
        = (EventNotFound, logged (EventFindUnique id (user_id u')) w1))
  /\ (forall c, events (logged c w1) = events w1
                /\ attendees (logged c w1) = attendees w1)
  /\ (forall z' now u' b ev zm,
        (run ServerError (postEvent z' now u' b) w1).1 = EventCreated ev zm ->
        ev_id ev <> id).
Proof.
  intros Ho. cbn zeta.
  destruct (serveAll_keeps_deleted rqs (after (deleteEvent z u id) w) id)
    as [Hdel Hgone].
  { unfold after. rewrite (deleteEvent_run _ _ _ _ _ Ho). simpl.
    by apply elem_of_union_l, elem_of_singleton. }
  { unfold after. rewrite (deleteEvent_run _ _ _ _ _ Ho). simpl.
    apply lookup_delete_eq. }
  set (w1 := serveAll rqs (after (deleteEvent z u id) w)) in *.
  assert (Hnone : forall u', ownedEvent id (user_id u') w1 = None)
    by (intros u'; unfold ownedEvent; by rewrite Hgone).
  split; [exact Hgone|].
  split; [intros z' u'; apply (not_found_run z' u' id w1 (Hnone u'))|].
  split; [intros z' u'; apply (not_found_run z' u' id w1 (Hnone u'))|].
  split; [intros u'; apply (not_found_run z u' id w1 (Hnone u'))|].
  split; [done|].
  intros z' now u' b ev zm Hcreated.
  destruct (validateCreate b) as [[[title s] e]|] eqn:Hv.
  - destruct (postEvent_rejected_or_created z' now u' b w1 _ _ _ Hv)
      as [(r0 & Hr & Hne) | (_ & _ & _ & Hr)]; rewrite Hr in Hcreated.
    + by destruct (Hne ev zm).
    + cbn zeta in Hcreated. injection Hcreated as <- _. simpl. intros Heq.
      apply (is_fresh (dom (events w1) ∪ deletedIds w1)).
      rewrite Heq. by apply elem_of_union_r.
  - destruct (postEvent_without_dates z' now u' b w1 Hv)
      as (r0 & w0 & Hr & _ & _ & _ & Hne & _).
    rewrite Hr in Hcreated. by destruct (Hne ev zm).
Qed.

Lemma deleted_event_is_gone_witness :
  events (serveAll [PostEvent zoomUp 0 alice talk; PostAttendee alice 0 ann]
            (after (deleteEvent zoomDown alice 0) linked)) !! 0%nat = None
  /\ is_Some (events (serveAll [PostEvent zoomUp 0 alice talk; PostAttendee alice 0 ann]
                        (after (deleteEvent zoomDown alice 0) linked)) !! 1%nat).
Proof.
  assert (Ho : exists e0, ownedEvent 0 (user_id alice) linked = Some e0)
    by (eexists; by vm_compute).
  destruct Ho as (e0 & Ho).
  split; [|vm_compute; eauto].
  apply (deleted_event_is_gone zoomDown alice 0 linked e0
           [PostEvent zoomUp 0 alice talk; PostAttendee alice 0 ann] Ho).
Defined.

(** ** The provider and the local record *)

(** X9: what the update and the delete routes answer and what they leave
    in the two tables does not depend on the provider: under any two
    provider behaviours the response and both tables are the same. Only
    the log can differ. *)
Theorem provider_cannot_change_update_or_delete z1 z2 u id b w :
  (run ServerError (putEvent z1 u id b) w).1 = (run ServerError (putEvent z2 u id b) w).1
  /\ events (after (putEvent z1 u id b) w) = events (after (putEvent z2 u id b) w)
  /\ attendees (after (putEvent z1 u id b) w) = attendees (after (putEvent z2 u id b) w)
  /\ (run ServerError (deleteEvent z1 u id) w).1 = (run ServerError (deleteEvent z2 u id) w).1
  /\ events (after (deleteEvent z1 u id) w) = events (after (deleteEvent z2 u id) w)
  /\ attendees (after (deleteEvent z1 u id) w) = attendees (after (deleteEvent z2 u id) w).
Proof.
  unfold after.
  destruct (ownedEvent id (user_id u) w) as [e0|] eqn:Ho.
  - rewrite !(deleteEvent_run _ _ _ _ _ Ho).
    destruct (validateUpdate b) as [d|] eqn:Hv.
    + rewrite !(putEvent_run _ _ _ _ _ _ _ Hv Ho). cbn zeta.
      destruct (updateDataOf d); simpl;
        by rewrite !events_afterZoomUpdate, !attendees_afterZoomUpdate.
    + unfold putEvent. by rewrite Hv.
  - split; [|split; [|split]].
    1-3: unfold putEvent; destruct (validateUpdate b); [|done];
      unfold_route; by rewrite Ho.
    unfold deleteEvent. unfold_route. by rewrite Ho.
Qed.

(** X10: the provider is contacted only for a meeting. A create request
    with [createZoomMeeting: false] makes no provider call and, when it
    stores an event, stores it with the four Zoom columns null and reports
    no meeting; an update or a delete of an event without a meeting id
    makes no provider call either, whatever fields the update changes. *)
Theorem no_meeting_no_provider_call z now u id bc bu w :
  (cb_createZoomMeeting bc = Some false ->
     Forall (fun c => isZoomCall c = false)
       (newCalls w (after (postEvent z now u bc) w))
     /\ forall ev zm,
          (run ServerError (postEvent z now u bc) w).1 = EventCreated ev zm ->
          zm = None /\ zoomMeetingId ev = None /\ zoomMeetingUrl ev = None
          /\ zoomPassword ev = None /\ zoomHostKey ev = None)
  /\ (forall e0, ownedEvent id (user_id u) w = Some e0 -> zoomMeetingId e0 = None ->
        Forall (fun c => isZoomCall c = false)
          (newCalls w (after (putEvent z u id bu) w))
        /\ Forall (fun c => isZoomCall c = false)
             (newCalls w (after (deleteEvent z u id) w))).
Proof.
  split.
  - intros Hoff. unfold after.
    destruct (validateCreate bc) as [[[title s] e]|] eqn:Hv.
    2:{ destruct (postEvent_without_dates z now u bc w Hv)
          as (r0 & w0 & Hr & _ & _ & _ & Hne & _ & Hquiet).
        rewrite Hr. simpl. split; [by apply Hquiet|].
        intros ev zm ->. by destruct (Hne ev zm). }
    destruct (postEvent_rejected_or_created z now u bc w _ _ _ Hv)
      as [(r0 & Hr & Hne) | (_ & _ & _ & Hr)]; rewrite Hr; simpl.
    { split; [|intros ev zm ->; by destruct (Hne ev zm)].
      rewrite newCalls_afterCount. case_bool_decide; repeat constructor. }
    rewrite Hoff. simpl. split; [|by intros ev zm [= <- <-]].
    eapply Forall_newCalls.
    { unfold withEvent. simpl. rewrite calls_afterCount, <- app_assoc. reflexivity. }
    apply Forall_app. split; [case_bool_decide|]; repeat constructor.
  - intros e0 Ho Hnone. unfold after. split.
    + destruct (validateUpdate bu) as [bu'|] eqn:Hv.
      2:{ unfold putEvent. rewrite Hv. simpl. by rewrite newCalls_self. }
      rewrite (putEvent_run _ _ _ _ _ _ _ Hv Ho). cbn zeta.
      unfold afterZoomUpdate. rewrite Hnone.
      destruct (updateDataOf bu'); simpl;
        (eapply Forall_newCalls; [simpl; rewrite <- ?app_assoc; reflexivity|]);
        repeat constructor.
    + rewrite (deleteEvent_run _ _ _ _ _ Ho). simpl.
      eapply Forall_newCalls; [reflexivity|].
      unfold zoomDeleteCalls. rewrite Hnone. repeat constructor.
Qed.

(** ** Times that are no dates *)

Lemma checkCreate_Some b title startTime endTime :
  checkCreate b = Some (title, startTime, endTime) ->
  startTime = newDate (cb_startTime b) /\ endTime = newDate (cb_endTime b).
Proof.
  unfold checkCreate. destruct (cb_title b); [|done].
  case_match; [|done]. by intros [= _ <- <-].
Qed.

(** X20: a time that passes [isISO8601] and that [new Date] does not
    read, such as a week date, is never stored. On the create route such
    a request stores no event: it is never answered 201, never denied for
    its duration and never told that its end is not after its start; it
    is told that its start is not in the future only when the start is a
    date that is not; and when it passes validation and the other checks
    it is answered 500. On the update route a request with such a time
    for an event of the caller is answered 500 and the event stays as it
    is; when the time is the start, the provider is not called. *)
Theorem time_that_is_no_date_is_never_stored z now u id bc bu w :
  (cb_startTime bc = IsoNoDate \/ cb_endTime bc = IsoNoDate ->
     let r := (run ServerError (postEvent z now u bc) w).1 in
     let w' := after (postEvent z now u bc) w in
     events w' = events w /\ attendees w' = attendees w
     /\ (forall ev zm, r <> EventCreated ev zm)
     /\ (forall d l, r <> DurationLimitExceeded d l)
     /\ r <> InvalidEndTime
     /\ (r = InvalidStartTime -> exists s, cb_startTime bc = Iso s /\ s <= now)
     /\ (checkCreate bc <> None ->
         maxEvents (limitsOf u) = -1 \/ existingEventCount u w < maxEvents (limitsOf u) ->
         requestedAttendees u bc <= maxAttendees (limitsOf u) ->
         (forall s, cb_startTime bc = Iso s -> now < s) ->
         r = ServerError /\ ConsoleError "Create event error:" ∈ newCalls w w'))
  /\ (forall e0,
        validateUpdate bu <> None ->
        ownedEvent id (user_id u) w = Some e0 ->
        ub_startTime bu = IsoNoDate \/ ub_endTime bu = IsoNoDate ->
        (run ServerError (putEvent z u id bu) w).1 = ServerError
        /\ events (after (putEvent z u id bu) w) = events w
        /\ attendees (after (putEvent z u id bu) w) = attendees w
        /\ events (after (putEvent z u id bu) w) !! id = Some e0
        /\ (ub_startTime bu = IsoNoDate ->
            Forall (fun c => isZoomCall c = false)
              (newCalls w (after (putEvent z u id bu) w)))).
Proof.
  split.
  - intros Hno. cbn zeta. unfold after.
    destruct (checkCreate_cases bc)
      as [Hv | [(title & s & e & Hv) | (title & sd & ed & Hv & Hnan)]].
    + rewrite (postEvent_invalid _ _ _ _ _ Hv). simpl. by repeat split.
    + destruct (validateCreate_fields _ _ _ _ Hv) as (_ & Hs & He & _).
      destruct Hno; congruence.
    + destruct (checkCreate_Some _ _ _ _ Hv) as [Hsd Hed].
      rewrite (postEvent_no_date _ _ _ _ _ _ _ _ Hv Hnan). cbn zeta.
      destruct (bool_decide_reflect (maxEvents (limitsOf u) <> -1)) as [Hlim|Hlim];
        cbn [andb];
        [destruct (bool_decide_reflect (maxEvents (limitsOf u) <= existingEventCount u w))|];
        [simpl; rewrite events_afterCount, attendees_afterCount;
         repeat split; try done; intros; lia|..].
      all: destruct (bool_decide_reflect (maxAttendees (limitsOf u) < requestedAttendees u bc));
        [simpl; rewrite events_afterCount, attendees_afterCount;
         repeat split; try done; intros; lia|].
      all: destruct (dateLe sd (DateAt now)) eqn:Hpast; simpl;
        rewrite ?events_afterZoomAttempt, ?attendees_afterZoomAttempt,
          events_afterCount, attendees_afterCount.
      all: split; [done|]; split; [done|]; split; [done|]; split; [done|];
        split; [done|].
      all: try (split; [done|]; intros _ _ _ _; split; [done|];
                unfold newCalls; simpl; rewrite drop_app_le;
                [apply elem_of_app; right; apply list_elem_of_here|];
                unfold afterZoomAttempt, afterZoomCreate, afterCount;
                repeat case_match; simpl; rewrite ?length_app; simpl; lia).
      all: assert (Hstart : exists s, cb_startTime bc = Iso s /\ s <= now)
        by (subst sd; destruct (cb_startTime bc) as [| |s|]; try done;
            exists s; split; [done|]; by apply bool_decide_eq_true in Hpast).
      all: split; [done|]; intros _ _ _ Hfuture;
        destruct Hstart as (s & Hs & Hle); specialize (Hfuture s Hs); lia.
  - intros e0 Hv Ho Hno.
    destruct (validateUpdate bu) as [d|] eqn:Hd; [clear Hv|done].
    destruct (validateUpdate_times _ _ Hd) as [Hds Hde].
    unfold after. rewrite (putEvent_run _ _ _ _ _ _ _ Hd Ho). cbn zeta.
    assert (Hdata : updateDataOf d = None).
    { unfold updateDataOf. rewrite Hds, Hde.
      destruct Hno as [-> | ->]; [done|]. by destruct (ub_startTime bu). }
    rewrite Hdata. simpl.
    rewrite events_afterZoomUpdate, attendees_afterZoomUpdate. simpl.
    split; [done|]. split; [done|]. split; [done|].
    split; [by apply ownedEvent_lookup in Ho|].
    intros Hstart.
    assert (Hthrown : zoomUpdateDataOf d = None)
      by (unfold zoomUpdateDataOf; by rewrite Hds, Hstart).
    unfold afterZoomUpdate. rewrite Hthrown.
    destruct (zoomMeetingId e0) as [mid|];
      [destruct (bool_decide (mid <> "") && meetingDetailsChanged d)|];
      (eapply Forall_newCalls; [simpl; rewrite <- ?app_assoc; reflexivity|]);
      repeat constructor.
Qed.

Lemma time_that_is_no_date_is_never_stored_witness :
  (run ServerError (putEvent zoomUp alice 0 endOnWeekDate) linked).1 = ServerError
  /\ events (after (putEvent zoomUp alice 0 endOnWeekDate) linked) = events linked.
Proof.
  assert (Ho : exists e0, ownedEvent 0 (user_id alice) linked = Some e0)
    by (eexists; by vm_compute).
  destruct Ho as (e0 & Ho).
  destruct (time_that_is_no_date_is_never_stored zoomUp 0 alice 0 talk endOnWeekDate
              linked) as [_ H].
  destruct (H e0 ltac:(done) Ho ltac:(by right)) as (Hr & Hev & _).
  by split.
Defined.

(** * Properties of zoomService *)

Ltac unfold_service :=
  unfold tryCatchS, mbind, Svc_bind, mret, Svc_ret, throwS, getThis, setThis,
    dateNow, consoleErrorS, axiosPostToken, axios, awaitReply.

Lemma wire_complain label n : wire (complain label n) = wire n.
Proof. reflexivity. Qed.

(** [getAccessToken], case by case. *)
Lemma getAccessToken_run net n :
  getAccessToken net n =
    if truthy (accessToken (this n)) && laterThan (tokenExpiry (this n)) (clock n)
    then (inr (accessToken (this n)), n)
    else
      let r := tokenReply net (clock n) in
      let arrival := clock n + Z.of_N (elapsed r) in
      match outcome r with
      | inr d =>
          (inr (Some (access_token d)),
           {| this := {| accessToken := Some (access_token d);
                         tokenExpiry := Some (arrival + (expires_in d - 300) * 1000) |};
              clock := arrival; wire := wire n ++ [TokenPost];
              stderr := stderr n; draws := draws n |})
      | inl e =>
          (inl (newError "Failed to get Zoom access token"),
           complain "Zoom token error:" (elapse TokenPost r n))
      end.
Proof.
  unfold getAccessToken. unfold_service.
  destruct (truthy _ && laterThan _ _); [reflexivity|].
  cbn zeta. destruct (outcome (tokenReply net (clock n))); reflexivity.
Qed.

Lemma app_singleton_neq {A} (l : list A) x : l ++ [x] <> l.
Proof.
  intros H. apply (f_equal length) in H. rewrite length_app in H. simpl in H. lia.
Qed.

(** X11: [getAccessToken] answers from the cache exactly when a non-empty
    token is stored and its stored expiry is later than the clock; it then
    returns the stored token and changes nothing, and nothing goes out on
    the network. In every other case exactly one token request goes
    out. *)
Theorem cached_token_needs_no_request net n :
  let fresh_enough :=
    truthy (accessToken (this n)) && laterThan (tokenExpiry (this n)) (clock n) in
  (wire (getAccessToken net n).2 = wire n <-> fresh_enough = true)
  /\ (fresh_enough = true -> getAccessToken net n = (inr (accessToken (this n)), n))
  /\ (fresh_enough = false -> wire (getAccessToken net n).2 = wire n ++ [TokenPost]).
Proof.
  cbn zeta. rewrite getAccessToken_run.
  destruct (truthy _ && laterThan _ _); cbn zeta.
  - by repeat split.
  - destruct (outcome (tokenReply net (clock n))); simpl;
      (split; [split; [intros H; by apply app_singleton_neq in H | done]|]);
      by split.
Qed.

(** X12: a token fetched at a miss is stored with an expiry five minutes
    short of its lifetime, counted from the arrival of the reply. From then
    on, as long as the cache is not overwritten, a call before that expiry
    is answered with this token and no request, and a call answered
    without a request comes more than 300 seconds before the lifetime
    runs out. *)
Theorem fetched_token_expires_five_minutes_early net n d :
  truthy (accessToken (this n)) && laterThan (tokenExpiry (this n)) (clock n) = false ->
  outcome (tokenReply net (clock n)) = inr d ->
  let arrival := clock n + Z.of_N (elapsed (tokenReply net (clock n))) in
  let n1 := (getAccessToken net n).2 in
  (getAccessToken net n).1 = inr (Some (access_token d))
  /\ this n1 = {| accessToken := Some (access_token d);
                  tokenExpiry := Some (arrival + (expires_in d - 300) * 1000) |}
  /\ clock n1 = arrival
  /\ wire n1 = wire n ++ [TokenPost]
  /\ (forall net2 n2, this n2 = this n1 ->
        wire (getAccessToken net2 n2).2 = wire n2 ->
        (getAccessToken net2 n2).1 = inr (Some (access_token d))
        /\ clock n2 + 300 * 1000 < arrival + expires_in d * 1000)
  /\ (forall net2 n2, this n2 = this n1 ->
        access_token d <> "" ->
        clock n2 < arrival + (expires_in d - 300) * 1000 ->
        getAccessToken net2 n2 = (inr (Some (access_token d)), n2)).
Proof.
  intros Hmiss Hok. cbn zeta. rewrite getAccessToken_run, Hmiss. cbn zeta.
  rewrite Hok. simpl. repeat (split; [reflexivity|]). split.
  - intros net2 n2 Hthis Hquiet. rewrite getAccessToken_run in *.
    rewrite Hthis in *. simpl in *.
    destruct (bool_decide (access_token d <> "")); simpl in *.
    2:{ destruct (outcome (tokenReply net2 (clock n2))); simpl in Hquiet;
          by apply app_singleton_neq in Hquiet. }
    case_bool_decide as Hlater; [split; [done | lia]|].
    destruct (outcome (tokenReply net2 (clock n2))); simpl in Hquiet;
      by apply app_singleton_neq in Hquiet.
  - intros net2 n2 Hthis Htok Hearly. rewrite getAccessToken_run, Hthis. simpl.
    by rewrite !bool_decide_eq_true_2.
Qed.

Lemma fetched_token_expires_five_minutes_early_witness :
  this warmNode
  = {| accessToken := Some "eyJ0eXAi";
       tokenExpiry := Some (1700000000120 + 3300 * 1000) |}
  /\ getAccessToken netNoToken warmNode = (inr (Some "eyJ0eXAi"), warmNode).
Proof.
  destruct (fetched_token_expires_five_minutes_early netUp coldNode
              {| access_token := "eyJ0eXAi"; expires_in := 3600 |} eq_refl eq_refl)
    as (_ & Hthis & _ & _ & _ & Hhit).
  split; [exact Hthis|].
  apply Hhit; [reflexivity | discriminate | by vm_compute].
Defined.

(** ** Requests to the API *)

(** [makeRequest], case by case, after its call of [getAccessToken]. *)
Lemma makeRequest_run net method endpoint data n :
  makeRequest net method endpoint data n =
    match getAccessToken net n with
    | (inl _, n1) =>
        (inl (newError "Zoom API request failed"), complain "Zoom API error:" n1)
    | (inr token, n1) =>
        let config := requestConfig method endpoint token data in
        let r := apiReply net (clock n1) config in
        match outcome r with
        | inr d => (inr d, elapse (ApiCall config) r n1)
        | inl e =>
            (inl (newError (orElse (err_response_message e) "Zoom API request failed")),
             complain "Zoom API error:" (elapse (ApiCall config) r n1))
        end
    end.
Proof.
  unfold makeRequest, tryCatchS, mbind, Svc_bind.
  pose proof (getAccessToken_run net n) as Hrun.
  destruct (getAccessToken net n) as [[e|token] n1].
  - assert (e = newError "Failed to get Zoom access token") as ->.
    { destruct (truthy _ && laterThan _ _); [done|]. cbn zeta in Hrun.
      destruct (outcome (tokenReply net (clock n))); by simplify_eq. }
    reflexivity.
  - unfold axios, awaitReply. cbn zeta.
    destruct (outcome (apiReply net (clock n1) _)); reflexivity.
Qed.

Lemma apiCalls_app l1 l2 : apiCalls (l1 ++ l2) = apiCalls l1 ++ apiCalls l2.
Proof. unfold apiCalls. apply omap_app. Qed.

(** X13: when no token can be had, no API request goes out. The token
    endpoint is asked once, the cache stays as it was, and [makeRequest]
    throws with the fixed message [Zoom API request failed]: the message
    of the token failure is not passed on. The callers prefix their own
    text to that message. *)
Theorem without_token_nothing_is_sent net method endpoint data meetingId n e :
  truthy (accessToken (this n)) && laterThan (tokenExpiry (this n)) (clock n) = false ->
  outcome (tokenReply net (clock n)) = inl e ->
  let n' := (makeRequest net method endpoint data n).2 in
  (makeRequest net method endpoint data n).1
  = inl (newError "Zoom API request failed")
  /\ wire n' = wire n ++ [TokenPost]
  /\ apiCalls (wire n') = apiCalls (wire n)
  /\ this n' = this n
  /\ stderr n' = stderr n ++ ["Zoom token error:"; "Zoom API error:"]
  /\ (getMeeting net meetingId n).1
     = inl (newError "Failed to get meeting details: Zoom API request failed")
  /\ (service_deleteMeeting net meetingId n).1
     = inl (newError "Failed to delete meeting: Zoom API request failed").
Proof.
  intros Hmiss Hfail. cbn zeta.
  assert (Hmr : forall m ep dt,
    makeRequest net m ep dt n
    = (inl (newError "Zoom API request failed"),
       complain "Zoom API error:"
         (complain "Zoom token error:" (elapse TokenPost (tokenReply net (clock n)) n)))).
  { intros. rewrite makeRequest_run, getAccessToken_run, Hmiss. cbn zeta.
    by rewrite Hfail. }
  rewrite Hmr. simpl.
  split; [done|]. split; [done|].
  split; [rewrite apiCalls_app; simpl; by rewrite app_nil_r|].
  split; [done|]. split; [by rewrite <- app_assoc|].
  unfold getMeeting, service_deleteMeeting, tryCatchS, mbind, Svc_bind.
  by rewrite !Hmr.
Qed.

Lemma without_token_nothing_is_sent_witness :
  (service_deleteMeeting netNoToken "8451" coldNode).1
  = inl (newError "Failed to delete meeting: Zoom API request failed")
  /\ apiCalls (wire (makeRequest netNoToken "DELETE" "/meetings/8451" None coldNode).2)
     = [].
Proof.
  destruct (without_token_nothing_is_sent netNoToken "DELETE" "/meetings/8451" None
              "8451" coldNode _ eq_refl eq_refl) as (_ & _ & Hnone & _ & _ & _ & Hdel).
  split; [exact Hdel | exact Hnone].
Defined.

(** X14: with a token at hand [makeRequest] sends exactly one request: to
    the base URL followed by the endpoint, with the token as bearer, and
    with the data attached when there is some. It returns the data of the
    reply; when the request is rejected it throws with the message of the
    API's response if that is a non-empty string, and otherwise with
    [Zoom API request failed], whatever axios' own message says. *)
Theorem one_request_with_the_token net method endpoint data n token n1 :
  getAccessToken net n = (inr (Some token), n1) ->
  let config := requestConfig method endpoint (Some token) data in
  let r := apiReply net (clock n1) config in
  let n' := (makeRequest net method endpoint data n).2 in
  wire n' = wire n1 ++ [ApiCall config]
  /\ cfg_url config = "https://api.zoom.us/v2" +:+ endpoint
  /\ cfg_authorization config = "Bearer " +:+ token
  /\ (forall o, data = Some (JObj o) -> cfg_data config = data)
  /\ (data = None -> cfg_data config = None)
  /\ clock n' = clock n1 + Z.of_N (elapsed r)
  /\ this n' = this n1
  /\ (forall d, outcome r = inr d ->
        (makeRequest net method endpoint data n).1 = inr d)
  /\ (forall e, outcome r = inl e ->
        (makeRequest net method endpoint data n).1
        = inl (newError match err_response_message e with
                        | Some m => if bool_decide (m <> "") then m
                                    else "Zoom API request failed"
                        | None => "Zoom API request failed"
                        end)).
Proof.
  intros Htok. cbn zeta. rewrite makeRequest_run, Htok. cbn zeta.
  assert (Hdata : (forall o, data = Some (JObj o) ->
                     cfg_data (requestConfig method endpoint (Some token) data) = data)
                  /\ (data = None ->
                      cfg_data (requestConfig method endpoint (Some token) data) = None))
    by (split; [intros o -> | intros ->]; reflexivity).
  destruct Hdata as [Hobj Hnull].
  destruct (outcome (apiReply net (clock n1) _)) as [e|d] eqn:Hout; simpl;
    (split; [reflexivity|]); (split; [reflexivity|]); (split; [reflexivity|]);
    (split; [exact Hobj|]); (split; [exact Hnull|]);
    (split; [reflexivity|]); (split; [reflexivity|]).
  - split; [done|]. intros e' [= <-]. unfold orElse, truthy.
    destruct (err_response_message e); [case_bool_decide|]; reflexivity.
  - split; [by intros ? [= <-] | done].
Qed.

Lemma one_request_with_the_token_witness :
  (makeRequest netRejecting "GET" "/meetings/8451" None warmNode).1
  = inl (newError "Meeting does not exist: 8451.").
Proof.
  destruct (one_request_with_the_token netRejecting "GET" "/meetings/8451" None
              warmNode "eyJ0eXAi" warmNode) as (_ & _ & _ & _ & _ & _ & _ & _ & Herr).
  - by vm_compute.
  - cbn zeta in Herr. erewrite Herr; [|by vm_compute]. reflexivity.
Defined.

Lemma laterThan_earlier expiry t0 t1 :
  t0 <= t1 -> laterThan expiry t1 = true -> laterThan expiry t0 = true.
Proof.
  unfold laterThan. destruct expiry; intros Hle H;
    apply bool_decide_eq_true in H; apply bool_decide_eq_true; lia.
Qed.

(** [makeRequest] with a token in the cache that is still fresh. *)
Lemma makeRequest_warm net method endpoint data n :
  truthy (accessToken (this n)) && laterThan (tokenExpiry (this n)) (clock n) = true ->
  makeRequest net method endpoint data n =
    let config := requestConfig method endpoint (accessToken (this n)) data in
    let r := apiReply net (clock n) config in
    match outcome r with
    | inr d => (inr d, elapse (ApiCall config) r n)
    | inl e =>
        (inl (newError (orElse (err_response_message e) "Zoom API request failed")),
         complain "Zoom API error:" (elapse (ApiCall config) r n))
    end.
Proof. intros Hwarm. by rewrite makeRequest_run, getAccessToken_run, Hwarm. Qed.

(** X15: [updateMeeting] is a PATCH followed by a GET. With a token in
    the cache that stays fresh, a rejected PATCH ends the call with
    [Failed to update meeting: ...] and no GET is sent; an accepted PATCH
    is followed by the GET, whose data is the result. When that GET is
    rejected the call throws
    [Failed to update meeting: Failed to get meeting details: ...]
    although the update itself was accepted. *)
Theorem update_is_patch_then_get net meetingId updateData n :
  let token := accessToken (this n) in
  let patch :=
    requestConfig "PATCH" ("/meetings/" +:+ meetingId) token (Some updateData) in
  let r1 := apiReply net (clock n) patch in
  let t1 := clock n + Z.of_N (elapsed r1) in
  let get := requestConfig "GET" ("/meetings/" +:+ meetingId) token None in
  let r2 := apiReply net t1 get in
  let res := service_updateMeeting net meetingId updateData n in
  truthy token = true ->
  laterThan (tokenExpiry (this n)) t1 = true ->
  match outcome r1 with
  | inl e1 =>
      res.1 = inl (newError ("Failed to update meeting: "
                             +:+ orElse (err_response_message e1)
                                   "Zoom API request failed"))
      /\ wire res.2 = wire n ++ [ApiCall patch]
  | inr _ =>
      wire res.2 = wire n ++ [ApiCall patch; ApiCall get]
      /\ match outcome r2 with
         | inl e2 =>
             res.1 = inl (newError ("Failed to update meeting: "
                                    +:+ "Failed to get meeting details: "
                                    +:+ orElse (err_response_message e2)
                                          "Zoom API request failed"))
         | inr d => res.1 = inr d
         end
  end.
Proof.
  cbn zeta. intros Htok Hlater.
  assert (Hwarm0 : truthy (accessToken (this n))
                   && laterThan (tokenExpiry (this n)) (clock n) = true).
  { rewrite Htok. simpl. eapply laterThan_earlier; [|exact Hlater]. lia. }
  unfold service_updateMeeting, getMeeting, tryCatchS, mbind, Svc_bind.
  rewrite (makeRequest_warm _ _ _ _ _ Hwarm0). cbn zeta.
  destruct (outcome (apiReply net (clock n) _)) as [e1|d1]; [by split|].
  rewrite makeRequest_warm by (simpl; by rewrite Htok, Hlater). cbn zeta. simpl.
  destruct (outcome (apiReply net _ _)) as [e2|d2]; simpl;
    by rewrite <- app_assoc.
Qed.

Lemma update_is_patch_then_get_witness :
  (service_updateMeeting netPatchOnly "8451" (JObj {[ "topic" := JStr "Talk" ]})
     warmNode).1
  = inl (newError ("Failed to update meeting: Failed to get meeting details: "
                   +:+ "Meeting does not exist: 8451."))
  /\ apiCalls (wire (service_updateMeeting netPatchOnly "8451"
                       (JObj {[ "topic" := JStr "Talk" ]}) warmNode).2)
     = [("PATCH", "https://api.zoom.us/v2/meetings/8451");
        ("GET", "https://api.zoom.us/v2/meetings/8451")].
Proof.
  pose proof (update_is_patch_then_get netPatchOnly "8451"
                (JObj {[ "topic" := JStr "Talk" ]}) warmNode) as H.
  cbn zeta in H. specialize (H eq_refl).
  assert (Hlater : laterThan (tokenExpiry (this warmNode))
                     (clock warmNode
                      + Z.of_N (elapsed (apiReply netPatchOnly (clock warmNode)
                          (requestConfig "PATCH" ("/meetings/" +:+ "8451")
                             (accessToken (this warmNode))
                             (Some (JObj {[ "topic" := JStr "Talk" ]})))))) = true)
    by by vm_compute.
  specialize (H Hlater). simpl in H. destruct H as [_ Hres].
  split; [exact Hres | by vm_compute].
Defined.

(** ** Generated passwords *)

Lemma length_append (s1 s2 : string) :
  String.length (s1 +:+ s2) = (String.length s1 + String.length s2)%nat.
Proof. induction s1 as [|a s1 IH]; simpl; [done | by rewrite IH]. Qed.

Lemma list_ascii_of_string_append (s1 s2 : string) :
  String.list_ascii_of_string (s1 +:+ s2) = String.list_ascii_of_string s1 ++ String.list_ascii_of_string s2.
Proof. induction s1 as [|a s1 IH]; simpl; [done | by rewrite IH]. Qed.

Lemma get_in_range (s : string) : forall i,
  (i < String.length s)%nat ->
  exists c, String.get i s = Some c /\ c ∈ String.list_ascii_of_string s.
Proof.
  induction s as [|a s IH]; intros i Hi; simpl in *; [lia|].
  destruct i as [|i].
  - exists a. split; [done | apply list_elem_of_here].
  - destruct (IH i ltac:(lia)) as (c & Hget & Hin).
    exists c. split; [done | by apply list_elem_of_further].
Qed.

Lemma charAt_length s i : (String.length (charAt s i) <= 1)%nat.
Proof. unfold charAt. destruct (String.get i s); simpl; lia. Qed.

Lemma generatePasswordLoop_run net rounds : forall result n,
  exists pw,
    generatePasswordLoop net rounds result n
    = (inr pw, {| this := this n; clock := clock n; wire := wire n;
                  stderr := stderr n; draws := draws n + rounds |})
    /\ (String.length pw <= String.length result + rounds)%nat
    /\ ((forall k, (draws n <= k < draws n + rounds)%nat ->
                   (randomIndex net k < String.length chars)%nat) ->
        String.length pw = (String.length result + rounds)%nat
        /\ forall c, c ∈ String.list_ascii_of_string pw ->
                     c ∈ String.list_ascii_of_string result \/ c ∈ String.list_ascii_of_string chars).
Proof.
  induction rounds as [|rounds IH]; intros result n.
  { exists result. cbn [generatePasswordLoop]. rewrite !Nat.add_0_r. destruct n.
    split; [reflexivity|]. split; [lia|]. intros _. split; [lia | by left]. }
  cbn [generatePasswordLoop]. unfold mbind, Svc_bind, appendRandomChar.
  destruct (IH (result +:+ charAt chars (randomIndex net (draws n)))
               {| this := this n; clock := clock n; wire := wire n;
                  stderr := stderr n; draws := S (draws n) |})
    as (pw & Hrun & Hlen & Hgood).
  exists pw. rewrite Hrun. cbn [this clock wire stderr draws] in *.
  replace (S (draws n) + rounds)%nat with (draws n + S rounds)%nat by lia.
  split; [reflexivity|].
  rewrite length_append in *.
  pose proof (charAt_length chars (randomIndex net (draws n))).
  split; [lia|]. intros Hbound.
  destruct (get_in_range chars (randomIndex net (draws n)))
    as (c0 & Hget & Hin0); [apply Hbound; lia|].
  destruct Hgood as [Hlen' Hin']; [intros k Hk; apply Hbound; lia|].
  unfold charAt in *. rewrite Hget in *. cbn [String.length] in *.
  split; [lia|]. intros c Hc. destruct (Hin' c Hc) as [Hc'|Hc']; [|by right].
  rewrite list_ascii_of_string_append in Hc'. simpl in Hc'.
  apply elem_of_app in Hc' as [?|Hc']; [by left|].
  apply list_elem_of_singleton in Hc'. subst c. by right.
Qed.

(** X16: [generatePassword(length)] draws [length] random indices and
    changes nothing else. As [Math.random()] is below 1 every index is
    below the 62 characters of the alphabet, and then the password has
    exactly [length] characters, each a letter or a digit of that
    alphabet. *)
Theorem generated_password_is_alphanumeric net length n :
  (forall k, (draws n <= k < draws n + length)%nat -> (randomIndex net k < 62)%nat) ->
  exists pw,
    generatePassword net length n
    = (inr pw, {| this := this n; clock := clock n; wire := wire n;
                  stderr := stderr n; draws := draws n + length |})
    /\ String.length pw = length
    /\ forall c, c ∈ String.list_ascii_of_string pw -> c ∈ String.list_ascii_of_string chars.
Proof.
  intros Hbound. unfold generatePassword.
  destruct (generatePasswordLoop_run net length "" n) as (pw & Hrun & _ & Hgood).
  destruct Hgood as [Hlen Hin]; [exact Hbound|].
  exists pw. split; [exact Hrun|]. split; [exact Hlen|].
  intros c Hc. destruct (Hin c Hc) as [Hnil|]; [|done].
  by apply elem_of_nil in Hnil.
Qed.

Lemma generated_password_is_alphanumeric_witness :
  (generatePassword netUp 8 coldNode).1 = inr "dkryFMT0".
Proof.
  destruct (generated_password_is_alphanumeric netUp 8 coldNode) as (pw & Hrun & _).
  - intros k Hk. simpl in *. lia.
  - rewrite Hrun. simpl. f_equal.
    assert (H : (generatePassword netUp 8 coldNode).1 = inr "dkryFMT0")
      by by vm_compute.
    rewrite Hrun in H. by injection H.
Defined.

(** ** Creating a meeting *)

Lemma sent_app n n' l : wire n' = wire n ++ l -> sent n n' = l.
Proof. unfold sent. intros ->. by rewrite drop_app_length. Qed.

(** Reading properties sends nothing and keeps the node. *)
Lemma pick_node result keys n : (pick result keys n).2 = n.
Proof.
  induction keys as [|key keys IH]; [reflexivity|].
  cbn [pick]. unfold mbind, Svc_bind, getProperty.
  destruct result as [| | | | |obj]; unfold mret, Svc_ret, throwS; try reflexivity;
    destruct (pick _ keys n) as [[e|picked] n'] eqn:Hp; simpl in *; by subst.
Qed.

(** The object [createMeeting] builds from a reply that is an object: the
    listed keys, each with the value the reply has for it. *)
Lemma pick_object r keys n :
  exists o, pick (JObj r) keys n = (inr o, n)
            /\ forall k, o !! k = if decide (k ∈ keys) then r !! k else None.
Proof.
  induction keys as [|key keys IH].
  { exists ∅. split; [reflexivity|]. intros k. rewrite lookup_empty.
    by rewrite decide_False by apply not_elem_of_nil. }
  destruct IH as (o & Hrun & Hlook). cbn [pick getProperty].
  unfold mbind, Svc_bind, mret, Svc_ret.
  rewrite Hrun. eexists. split; [reflexivity|]. intros k.
  destruct (decide (k = key)) as [-> | Hne].
  - rewrite decide_True by apply list_elem_of_here.
    destruct (r !! key) eqn:Hr; [by rewrite lookup_insert_eq|].
    rewrite Hlook. by case_decide.
  - assert (Hiff : k ∈ key :: keys <-> k ∈ keys)
      by (rewrite elem_of_cons; split; [intros [?|?]; done | by right]).
    rewrite (decide_ext _ _ _ _ Hiff), <- Hlook.
    destruct (r !! key); [by rewrite lookup_insert_ne|done].
Qed.

(** What [makeRequest] puts on the network: at most one token request,
    then at most one API request, built from the arguments. *)
Lemma makeRequest_sent net method endpoint data n :
  exists token,
    let config := requestConfig method endpoint token data in
    sent n (makeRequest net method endpoint data n).2 = [ApiCall config]
    \/ sent n (makeRequest net method endpoint data n).2 = [TokenPost; ApiCall config]
    \/ sent n (makeRequest net method endpoint data n).2 = [TokenPost].
Proof.
  rewrite makeRequest_run, getAccessToken_run.
  destruct (truthy _ && laterThan _ _).
  - exists (accessToken (this n)). cbn zeta. left.
    destruct (outcome (apiReply net _ _)); by apply sent_app.
  - cbn zeta. destruct (outcome (tokenReply net (clock n))) as [e|d].
    + exists None. right. right. by apply sent_app.
    + exists (Some (access_token d)). right. left. cbn zeta.
      destruct (outcome (apiReply net _ _)); apply sent_app; simpl;
        by rewrite <- app_assoc.
Qed.

(** A request draws no random number. *)
Lemma makeRequest_draws net method endpoint data n :
  draws (makeRequest net method endpoint data n).2 = draws n.
Proof.
  rewrite makeRequest_run, getAccessToken_run.
  destruct (truthy _ && laterThan _ _); cbn zeta.
  - by destruct (outcome (apiReply net _ _)).
  - destruct (outcome (tokenReply net (clock n))); [done|]. cbn zeta.
    by destruct (outcome (apiReply net _ _)).
Qed.

(** The node [createMeeting] leaves is the one its request leaves, sent
    after the password is drawn. *)
Lemma service_createMeeting_node net meetingData n :
  exists pw n0,
    generatePassword net 8 n = (inr pw, n0)
    /\ wire n0 = wire n
    /\ draws n0 = (draws n + 8)%nat
    /\ ((forall k, (draws n <= k < draws n + 8)%nat -> (randomIndex net k < 62)%nat) ->
        String.length pw = 8%nat
        /\ forall c, c ∈ String.list_ascii_of_string pw ->
                     c ∈ String.list_ascii_of_string chars)
    /\ (service_createMeeting net meetingData n).2
       = (makeRequest net "POST" "/users/me/meetings"
            (Some (JObj (spread (defaultSettings pw) meetingData))) n0).2.
Proof.
  destruct (generatePasswordLoop_run net 8 "" n) as (pw & Hrun & _ & Hgood).
  set (n0 := {| this := this n; clock := clock n; wire := wire n;
                stderr := stderr n; draws := draws n + 8 |}) in *.
  exists pw, n0. split; [exact Hrun|]. split; [reflexivity|]. split; [reflexivity|].
  split.
  { intros Hbound. destruct (Hgood Hbound) as [Hlen Hin]. split; [exact Hlen|].
    intros c Hc. destruct (Hin c Hc) as [Hnil|]; [|done].
    by apply elem_of_nil in Hnil. }
  unfold service_createMeeting, generatePassword.
  unfold mbind at 1. unfold Svc_bind at 1. rewrite Hrun.
  unfold tryCatchS, mbind, Svc_bind, throwS.
  destruct (makeRequest _ _ _ _ n0) as [[e|result] n1]; [reflexivity|].
  pose proof (pick_node result createdMeetingKeys n1) as Hnode.
  destruct (pick result createdMeetingKeys n1) as [[e|picked] n2]; simpl in *;
    by subst.
Qed.

(** X17: [createMeeting] first generates a password of eight characters,
    drawing eight random numbers, and then sends at most one API request,
    a POST to [/users/me/meetings] whose body is the caller's meeting
    data laid over the defaults: every key the caller gives goes out with
    the caller's value, and a key the caller leaves out goes out with its
    default, the password being the one just generated (eight letters and
    digits, as every random index is below 62). The overlay is by key: a
    [settings] object given by the caller goes out as it is, with none of
    the default settings added to it. *)
Theorem create_meeting_lays_data_over_defaults net meetingData n config :
  ApiCall config ∈ sent n (service_createMeeting net meetingData n).2 ->
  cfg_method config = "POST"
  /\ cfg_url config = "https://api.zoom.us/v2/users/me/meetings"
  /\ apiCalls (sent n (service_createMeeting net meetingData n).2)
     = [("POST", "https://api.zoom.us/v2/users/me/meetings")]
  /\ draws (service_createMeeting net meetingData n).2 = (draws n + 8)%nat
  /\ exists pw body,
       (generatePassword net 8 n).1 = inr pw
       /\ ((forall k, (draws n <= k < draws n + 8)%nat ->
                      (randomIndex net k < 62)%nat) ->
           String.length pw = 8%nat
           /\ forall c, c ∈ String.list_ascii_of_string pw ->
                        c ∈ String.list_ascii_of_string chars)
       /\ cfg_data config = Some (JObj body)
       /\ (forall k v, meetingData !! k = Some v -> body !! k = Some v)
       /\ (forall k, meetingData !! k = None -> body !! k = defaultSettings pw !! k)
       /\ (forall custom, meetingData !! "settings" = Some (JObj custom) ->
             body !! "settings" = Some (JObj custom))
       /\ (meetingData !! "password" = None -> body !! "password" = Some (JStr pw)).
Proof.
  destruct (service_createMeeting_node net meetingData n)
    as (pw & n0 & Hpw & Hwire & Hdraws & Hgood & ->).
  set (body := spread (defaultSettings pw) meetingData).
  rewrite makeRequest_draws, Hdraws.
  unfold sent. rewrite <- Hwire. fold (sent n0 (makeRequest net "POST"
    "/users/me/meetings" (Some (JObj body)) n0).2).
  destruct (makeRequest_sent net "POST" "/users/me/meetings" (Some (JObj body)) n0)
    as (token & [-> | [-> | ->]]); intros Hin.
  3:{ apply list_elem_of_singleton in Hin. discriminate. }
  2: apply elem_of_cons in Hin as [Hin | Hin]; [discriminate|].
  all: apply list_elem_of_singleton in Hin; injection Hin as ->.
  all: split; [reflexivity|]; split; [reflexivity|]; split; [reflexivity|].
  all: split; [reflexivity|].
  all: exists pw, body; split; [by rewrite Hpw|]; split; [exact Hgood|].
  all: split; [reflexivity|].
  all: unfold body, spread.
  all: split; [intros k v Hk; by apply lookup_union_Some_l|].
  all: split; [intros k Hk; by rewrite lookup_union_r|].
  all: split; [intros custom Hk; by apply lookup_union_Some_l|].
  all: intros Hk; by rewrite lookup_union_r.
Qed.

Lemma create_meeting_lays_data_over_defaults_witness :
  exists body,
    cfg_data (requestConfig "POST" "/users/me/meetings" (Some "eyJ0eXAi")
                (Some (JObj (spread (defaultSettings "dkryFMT0")
                               {[ "topic" := JStr "Talk";
                                  "settings" := JObj {[ "waiting_room" := JBool false ]} ]}))))
    = Some (JObj body)
    /\ body !! "settings" = Some (JObj {[ "waiting_room" := JBool false ]})
    /\ body !! "duration" = Some (JNum 60)
    /\ body !! "password" = Some (JStr "dkryFMT0").
Proof.
  destruct (create_meeting_lays_data_over_defaults netUp
              {[ "topic" := JStr "Talk";
                 "settings" := JObj {[ "waiting_room" := JBool false ]} ]}
              warmNode
              (requestConfig "POST" "/users/me/meetings" (Some "eyJ0eXAi")
                 (Some (JObj (spread (defaultSettings "dkryFMT0")
                                {[ "topic" := JStr "Talk";
                                   "settings" :=
                                     JObj {[ "waiting_room" := JBool false ]} ]})))))
    as (_ & _ & _ & _ & pw & body & Hpw & _ & Hdata & _ & _ & Hsettings & Hpassword).
  - vm_compute. apply list_elem_of_here.
  - exists body. split; [exact Hdata|]. split; [by apply Hsettings|].
    assert (Hgen : (generatePassword netUp 8 warmNode).1 = inr "dkryFMT0")
      by by vm_compute.
    rewrite Hgen in Hpw. injection Hpw as <-.
    split; [|by apply Hpassword].
    simpl in Hdata. injection Hdata as <-. by vm_compute.
Defined.

(** [createMeeting] after its password is drawn. *)
Lemma service_createMeeting_run net meetingData n :
  exists pw n0,
    service_createMeeting net meetingData n
    = tryCatchS
        (result ← makeRequest net "POST" "/users/me/meetings"
                    (Some (JObj (spread (defaultSettings pw) meetingData)));
         pick result createdMeetingKeys)
        (fun error =>
           throwS (newError ("Failed to create Zoom meeting: " +:+ err_message error)))
        n0.
Proof.
  destruct (generatePasswordLoop_run net 8 "" n) as (pw & Hrun & _).
  eexists pw, _. unfold service_createMeeting, generatePassword.
  unfold mbind at 1. unfold Svc_bind at 1. rewrite Hrun. reflexivity.
Qed.

(** Only listed keys are picked. *)
Lemma pick_keys result keys : forall n o n',
  pick result keys n = (inr o, n') ->
  forall k, is_Some (o !! k) -> k ∈ keys.
Proof.
  induction keys as [|key keys IH]; intros n o n' Hrun k Hk.
  { injection Hrun as <- _. rewrite lookup_empty in Hk. by destruct Hk. }
  cbn [pick] in Hrun. unfold mbind, Svc_bind, mret, Svc_ret in Hrun.
  destruct (getProperty result key n) as [[e|v] n1]; [done|].
  destruct (pick result keys n1) as [[e|picked] n2] eqn:Hp; [done|].
  injection Hrun as <- _. specialize (IH _ _ _ Hp k).
  destruct v as [v|]; [|by apply list_elem_of_further, IH].
  destruct (decide (k = key)) as [-> | Hne]; [apply list_elem_of_here|].
  rewrite lookup_insert_ne in Hk by done. by apply list_elem_of_further, IH.
Qed.

(** X18: what [createMeeting] returns is cut down to the fourteen listed
    fields: it has no other key, and when the API's reply is an object
    each listed key has the value the reply has for it, so anything else in
    the reply is dropped. A reply of [null] makes the call throw
    [Failed to create Zoom meeting: Cannot read properties of null ...]. *)
Theorem created_meeting_is_cut_to_listed_fields net meetingData n :
  exists pw n0,
    let reply := makeRequest net "POST" "/users/me/meetings"
                   (Some (JObj (spread (defaultSettings pw) meetingData))) n0 in
    (forall o, (service_createMeeting net meetingData n).1 = inr o ->
       (forall k, is_Some (o !! k) -> k ∈ createdMeetingKeys)
       /\ exists result, reply.1 = inr result
            /\ forall r, result = JObj r ->
                 forall k, o !! k = if decide (k ∈ createdMeetingKeys) then r !! k
                                    else None)
    /\ (forall r, reply.1 = inr (JObj r) ->
          exists o, (service_createMeeting net meetingData n).1 = inr o)
    /\ (reply.1 = inr JNull ->
          (service_createMeeting net meetingData n).1
          = inl (newError ("Failed to create Zoom meeting: "
                           +:+ "Cannot read properties of null (reading 'id')"))).
Proof.
  destruct (service_createMeeting_run net meetingData n) as (pw & n0 & ->).
  exists pw, n0. cbn zeta. unfold tryCatchS, mbind, Svc_bind, throwS.
  destruct (makeRequest _ _ _ _ n0) as [[e|result] n1]; cbn [fst snd].
  { split; [done|]. split; by intros. }
  split; [|split].
  - intros o Ho.
    destruct (pick result createdMeetingKeys n1) as [[e|picked] n2] eqn:Hp;
      cbn [fst snd] in Ho; [done|]. injection Ho as ->.
    split; [by eapply pick_keys|]. exists result. split; [done|].
    intros r ->. destruct (pick_object r createdMeetingKeys n1) as (o' & Hrun & Hlook).
    rewrite Hrun in Hp. by injection Hp as <- _.
  - intros r [= ->].
    destruct (pick_object r createdMeetingKeys n1) as (o' & Hrun & _).
    rewrite Hrun. by exists o'.
  - intros [= ->]. reflexivity.
Qed.

(** ** Listing meetings *)

(** X19: [listMeetings] passes its [type] filter and page size as a fourth
    argument that [makeRequest] does not have, so they never reach the
    API: whatever [type] is given, the one API request is a GET of
    [/users/me/meetings] without data, and the outcome is the same. The
    result is the [meetings] of the reply, or an empty array when the
    reply has none or a falsy one. *)
Theorem list_meetings_ignores_its_filter net type n config :
  (forall other, listMeetings net type n = listMeetings net other n)
  /\ (ApiCall config ∈ sent n (listMeetings net type n).2 ->
        cfg_method config = "GET"
        /\ cfg_url config = "https://api.zoom.us/v2/users/me/meetings"
        /\ cfg_data config = None)
  /\ (forall r n1,
        makeRequest net "GET" "/users/me/meetings" None n = (inr (JObj r), n1) ->
        listMeetings net type n
        = (inr match r !! "meetings" with
               | Some m => if jsTruthy m then m else JArr []
               | None => JArr []
               end, n1)).
Proof.
  split; [reflexivity|]. split.
  - assert (Hnode : (listMeetings net type n).2
                    = (makeRequest net "GET" "/users/me/meetings" None n).2).
    { unfold listMeetings, tryCatchS, mbind, Svc_bind, throwS, mret, Svc_ret.
      destruct (makeRequest _ _ _ _ n) as [[e|response] n1]; [reflexivity|].
      unfold getProperty. by destruct response. }
    rewrite Hnode.
    destruct (makeRequest_sent net "GET" "/users/me/meetings" None n)
      as (token & [-> | [-> | ->]]); intros Hin.
    3:{ apply list_elem_of_singleton in Hin. discriminate. }
    2: apply elem_of_cons in Hin as [Hin | Hin]; [discriminate|].
    all: apply list_elem_of_singleton in Hin; by injection Hin as ->.
  - intros r n1 Hreply.
    unfold listMeetings, tryCatchS, mbind, Svc_bind. by rewrite Hreply.
Qed.

Lemma created_meeting_is_cut_to_listed_fields_witness :
  exists o, (service_createMeeting netUp ∅ warmNode).1 = inr o
            /\ o !! "id" = Some (JNum 8451)
            /\ o !! "registrants" = None.
Proof.
  destruct (created_meeting_is_cut_to_listed_fields netUp ∅ warmNode)
    as (pw & n0 & Hcut & Hok & _).
  cbn zeta in *.
  assert (Ho : exists o, (service_createMeeting netUp ∅ warmNode).1 = inr o
                         /\ o !! "id" = Some (JNum 8451))
    by (eexists; by vm_compute).
  destruct Ho as (o & Ho & Hid). exists o. split; [exact Ho|]. split; [exact Hid|].
  destruct (Hcut o Ho) as [Hkeys _].
  destruct (o !! "registrants") eqn:Hr; [|done].
  assert (Hin : "registrants" ∈ createdMeetingKeys) by (apply Hkeys; by rewrite Hr).
  vm_compute in Hin. repeat (apply elem_of_cons in Hin as [Hin | Hin]; [discriminate|]).
  by apply elem_of_nil in Hin.
Defined.
